(** * reminderbot: the scheduling, recurrence and tier policy core

    A shallow embedding of [reminderbot.py]: the time utilities, the JSON
    backed stores, [CreditPolicy], [ReminderScheduler] and the reminder
    actions of [on_callback], followed by the properties of the
    specification that concern them.

    Conventions of the embedding.
    - An aware [datetime] whose zone is [pytz.UTC] is the number of
      microseconds since the Unix epoch, a [Z].  [to_iso] and [from_iso] are
      inverse to each other on such values, so an ISO string held in a record
      ([when_iso], [created_at], ...) is identified with the instant it denotes.
    - The range of [datetime] (years 1 to 9999) is modelled where the program
      adds a [timedelta] made from stored data or steps through the days in
      a loop ([_next_occurrence], the weekly loop of [cmd_repeat]): there an
      [OverflowError] is an outcome.  A clock read and a stored instant are
      taken to lie more than a day inside the range, so converting one to a
      zone, and moving a clock read by one day or by the minutes of a snooze
      button, stays inside it.
    - A [datetime] in a [pytz] zone is a pair: its wall clock fields and the
      fixed UTC offset of the [tzinfo] instance it carries.
    - The JSON files under [data/] are finite maps; the order of a Python
      dictionary is not modelled.
    - Message texts and keyboards of the chat layer are not modelled; a reply
      is a tag, a delivery attempt is an entry of an outbox. *)

From Stdlib Require Import ZArith Lia Ascii String.
From stdpp Require Import gmap strings list fin_maps.

Local Open Scope Z_scope.

(** ** Time utilities *)

Definition timedelta_seconds (s : Z) : Z := s * 1000000.
Definition timedelta_minutes (m : Z) : Z := m * 60000000.
Definition timedelta_days (d : Z) : Z := d * 86400000000.
Definition timedelta_weeks (w : Z) : Z := timedelta_days (7 * w).

(** An aware datetime in a [pytz] zone.  [naive] holds the wall clock fields
    (year .. microsecond) as microseconds since 1970-01-01T00:00:00 of that
    wall clock; [utcoffset] is [tzinfo._utcoffset], which for a [pytz] zone is
    a constant of the [tzinfo] instance (one instance per offset of the zone). *)
Record datetime : Type := mk_datetime { naive : Z; utcoffset : Z }.

(** [dt + timedelta]: the wall clock fields move, the [tzinfo] instance is
    kept.  The result when it is in the range of [datetime]; [add_timedelta]
    below adds the range check. *)
Definition dt_add (dt : datetime) (td : Z) : datetime :=
  {| naive := naive dt + td; utcoffset := utcoffset dt |}.

(** [dt.astimezone(pytz.UTC)]: [(dt - dt.utcoffset())] relabelled as UTC.
    The result when it is in the range of [datetime]; [to_utc] below adds the
    range check. *)
Definition astimezone_utc (dt : datetime) : Z := naive dt - utcoffset dt.

(** [dt.weekday()], Monday is 0; 1970-01-01 was a Thursday. *)
Definition weekday (dt : datetime) : Z := (naive dt / 86400000000 + 3) mod 7.
Definition hour (dt : datetime) : Z := (naive dt / 3600000000) mod 24.
Definition minute (dt : datetime) : Z := (naive dt / 60000000) mod 60.
Definition second (dt : datetime) : Z := (naive dt / 1000000) mod 60.
Definition microsecond (dt : datetime) : Z := naive dt mod 1000000.

(** The zone objects of [pytz]: a [StaticTzInfo] has one offset; a [DstTzInfo]
    has the sorted table [_utc_transition_times] and, index by index, the
    offset in force from that transition on ([_transition_info], of which only
    the UTC offset matters here). *)
Inductive tzinfo : Type :=
| StaticTzInfo (_utcoffset : Z)
| DstTzInfo (_utc_transition_times : list Z) (_transition_info : list Z).

(** [bisect.bisect_right] on a sorted list: the number of entries [<= x]. *)
Fixpoint bisect_right (a : list Z) (x : Z) : nat :=
  match a with
  | [] => O
  | t :: a' => if t <=? x then S (bisect_right a' x) else O
  end.

(** The offset [tz.fromutc] selects for the UTC instant [u]:
    [idx = max(0, bisect_right(times, u) - 1)], then [_transition_info[idx]]. *)
Definition utcoffset_at (tz : tzinfo) (u : Z) : Z :=
  match tz with
  | StaticTzInfo off => off
  | DstTzInfo times infos => nth (Nat.pred (bisect_right times u)) infos 0
  end.

(** [utc_dt.astimezone(tz)], that is [tz.fromutc]. *)
Definition astimezone (tz : tzinfo) (u : Z) : datetime :=
  {| naive := u + utcoffset_at tz u; utcoffset := utcoffset_at tz u |}.

(** The range of [datetime]: [datetime.min] is 0001-01-01T00:00:00 and
    [datetime.max] is 9999-12-31T23:59:59.999999, here in microseconds since
    1970-01-01T00:00:00. *)
Definition datetime_min : Z := -62135596800000000.
Definition datetime_max : Z := 253402300799999999.
Definition in_range (n : Z) : bool := (datetime_min <=? n) && (n <=? datetime_max).

(** ** Models *)

Record UserProfile : Type := mk_UserProfile {
  user_id : Z;
  timezone : string;
  is_premium : bool;
  premium_tier : string;
  credits : Z;
  name : option string;
  username : option string;
  first_seen : option Z;
  last_seen : option Z;
  preferences : option string;
  usage_stats : option string
}.

(** The [recurring] dictionary; a key that is absent is [None]. *)
Record Recurring : Type := mk_Recurring {
  rec_type : option string;
  rec_interval : option Z;
  rec_dow : option Z;
  rec_time : option string
}.

(** [r_user_id] and [r_timezone] are the fields [user_id] and [timezone] of
    [Reminder]; [location] and the two dictionaries of [UserProfile] are kept
    as their JSON text. *)
Record Reminder : Type := mk_Reminder {
  id : string;
  chat_id : Z;
  r_user_id : Z;
  text : string;
  when_iso : Z;
  r_timezone : string;
  created_at : Z;
  snoozes_used : Z;
  recurring : option Recurring;
  done : bool;
  category : option string;
  priority : Z;
  tags : option (list string);
  location : option string;
  template_id : option string
}.

Record RedeemCode : Type := mk_RedeemCode {
  code : string;
  kind : string;
  amount : Z;
  expires_at : option Z;
  max_uses : Z;
  used : Z;
  plan_name : option string
}.

Definition set_when_iso (w : Z) (r : Reminder) : Reminder :=
  mk_Reminder (id r) (chat_id r) (r_user_id r) (text r) w (r_timezone r)
    (created_at r) (snoozes_used r) (recurring r) (done r) (category r)
    (priority r) (tags r) (location r) (template_id r).

Definition set_snoozes_used (n : Z) (r : Reminder) : Reminder :=
  mk_Reminder (id r) (chat_id r) (r_user_id r) (text r) (when_iso r) (r_timezone r)
    (created_at r) n (recurring r) (done r) (category r)
    (priority r) (tags r) (location r) (template_id r).

Definition set_done (b : bool) (r : Reminder) : Reminder :=
  mk_Reminder (id r) (chat_id r) (r_user_id r) (text r) (when_iso r) (r_timezone r)
    (created_at r) (snoozes_used r) (recurring r) b (category r)
    (priority r) (tags r) (location r) (template_id r).

Definition has_key {A : Type} (o : option A) : bool :=
  match o with Some _ => true | None => false end.

(** [if r.recurring:] holds for a dictionary with at least one key. *)
Definition dict_truthy (rec : Recurring) : bool :=
  has_key (rec_type rec) || has_key (rec_interval rec)
  || has_key (rec_dow rec) || has_key (rec_time rec).

(** [if r.recurring:] *)
Definition is_recurring (r : Reminder) : bool :=
  match recurring r with Some rec => dict_truthy rec | None => false end.

(** The empty dictionary of [r.recurring or {}]. *)
Definition empty_dict : Recurring := mk_Recurring None None None None.

(** [rec.get("type") == s] *)
Definition str_is (o : option string) (s : string) : bool :=
  match o with Some k => String.eqb k s | None => false end.

Definition set_premium (tier : string) (p : UserProfile) : UserProfile :=
  mk_UserProfile (user_id p) (timezone p) true tier (credits p) (name p)
    (username p) (first_seen p) (last_seen p) (preferences p) (usage_stats p).

Definition set_credits (c : Z) (p : UserProfile) : UserProfile :=
  mk_UserProfile (user_id p) (timezone p) (is_premium p) (premium_tier p) c (name p)
    (username p) (first_seen p) (last_seen p) (preferences p) (usage_stats p).

Definition set_used (n : Z) (c : RedeemCode) : RedeemCode :=
  mk_RedeemCode (code c) (kind c) (amount c) (expires_at c) (max_uses c) n (plan_name c).

(** ** Configuration and constants *)

Definition DEFAULT_TIMEZONE : string := "UTC".
Definition INITIAL_FREE_CREDITS : Z := 15.

Record TierInfo : Type := mk_TierInfo {
  max_active : Z;
  snooze_limit : Z;
  features : list string
}.

Definition FREE_info : TierInfo :=
  mk_TierInfo 20 1 ["basic_reminders"; "simple_recurring"]%string.
Definition SILVER_info : TierInfo :=
  mk_TierInfo 100 3 ["basic_reminders"; "simple_recurring"; "categories"; "templates"]%string.
Definition GOLD_info : TierInfo :=
  mk_TierInfo 300 5
    ["basic_reminders"; "simple_recurring"; "categories"; "templates";
     "smart_scheduling"; "location_reminders"]%string.
Definition PLATINUM_info : TierInfo :=
  mk_TierInfo 1000 10
    ["basic_reminders"; "simple_recurring"; "categories"; "templates";
     "smart_scheduling"; "location_reminders"; "ai_suggestions"; "team_sharing";
     "priority_support"]%string.

Definition PREMIUM_TIERS : gmap string TierInfo :=
  <["FREE"%string := FREE_info]>
    (<["SILVER"%string := SILVER_info]>
       (<["GOLD"%string := GOLD_info]>
          (<["PLATINUM"%string := PLATINUM_info]> ∅))).

(** ** The world the handlers run in *)

(** A job of the job queue, as [run_once(callback, when, name=.., data=..)]
    registers it; the callback is always [_run_reminder_job]. *)
Record Job : Type := mk_Job { job_when : Z; job_name : string; job_data : string }.

(** One call of [context.bot.send_message] for a reminder: the chat, the
    reminder snapshot the text was built from, and whether the call returned
    ([true]) or raised ([false]). *)
Record Delivery : Type := mk_Delivery { to_chat : Z; snapshot : Reminder; sent : bool }.

(** - [reminders_json], [users_json], [codes_json]: the files behind
      [ReminderStore], [UserStore] and [CodesStore];
    - [job_queue]: [app.job_queue], [None] when the job queue extra is not
      installed, otherwise the pending jobs, oldest registration first;
    - [ticks]: how many times [now_utc()] has been read;
    - [outbox]: the delivery attempts so far, oldest first. *)
Record World : Type := mk_World {
  reminders_json : gmap string Reminder;
  users_json : gmap Z UserProfile;
  codes_json : gmap string RedeemCode;
  job_queue : option (list Job);
  ticks : nat;
  outbox : list Delivery
}.

Definition set_reminders (m : gmap string Reminder) (w : World) : World :=
  mk_World m (users_json w) (codes_json w) (job_queue w) (ticks w) (outbox w).
Definition set_users (m : gmap Z UserProfile) (w : World) : World :=
  mk_World (reminders_json w) m (codes_json w) (job_queue w) (ticks w) (outbox w).
Definition set_codes (m : gmap string RedeemCode) (w : World) : World :=
  mk_World (reminders_json w) (users_json w) m (job_queue w) (ticks w) (outbox w).
Definition set_job_queue (q : option (list Job)) (w : World) : World :=
  mk_World (reminders_json w) (users_json w) (codes_json w) q (ticks w) (outbox w).
Definition tick (w : World) : World :=
  mk_World (reminders_json w) (users_json w) (codes_json w) (job_queue w) (S (ticks w)) (outbox w).
Definition log_delivery (d : Delivery) (w : World) : World :=
  mk_World (reminders_json w) (users_json w) (codes_json w) (job_queue w) (ticks w)
    (outbox w ++ [d]).

(** How a handler ends: it returns, it raises, or (in the model only) the
    fuel given to a [while] loop ran out before the loop ended. *)
Inductive exn : Type := UnknownTimeZoneError | SendFailed | OverflowError.
Inductive outcome (A : Type) : Type :=
| Return (a : A)
| Raise (e : exn)
| OutOfFuel.
Arguments Return {A} a.
Arguments Raise {A} e.
Arguments OutOfFuel {A}.

(** Sequencing: what raises, or runs out of fuel, ends the computation. *)
#[global] Instance outcome_bind : MBind outcome := fun A B f m =>
  match m with
  | Return a => f a
  | Raise e => Raise e
  | OutOfFuel => OutOfFuel
  end.

(** ** Date arithmetic with the range check

    [timedelta(days=days)]; [timedelta(weeks=w)] is [timedelta(days=7*w)].
    More than 999999999 days, either way, is an [OverflowError]. *)
Definition timedelta (days : Z) : outcome Z :=
  if (-999999999 <=? days) && (days <=? 999999999) then Return (timedelta_days days)
  else Raise OverflowError.

(** [dt + td]: an [OverflowError] when the wall clock fields leave the range. *)
Definition add_timedelta (dt : datetime) (td : Z) : outcome datetime :=
  if in_range (naive dt + td) then Return (dt_add dt td) else Raise OverflowError.

(** [dt.astimezone(pytz.UTC)] computes [dt - dt.utcoffset()]: an
    [OverflowError] when that leaves the range. *)
Definition to_utc (dt : datetime) : outcome Z :=
  if in_range (astimezone_utc dt) then Return (astimezone_utc dt)
  else Raise OverflowError.

(** ** Storage *)

Module ReminderStore.
Definition all (w : World) : list Reminder := (map_to_list (reminders_json w)).*2.
Definition get (reminder_id : string) (w : World) : option Reminder :=
  reminders_json w !! reminder_id.
Definition put (reminder : Reminder) (w : World) : World :=
  set_reminders (<[id reminder := reminder]> (reminders_json w)) w.
Definition delete (reminder_id : string) (w : World) : World :=
  set_reminders (base.delete reminder_id (reminders_json w)) w.
End ReminderStore.

Module CodesStore.
Definition get (c : string) (w : World) : option RedeemCode := codes_json w !! c.
Definition inc_used (c : string) (w : World) : World :=
  match codes_json w !! c with
  | Some rc => set_codes (<[c := set_used (used rc + 1) rc]> (codes_json w)) w
  | None => w
  end.
End CodesStore.

(** [now_utc()], where [clock n] is what the [n]-th read returns. *)
Definition now_utc (clock : nat -> Z) (w : World) : Z * World :=
  (clock (ticks w), tick w).

Module UserStore.
Section WithClock.
Variable clock : nat -> Z.

(** [UserProfile(user_id=user_id, first_seen=to_iso(now_utc()))] *)
Definition new_profile (uid : Z) (now : Z) : UserProfile :=
  mk_UserProfile uid DEFAULT_TIMEZONE false "FREE" INITIAL_FREE_CREDITS
    None None (Some now) None None None.

Definition get_user (uid : Z) (w : World) : UserProfile * World :=
  match users_json w !! uid with
  | Some u => (u, w)
  | None =>
      let '(now, w1) := now_utc clock w in
      let profile := new_profile uid now in
      (profile, set_users (<[uid := profile]> (users_json w1)) w1)
  end.
End WithClock.

Definition put_user (profile : UserProfile) (w : World) : World :=
  set_users (<[user_id profile := profile]> (users_json w)) w.
End UserStore.

(** ** Tier and credit policy *)

Definition get_user_tier_info (profile : UserProfile) : TierInfo :=
  let tier := if is_premium profile then premium_tier profile else "FREE"%string in
  default FREE_info (PREMIUM_TIERS !! tier).

Inductive DenyReason : Type :=
| ReminderLimitReached (current limit : Z) (tier : string)
| NoCreditsRemaining.

Module CreditPolicy.
Definition can_create (profile : UserProfile) (active_count : Z)
  : bool * option DenyReason :=
  let tier_info := get_user_tier_info profile in
  let limit := max_active tier_info in
  if active_count >=? limit then
    (false, Some (ReminderLimitReached active_count limit (premium_tier profile)))
  else if negb (is_premium profile) && (credits profile <=? 0) then
    (false, Some NoCreditsRemaining)
  else (true, None).

Definition consume_on_create (profile : UserProfile) : Z :=
  if is_premium profile then 0 else 1.

Definition get_snooze_limit (profile : UserProfile) : Z :=
  snooze_limit (get_user_tier_info profile).
End CreditPolicy.

(** ** The scheduler *)

Module ReminderScheduler.
Section WithEnvironment.
Variable clock : nat -> Z.
(** [pytz.timezone(name)]; [None] stands for [UnknownTimeZoneError]. *)
Variable pytz_timezone : string -> option tzinfo.

(** [jq.run_once(self._run_reminder_job, when, name=reminder_id,
    data=reminder_id)] adds one job to the queue.  The job queue never
    looks at the names of the jobs it already holds. *)
Definition schedule_once (when : Z) (reminder_id : string) (w : World) : World :=
  match job_queue w with
  | None => w
  | Some jq => set_job_queue (Some (jq ++ [mk_Job when reminder_id reminder_id])) w
  end.

(** The body of the [for] loop of [schedule_all_on_startup]. *)
Definition schedule_on_startup (r : Reminder) (w : World) : World :=
  if done r then w
  else
    let when := when_iso r in
    let '(now, w1) := now_utc clock w in
    if when <? now then
      let '(now', w2) := now_utc clock w1 in
      schedule_once (now' + timedelta_seconds 2) (id r) w2
    else schedule_once when (id r) w1.

Fixpoint schedule_all (rs : list Reminder) (w : World) : World :=
  match rs with
  | [] => w
  | r :: rs' => schedule_all rs' (schedule_on_startup r w)
  end.

Definition schedule_all_on_startup (w : World) : World :=
  schedule_all (ReminderStore.all w) w.

(** [while next_local.weekday() != dow: next_local += timedelta(days=1)];
    one unit of fuel per evaluation of the loop condition. *)
Fixpoint advance_to_weekday (fuel : nat) (next_local : datetime) (dow : Z)
  : outcome datetime :=
  match fuel with
  | O => OutOfFuel
  | S fuel' =>
      if negb (weekday next_local =? dow)
      then
        next_local' ← add_timedelta next_local (timedelta_days 1);
        advance_to_weekday fuel' next_local' dow
      else Return next_local
  end.

Definition _next_occurrence (fuel : nat) (r : Reminder) : outcome (option Z) :=
  let rec := default empty_dict (recurring r) in
  let kind := rec_type rec in
  match pytz_timezone (r_timezone r) with
  | None => Raise UnknownTimeZoneError
  | Some tz =>
      let base := astimezone tz (when_iso r) in
      if str_is kind "daily" then
        let interval := default 1 (rec_interval rec) in
        td ← timedelta interval;
        next_local ← add_timedelta base td;
        next ← to_utc next_local;
        Return (Some next)
      else if str_is kind "weekly" then
        let interval := default 1 (rec_interval rec) in
        let dow := default (weekday base) (rec_dow rec) in
        td ← timedelta (7 * interval);
        next_local ← add_timedelta base td;
        next_local' ← advance_to_weekday fuel next_local dow;
        next ← to_utc next_local';
        Return (Some next)
      else Return None
  end.

(** The [try] block of [_run_reminder_job]: the text of the message needs
    [human_dt], hence the zone of the reminder; then the message is sent,
    and [send_ok] tells whether [send_message] returns or raises.  What
    [push_stats_if_enabled] raises is swallowed, and it touches none of
    the state modelled here. *)
Definition deliver (send_ok : bool) (r : Reminder) (w : World)
  : World * outcome unit :=
  match pytz_timezone (r_timezone r) with
  | None => (w, Raise UnknownTimeZoneError)
  | Some _ =>
      let w1 := log_delivery (mk_Delivery (chat_id r) r send_ok) w in
      if send_ok then (w1, Return tt) else (w1, Raise SendFailed)
  end.

(** The [finally] block of [_run_reminder_job]. *)
Definition after_delivery (fuel : nat) (r : Reminder) (w : World)
  : World * outcome unit :=
  if is_recurring r then
    match _next_occurrence fuel r with
    | Return (Some next_when) =>
        let r' := set_when_iso next_when r in
        let w1 := ReminderStore.put r' w in
        (schedule_once next_when (id r') w1, Return tt)
    | Return None => (w, Return tt)
    | Raise e => (w, Raise e)
    | OutOfFuel => (w, OutOfFuel)
    end
  else
    let r' := set_done true r in
    (ReminderStore.put r' w, Return tt).

(** [reminder_id] is [context.job.data].  An exception of the [try] block
    is raised again once the [finally] block has returned; what the
    [finally] block raises replaces it. *)
Definition _run_reminder_job (send_ok : bool) (fuel : nat) (reminder_id : string)
    (w : World) : World * outcome unit :=
  match ReminderStore.get reminder_id w with
  | None => (w, Return tt)
  | Some r =>
      if done r then (w, Return tt)
      else
        let '(profile, w1) := UserStore.get_user clock (r_user_id r) w in
        let '(w2, tried) := deliver send_ok r w1 in
        let '(w3, finished) := after_delivery fuel r w2 in
        match finished with
        | Return _ => (w3, tried)
        | _ => (w3, finished)
        end
  end.

(** The job queue runs a pending job: a [run_once] job leaves the queue
    when it is run, and its callback gets the job as [context.job]. *)
Definition fire (send_ok : bool) (fuel : nat) (i : nat) (w : World)
  : option (World * outcome unit) :=
  match job_queue w with
  | None => None
  | Some jq =>
      match jq !! i with
      | None => None
      | Some j =>
          Some (_run_reminder_job send_ok fuel (job_data j)
                  (set_job_queue (Some (base.delete i jq)) w))
      end
  end.
End WithEnvironment.
End ReminderScheduler.

(** ** Handlers *)

(** The redeem handlers are parametric in [str.upper], the case mapping of
    Unicode.  [ascii_upper] is what it does on a text of ASCII characters,
    where the letters a..z are the only ones it changes; the examples, whose
    texts are ASCII, run on it. *)
Definition ascii_upper_char (c : ascii) : ascii :=
  let n := nat_of_ascii c in
  if (Nat.leb 97 n && Nat.leb n 122)%bool then ascii_of_nat (n - 32) else c.

Fixpoint ascii_upper (s : string) : string :=
  match s with
  | EmptyString => EmptyString
  | String c s' => String (ascii_upper_char c) (ascii_upper s')
  end.

Inductive Reply : Type :=
| NoReply
| NoLongerAvailable
| SnoozeLimitReached (used_snoozes limit : Z) (tier : string)
| SnoozedTo (new_when : Z)
| MarkedDone
| Deleted
| InvalidCode
| CodeExpired
| FullyRedeemed
| CreditsAdded (added balance : Z)
| PremiumActivated
| PlanActivated (tier_name : string) (tier_max_active tier_snooze_limit : Z)
| UnknownCodeType.

Module Handlers.
Section WithEnvironment.
Variable clock : nat -> Z.
(** [str.upper] *)
Variable upper : string -> string.

(** [code.plan_name or "PREMIUM"] *)
Definition plan_or_PREMIUM (c : RedeemCode) : string :=
  match plan_name c with
  | Some s => if String.eqb s "" then "PREMIUM"%string else s
  | None => "PREMIUM"%string
  end.

(** [on_text_message] in the session mode [redeem_code]; [text] is the
    stripped text of the message. *)
Definition on_text_message (user : Z) (text : string) (w : World) : World * Reply :=
  let '(profile, w0) := UserStore.get_user clock user w in
  let code_str := upper text in
  match CodesStore.get code_str w0 with
  | None => (w0, InvalidCode)
  | Some c =>
      let '(expired, w1) :=
        match expires_at c with
        | Some e => let '(now, w') := now_utc clock w0 in (e <? now, w')
        | None => (false, w0)
        end in
      if expired then (w1, CodeExpired)
      else if used c >=? max_uses c then (w1, FullyRedeemed)
      else if String.eqb (kind c) "credits" then
        let profile' := set_credits (credits profile + amount c) profile in
        (CodesStore.inc_used (code c) (UserStore.put_user profile' w1),
         CreditsAdded (amount c) (credits profile'))
      else if String.eqb (kind c) "premium" then
        let profile' := set_premium "PLATINUM" profile in
        (CodesStore.inc_used (code c) (UserStore.put_user profile' w1),
         PremiumActivated)
      else if String.eqb (kind c) "plan" then
        let profile' := set_premium (plan_or_PREMIUM c) profile in
        let tier_info := get_user_tier_info profile' in
        (CodesStore.inc_used (code c) (UserStore.put_user profile' w1),
         PlanActivated (premium_tier profile') (max_active tier_info)
           (snooze_limit tier_info))
      else (w1, UnknownCodeType)
  end.

(** [on_callback] for the callback data of a reminder button,
    [action:rid] or [snooze:rid:minutes], already split at the colons:
    [minutes] is [None] when there is no third part. *)
Definition on_callback (user : Z) (action rid : string) (minutes : option Z)
    (w : World) : World * Reply :=
  let '(profile, w0) := UserStore.get_user clock user w in
  if negb (String.eqb action "snooze" || String.eqb action "done"
           || String.eqb action "del")
  then (w0, NoReply)
  else
    match ReminderStore.get rid w0 with
    | None => (w0, NoLongerAvailable)
    | Some r =>
        if negb (r_user_id r =? user) then (w0, NoLongerAvailable)
        else if String.eqb action "snooze" then
          let minutes := default 5 minutes in
          let limit := CreditPolicy.get_snooze_limit profile in
          if snoozes_used r >=? limit then
            (w0, SnoozeLimitReached (snoozes_used r) limit (premium_tier profile))
          else
            let '(now, w1) := now_utc clock w0 in
            let new_when := now + timedelta_minutes minutes in
            let r1 := set_when_iso new_when r in
            let r2 := set_snoozes_used (snoozes_used r1 + 1) r1 in
            let w2 := ReminderStore.put r2 w1 in
            (ReminderScheduler.schedule_once new_when (id r2) w2, SnoozedTo new_when)
        else if String.eqb action "done" then
          (ReminderStore.put (set_done true r) w0, MarkedDone)
        else
          (ReminderStore.delete (id r) w0, Deleted)
    end.
End WithEnvironment.
End Handlers.

(** ** A fragment of the zone database

    [America/New_York] around 2024: EST (UTC-5) from 2023-11-05T06:00Z, EDT
    (UTC-4) from 2024-03-10T07:00Z, EST again from 2024-11-03T06:00Z. *)
Definition New_York : tzinfo :=
  DstTzInfo [1699164000000000; 1710054000000000; 1730613600000000]
            [timedelta_seconds (-18000); timedelta_seconds (-14400);
             timedelta_seconds (-18000)].

Definition zones (tz_name : string) : option tzinfo :=
  if String.eqb tz_name "UTC" then Some (StaticTzInfo 0)
  else if String.eqb tz_name "America/New_York" then Some New_York
  else None.

(** ** Notions of the specification *)

(** The timers pending for a reminder id. *)
Definition pending (rid : string) (w : World) : list Job :=
  List.filter (fun j => String.eqb (job_name j) rid) (default [] (job_queue w)).

(** A recurrence descriptor of the data model: daily, or weekly with a target
    day of the week between 0 and 6 when it has one. *)
Definition valid_recurrence (rec : Recurring) : bool :=
  str_is (rec_type rec) "daily"
  || (str_is (rec_type rec) "weekly"
      && match rec_dow rec with Some d => (0 <=? d) && (d <=? 6) | None => true end).

(** The days [_next_occurrence] moves the due instant of [r] by, read in the
    zone [tz]: [interval] days for a daily descriptor; for a weekly one
    [interval] weeks and then the days from the weekday of the last local
    instant forward to the target day. *)
Definition days_to_next (tz : tzinfo) (r : Reminder) (rec : Recurring) : Z :=
  let k := default 1 (rec_interval rec) in
  if str_is (rec_type rec) "daily" then k
  else
    let base := astimezone tz (when_iso r) in
    7 * k + (default (weekday base) (rec_dow rec) - weekday base) mod 7.

(** The next occurrence of [r] is a [datetime]: the [timedelta] of the
    descriptor can be made, and the last local instant plus it, the day the
    weekly loop ends on, and that day in UTC are all within the range of
    [datetime]. *)
Definition next_is_datetime (tz : tzinfo) (r : Reminder) (rec : Recurring) : bool :=
  let k := default 1 (rec_interval rec) in
  let days := if str_is (rec_type rec) "daily" then k else 7 * k in
  let base := astimezone tz (when_iso r) in
  (-999999999 <=? days) && (days <=? 999999999)
  && in_range (naive base + timedelta_days days)
  && in_range (naive base + timedelta_days (days_to_next tz r rec))
  && in_range (when_iso r + timedelta_days (days_to_next tz r rec)).

(** The job [j] is what [schedule_all_on_startup] arms for the reminder [r]
    when it reaches it at clock read [n] or later: at the stored instant if
    that is not in the past, and two seconds after the next clock read if
    it is. *)
Definition armed_as (clock : nat -> Z) (n0 : nat) (r : Reminder) (j : Job) : Prop :=
  job_name j = id r /\ job_data j = id r
  /\ exists n, (n0 <= n)%nat
     /\ ((clock n <= when_iso r /\ job_when j = when_iso r)
         \/ (when_iso r < clock n
             /\ job_when j = clock (S n) + timedelta_seconds 2)).

(** The names of the four tiers. *)
Definition known_tier (t : string) : bool :=
  String.eqb t "FREE" || String.eqb t "SILVER" || String.eqb t "GOLD"
  || String.eqb t "PLATINUM".

(** ** Sample data *)

Definition daily (k : Z) : Recurring := mk_Recurring (Some "daily"%string) (Some k) None None.
Definition weekly (k : Z) (dow : option Z) : Recurring :=
  mk_Recurring (Some "weekly"%string) (Some k) dow None.

Definition sample (rid tz : string) (when : Z) (rec : option Recurring) : Reminder :=
  mk_Reminder rid 7 7 "Meditate" when tz 0 0 rec false None 1 None None None.

(** 2024-03-09T14:00Z, 09:00 EST on the Saturday before the clocks change. *)
Definition r_daily_NY : Reminder :=
  sample "a1" "America/New_York" 1709992800000000 (Some (daily 1)).

(** 2024-03-04T04:30Z, 23:30 EST on Sunday 2024-03-03; target Sunday. *)
Definition r_weekly_NY : Reminder :=
  sample "a2" "America/New_York" 1709526600000000 (Some (weekly 1 (Some 6))).

Definition r_daily_UTC : Reminder := sample "a3" "UTC" 1000000 (Some (daily 1)).
Definition r_once_UTC : Reminder := sample "a4" "UTC" 1000000 None.
Definition r_done_UTC : Reminder := set_done true (sample "a5" "UTC" 1000000 None).
Definition r_later_UTC : Reminder := sample "a6" "UTC" 1000000000000 None.

(** Daily with the interval 3000000: the next occurrence is past the year 9999. *)
Definition r_daily_far : Reminder := sample "a7" "UTC" 1000000 (Some (daily 3000000)).

Definition free_user : UserProfile :=
  mk_UserProfile 7 "UTC" false "FREE" 15 None None (Some 0) None None None.
Definition new_yorker : UserProfile :=
  mk_UserProfile 7 "America/New_York" false "FREE" 15 None None (Some 0) None None None.
Definition gold_user : UserProfile :=
  mk_UserProfile 7 "UTC" true "GOLD" 0 None None (Some 0) None None None.

(** A clock that reads 5 s at the first read and gains one second per read. *)
Definition sample_clock (n : nat) : Z := timedelta_seconds (5 + Z.of_nat n).

(** A clock that starts at 2024-03-09T17:00Z, noon in New York on the Saturday
    before the clocks change. *)
Definition dst_eve_clock (n : nat) : Z := 1710003600000000 + timedelta_seconds (Z.of_nat n).

Definition world_of (rs : list Reminder) (u : UserProfile) (jq : list Job) : World :=
  mk_World (list_to_map ((fun r => (id r, r)) <$> rs)) {[ user_id u := u ]} ∅
    (Some jq) 0 [].

Definition r_daily_snoozed : Reminder := set_snoozes_used 1 r_daily_UTC.

Definition plan_code_VIP : RedeemCode :=
  mk_RedeemCode "MIKU-VIP-ABC123" "plan" 0 None 1 0 (Some "VIP"%string).

Definition world_with_code : World :=
  mk_World ∅ {[ 7 := free_user ]} {[ "MIKU-VIP-ABC123"%string := plan_code_VIP ]}
    (Some []) 0 [].

(** A daily reminder due at 1 s is armed and fires; its owner then snoozes it
    by five minutes; the timer armed by the snooze fires; then, a day after
    the first firing, the timer armed by the first rollover fires. *)
Definition scenario_armed : World :=
  ReminderScheduler.schedule_once (when_iso r_daily_UTC) "a3"
    (world_of [r_daily_UTC] free_user []).
Definition scenario_fired : World :=
  from_option fst scenario_armed
    (ReminderScheduler.fire sample_clock zones true 7 0 scenario_armed).
Definition scenario_snoozed : World :=
  fst (Handlers.on_callback sample_clock 7 "snooze" "a3" (Some 5) scenario_fired).
Definition scenario_snooze_fired : World :=
  from_option fst scenario_snoozed
    (ReminderScheduler.fire sample_clock zones true 7 1 scenario_snoozed).
Definition scenario_old_fired : World :=
  from_option fst scenario_snooze_fired
    (ReminderScheduler.fire sample_clock zones true 7 0 scenario_snooze_fired).

(** ** Further handlers *)

(** [feature in tier_info.get("features", [])] *)
Definition has_feature (profile : UserProfile) (feature : string) : bool :=
  bool_decide (feature ∈ features (get_user_tier_info profile)).

(** [[r for r in reminder_store.list_by_user(user.id) if not r.done]], without
    the order [list_by_user] sorts it into. *)
Definition active_reminders (user : Z) (w : World) : list Reminder :=
  filter (fun r => done r = false)
    (filter (fun r => r_user_id r = user) (ReminderStore.all w)).

Definition active_count (user : Z) (w : World) : Z :=
  Z.of_nat (length (active_reminders user w)).

(** What a handler of this part answers. *)
Inductive Answer : Type :=
| Denied (reason : option DenyReason)
| ReminderCreated (reminder : Reminder) (cost : Z)
| NotFound
| DeletedById
| AdminsOnly
| GrantedCredits (amt target : Z)
| GrantedPremium (target : Z)
| InvalidGrantUsage
| InvalidTimezone
| TimezoneUpdated (tz_name : string)
| OnlyDailyOrWeekly
| TimeMustBeHHMM
| RepeatingSet (reminder : Reminder).

(** [Reminder(id=.., chat_id=.., user_id=.., text=.., when_iso=..,
    timezone=.., created_at=.., recurring=..)], the other fields at their
    defaults. *)
Definition new_reminder (new_id : string) (chat user : Z) (what : string) (when : Z)
    (tz_name : string) (created : Z) (rec : option Recurring) : Reminder :=
  mk_Reminder new_id chat user what when tz_name created 0 rec false None 1
    None None None.

Module Creation.
Section WithClock.
Variable clock : nat -> Z.

(** The admission check and the charge that every creating handler makes:
    [can_create] on the count of active reminders, then, when
    [consume_on_create] is not zero, the balance is lowered and stored. *)
Definition admit_and_charge (user : Z) (profile : UserProfile) (w : World)
  : option DenyReason + (UserProfile * Z * World) :=
  let n := active_count user w in
  let '(ok, reason) := CreditPolicy.can_create profile n in
  if negb ok then inl reason
  else
    let cost := CreditPolicy.consume_on_create profile in
    if cost =? 0 then inr (profile, cost, w)
    else
      let profile' := set_credits (credits profile - cost) profile in
      inr (profile', cost, UserStore.put_user profile' w).

(** [on_text_message] in the session mode [create_text].  [temp_when_dt] is
    [session.temp_when_dt]; [new_id] is what [uuid.uuid4().hex[:10]] yields. *)
Definition create_text (user chat : Z) (what : string) (temp_when_dt : option Z)
    (new_id : string) (w : World) : World * Answer :=
  let '(profile, w0) := UserStore.get_user clock user w in
  match admit_and_charge user profile w0 with
  | inl reason => (w0, Denied reason)
  | inr (profile', cost, w1) =>
      let '(when, w2) :=
        match temp_when_dt with
        | Some dt => (dt, w1)
        | None => now_utc clock w1
        end in
      let '(created, w3) := now_utc clock w2 in
      let reminder :=
        new_reminder new_id chat user what when (timezone profile') created None in
      let w4 := ReminderStore.put reminder w3 in
      (ReminderScheduler.schedule_once (when_iso reminder) (id reminder) w4,
       ReminderCreated reminder cost)
  end.
End WithClock.
End Creation.

Module Commands.
Section WithClock.
Variable clock : nat -> Z.
(** [str.upper] *)
Variable upper : string -> string.

(** [cmd_delete] with an argument; [rid] is [args[1].strip()]. *)
Definition cmd_delete (rid : string) (w : World) : World * Answer :=
  match ReminderStore.get rid w with
  | None => (w, NotFound)
  | Some _ => (ReminderStore.delete rid w, DeletedById)
  end.

(** [cmd_redeem] with an argument; [arg] is [args[1].strip()]. *)
Definition cmd_redeem (user : Z) (arg : string) (w : World) : World * Reply :=
  let '(profile, w0) := UserStore.get_user clock user w in
  let code_str := upper arg in
  match CodesStore.get code_str w0 with
  | None => (w0, InvalidCode)
  | Some c =>
      let '(expired, w1) :=
        match expires_at c with
        | Some e => let '(now, w') := now_utc clock w0 in (e <? now, w')
        | None => (false, w0)
        end in
      if expired then (w1, CodeExpired)
      else if used c >=? max_uses c then (w1, FullyRedeemed)
      else if String.eqb (kind c) "credits" then
        let profile' := set_credits (credits profile + amount c) profile in
        (CodesStore.inc_used (code c) (UserStore.put_user profile' w1),
         CreditsAdded (amount c) (credits profile'))
      else if String.eqb (kind c) "premium" then
        let profile' := set_premium (premium_tier profile) profile in
        (CodesStore.inc_used (code c) (UserStore.put_user profile' w1),
         PremiumActivated)
      else if String.eqb (kind c) "plan" then
        let profile' := set_premium (Handlers.plan_or_PREMIUM c) profile in
        let tier_info := get_user_tier_info profile' in
        (CodesStore.inc_used (code c) (UserStore.put_user profile' w1),
         PlanActivated (premium_tier profile') (max_active tier_info)
           (snooze_limit tier_info))
      else (w1, UnknownCodeType)
  end.

(** [cmd_grant] under [require_admin], for a command of at least three
    words: [caller] is the sender, [ADMIN_IDS] the configured set, [target]
    and [action] are [int(args[1])] and [args[2].lower()], and [amt] is
    [int(args[3])] when there is a fourth word. *)
Definition cmd_grant (ADMIN_IDS : gset Z) (caller target : Z) (action : string)
    (amt : option Z) (w : World) : World * Answer :=
  if negb (bool_decide (caller ∈ ADMIN_IDS)) then (w, AdminsOnly)
  else
    let '(profile, w0) := UserStore.get_user clock target w in
    match String.eqb action "credits", amt with
    | true, Some a =>
        (UserStore.put_user (set_credits (credits profile + a) profile) w0,
         GrantedCredits a target)
    | _, _ =>
        if String.eqb action "premium" then
          (UserStore.put_user (set_premium (premium_tier profile) profile) w0,
           GrantedPremium target)
        else (w0, InvalidGrantUsage)
    end.

(** [on_text_message] in the session mode [settings_timezone];
    [all_timezones] is [pytz.all_timezones]. *)
Definition settings_timezone (all_timezones : list string) (user : Z) (tz_name : string)
    (w : World) : World * Answer :=
  let '(profile, w0) := UserStore.get_user clock user w in
  if negb (bool_decide (tz_name ∈ all_timezones)) then (w0, InvalidTimezone)
  else
    let profile' :=
      mk_UserProfile (user_id profile) tz_name (is_premium profile)
        (premium_tier profile) (credits profile) (name profile) (username profile)
        (first_seen profile) (last_seen profile) (preferences profile)
        (usage_stats profile) in
    (UserStore.put_user profile' w0, TimezoneUpdated tz_name).
End WithClock.
End Commands.

(** ** Repeating reminders: the first occurrence *)

(** [dt.replace(hour=h, minute=m, second=0, microsecond=0)]: the date and the
    [tzinfo] instance are kept; [None] stands for the [ValueError] of an hour
    outside 0..23 or a minute outside 0..59. *)
Definition replace_time (dt : datetime) (h m : Z) : option datetime :=
  if (0 <=? h) && (h <=? 23) && (0 <=? m) && (m <=? 59) then
    Some {| naive := naive dt / 86400000000 * 86400000000
                     + h * 3600000000 + m * 60000000;
            utcoffset := utcoffset dt |}
  else None.

(** How [cmd_repeat] ends: with an answer, with an exception, or (in the
    model only) with its [while] loop still running when the fuel is spent. *)
Inductive Ending : Type :=
| Answered (a : Answer)
| RaisedValueError
| RaisedUnknownTimeZone
| RaisedOverflowError
| LoopRunning.

Module Repeat.
Section WithEnvironment.
Variable clock : nat -> Z.
Variable pytz_timezone : string -> option tzinfo.

(** [while target_local.weekday() != desired_dow or target_local <= now_local:
    target_local += timedelta(days=1)].  Both datetimes carry the same
    [tzinfo] instance, so [<=] compares their wall clock fields. *)
Fixpoint next_matching_day (fuel : nat) (target_local now_local : datetime)
    (desired_dow : Z) : outcome datetime :=
  match fuel with
  | O => OutOfFuel
  | S fuel' =>
      if negb (weekday target_local =? desired_dow)
         || (naive target_local <=? naive now_local)
      then
        target_local' ← add_timedelta target_local (timedelta_days 1);
        next_matching_day fuel' target_local' now_local desired_dow
      else Return target_local
  end.

(** The first occurrence and the descriptor [cmd_repeat] builds, for a
    [kind] that is ["daily"] or ["weekly"]; on the left, how the command
    ends when there is none: the [ValueError] of [replace], the
    [OverflowError] of the weekly loop, or the loop out of fuel. *)
Definition first_occurrence (fuel : nat) (kind : string) (interval : Z) (dow : option Z)
    (now_local : datetime) (hour minute : Z) : Ending + (datetime * Recurring) :=
  match replace_time now_local hour minute with
  | None => inl RaisedValueError
  | Some target_local =>
      if String.eqb kind "daily" then
        let target_local' :=
          if naive target_local <=? naive now_local
          then dt_add target_local (timedelta_days 1) else target_local in
        inr (target_local',
             mk_Recurring (Some "daily"%string) (Some interval) None None)
      else
        let desired_dow := default (weekday target_local) dow in
        match next_matching_day fuel target_local now_local desired_dow with
        | OutOfFuel => inl LoopRunning
        | Raise _ => inl RaisedOverflowError
        | Return target_local' =>
            inr (target_local',
                 mk_Recurring (Some "weekly"%string) (Some interval)
                   (Some desired_dow) None)
        end
  end.

(** [cmd_repeat] from the point where the command has been split: [kind] is
    [parts[0].lower()]; [interval] and [dow] are the numbers read from the
    second and third word (1 and [None] without them); [time_at] is the pair
    [int] made of the text after [" at "], [None] when that fails; [new_id]
    is what [uuid.uuid4().hex[:10]] yields. *)
Definition cmd_repeat (fuel : nat) (user chat : Z) (kind : string) (interval : Z)
    (dow : option Z) (time_at : option (Z * Z)) (what new_id : string) (w : World)
  : World * Ending :=
  let '(profile, w0) := UserStore.get_user clock user w in
  if negb (String.eqb kind "daily" || String.eqb kind "weekly")
  then (w0, Answered OnlyDailyOrWeekly)
  else
    match pytz_timezone (timezone profile) with
    | None => (w0, RaisedUnknownTimeZone)
    | Some tz =>
        let '(now, w1) := now_utc clock w0 in
        let now_local := astimezone tz now in
        match time_at with
        | None => (w1, Answered TimeMustBeHHMM)
        | Some (hour, minute) =>
            match first_occurrence fuel kind interval dow now_local hour minute with
            | inl ending => (w1, ending)
            | inr (target_local, rec) =>
                match Creation.admit_and_charge user profile w1 with
                | inl reason => (w1, Answered (Denied reason))
                | inr (profile', cost, w2) =>
                    let when := astimezone_utc target_local in
                    let '(created, w3) := now_utc clock w2 in
                    let reminder :=
                      new_reminder new_id chat user what when (timezone profile')
                        created (Some rec) in
                    let w4 := ReminderStore.put reminder w3 in
                    (ReminderScheduler.schedule_once (when_iso reminder) (id reminder) w4,
                     Answered (RepeatingSet reminder))
                end
            end
        end
    end.
End WithEnvironment.
End Repeat.

(** Sample codes: a credits code valid until 100 s, a premium code without
    expiry, and a code that expired at the epoch; each for one use. *)
Definition credit_code : RedeemCode :=
  mk_RedeemCode "MIKU-CR100-ABC123" "credits" 100 (Some (timedelta_seconds 100)) 1 0 None.
Definition premium_code : RedeemCode :=
  mk_RedeemCode "PR-1A2B3C4D" "premium" 30 None 1 0 None.
Definition expired_code : RedeemCode :=
  mk_RedeemCode "CR-0LD" "credits" 5 (Some 0) 1 0 None.

Definition world_with_codes : World :=
  mk_World ∅ {[ 7 := free_user ]}
    (list_to_map ((fun c => (code c, c)) <$> [credit_code; premium_code; expired_code]))
    (Some []) 0 [].

(** * Properties *)

(** ** Time arithmetic *)

Section TimeFacts.
Implicit Types (dt : datetime) (tz : tzinfo) (u : Z).

Lemma astimezone_roundtrip tz u : astimezone_utc (astimezone tz u) = u.
Proof. unfold astimezone_utc, astimezone; simpl; lia. Qed.

Lemma dt_add_0 dt : dt_add dt (timedelta_days 0) = dt.
Proof. destruct dt as [n o]; unfold dt_add, timedelta_days; simpl; f_equal; lia. Qed.

Lemma dt_add_add dt a b : dt_add (dt_add dt a) b = dt_add dt (a + b).
Proof. unfold dt_add; simpl; f_equal; lia. Qed.

Lemma astimezone_utc_add dt a : astimezone_utc (dt_add dt a) = astimezone_utc dt + a.
Proof. unfold astimezone_utc, dt_add; simpl; lia. Qed.

Lemma weekday_range dt : 0 <= weekday dt < 7.
Proof. unfold weekday; apply Z.mod_pos_bound; lia. Qed.

Lemma weekday_add_days dt k :
  weekday (dt_add dt (timedelta_days k)) = (weekday dt + k) mod 7.
Proof.
  unfold weekday, dt_add, timedelta_days; simpl.
  rewrite Z.div_add by lia.
  rewrite Zplus_mod_idemp_l. f_equal; lia.
Qed.

(** Adding whole days keeps the time of day. *)
Lemma time_of_day_add_days dt k :
  let dt' := dt_add dt (timedelta_days k) in
  hour dt' = hour dt /\ minute dt' = minute dt /\ second dt' = second dt
  /\ microsecond dt' = microsecond dt.
Proof.
  unfold hour, minute, second, microsecond, dt_add, timedelta_days; simpl.
  repeat split.
  - replace (k * 86400000000) with (k * 24 * 3600000000) by lia.
    rewrite Z.div_add by lia. rewrite Z.add_mod by lia.
    rewrite Z.mod_mul by lia. rewrite Z.add_0_r. apply Z.mod_mod; lia.
  - replace (k * 86400000000) with (k * 1440 * 60000000) by lia.
    rewrite Z.div_add by lia.
    replace (k * 1440) with (k * 24 * 60) by lia.
    rewrite Z.add_mod by lia.
    rewrite Z.mod_mul by lia. rewrite Z.add_0_r. apply Z.mod_mod; lia.
  - replace (k * 86400000000) with (k * 86400 * 1000000) by lia.
    rewrite Z.div_add by lia.
    replace (k * 86400) with (k * 1440 * 60) by lia.
    rewrite Z.add_mod by lia.
    rewrite Z.mod_mul by lia. rewrite Z.add_0_r. apply Z.mod_mod; lia.
  - replace (k * 86400000000) with (k * 86400 * 1000000) by lia.
    rewrite Z.add_mod by lia.
    rewrite Z.mod_mul by lia. rewrite Z.add_0_r. apply Z.mod_mod; lia.
Qed.
End TimeFacts.

(** ** The recurrence calculator *)

Section Recurrence.
Variable zones_db : string -> option tzinfo.
Abbreviation next_occurrence := (ReminderScheduler._next_occurrence zones_db).

(** Case analysis on the integer comparisons of the goal and the hypotheses. *)
Ltac case_ltb :=
  repeat match goal with
    | H : context [ ?a <? ?b ] |- _ => revert H; destruct (Z.ltb_spec a b); intros H
    | |- context [ ?a <? ?b ] => destruct (Z.ltb_spec a b)
    end.

Lemma mod7_distance (a b : Z) :
  0 <= a < 7 -> 0 <= b < 7 ->
  (b - a) mod 7 = if b <? a then b - a + 7 else b - a.
Proof.
  intros Ha Hb. destruct (Z.ltb_spec b a).
  - symmetry; apply (Z.mod_unique_pos _ _ (-1)); lia.
  - apply Z.mod_small; lia.
Qed.

Lemma in_range_true (n : Z) :
  in_range n = true <-> datetime_min <= n <= datetime_max.
Proof. unfold in_range. rewrite andb_true_iff, !Z.leb_le. tauto. Qed.

Lemma in_range_false (n : Z) :
  in_range n = false <-> n < datetime_min \/ datetime_max < n.
Proof.
  unfold in_range. rewrite andb_false_iff, !Z.leb_gt. tauto.
Qed.

Lemma add_timedelta_in_range (dt : datetime) (td : Z) :
  in_range (naive dt + td) = true -> add_timedelta dt td = Return (dt_add dt td).
Proof. intros H. unfold add_timedelta. now rewrite H. Qed.

Lemma add_timedelta_overflow (dt : datetime) (td : Z) :
  in_range (naive dt + td) = false -> add_timedelta dt td = Raise OverflowError.
Proof. intros H. unfold add_timedelta. now rewrite H. Qed.

(** The loop reaches the target day within six steps, unless the range of
    [datetime] ends before that day. *)
Lemma advance_to_weekday_steps (n : nat) :
  forall (fuel : nat) (dt : datetime) (dow : Z),
    0 <= dow < 7 ->
    (dow - weekday dt) mod 7 = Z.of_nat n ->
    (n < fuel)%nat ->
    in_range (naive dt) = true ->
    ReminderScheduler.advance_to_weekday fuel dt dow
    = if naive dt + timedelta_days (Z.of_nat n) <=? datetime_max
      then Return (dt_add dt (timedelta_days (Z.of_nat n)))
      else Raise OverflowError.
Proof.
  induction n as [|n IH]; intros fuel dt dow Hdow Hdist Hfuel Hin;
    (destruct fuel as [|fuel]; [lia|]);
    cbn [ReminderScheduler.advance_to_weekday];
    pose proof (weekday_range dt) as Hw;
    rewrite (mod7_distance _ _ Hw Hdow) in Hdist;
    pose proof (proj1 (in_range_true _) Hin) as Hbounds.
  - change (Z.of_nat 0) with 0 in *.
    assert (weekday dt = dow) as Heq by (case_ltb; lia).
    rewrite Heq, Z.eqb_refl. cbn [negb]. rewrite dt_add_0.
    destruct (Z.leb_spec (naive dt + timedelta_days 0) datetime_max) as [_|Hgt];
      [reflexivity | unfold timedelta_days in Hgt; lia].
  - rewrite Nat2Z.inj_succ in *.
    assert (weekday dt <> dow) as Hne by (case_ltb; lia).
    apply Z.eqb_neq in Hne. rewrite Hne. cbn [negb].
    destruct (in_range (naive dt + timedelta_days 1)) eqn:Hstep.
    + rewrite (add_timedelta_in_range _ _ Hstep). cbn [mbind outcome_bind].
      rewrite (IH fuel (dt_add dt (timedelta_days 1)) dow Hdow).
      * rewrite dt_add_add.
        replace (naive (dt_add dt (timedelta_days 1)) + timedelta_days (Z.of_nat n))
          with (naive dt + timedelta_days (Z.succ (Z.of_nat n)))
          by (unfold dt_add, timedelta_days; cbn [naive]; lia).
        replace (timedelta_days 1 + timedelta_days (Z.of_nat n))
          with (timedelta_days (Z.succ (Z.of_nat n)))
          by (unfold timedelta_days; lia).
        reflexivity.
      * rewrite (mod7_distance _ _ (weekday_range _) Hdow), weekday_add_days.
        apply Z.eqb_neq in Hne.
        destruct (Z.eq_dec (weekday dt) 6) as [H6|H6].
        -- rewrite H6 in *. replace ((6 + 1) mod 7) with 0 by reflexivity.
           case_ltb; lia.
        -- rewrite (Z.mod_small (weekday dt + 1)) by lia.
           case_ltb; lia.
      * lia.
      * exact Hstep.
    + rewrite (add_timedelta_overflow _ _ Hstep). cbn [mbind outcome_bind].
      apply in_range_false in Hstep.
      destruct (Z.leb_spec (naive dt + timedelta_days (Z.succ (Z.of_nat n))) datetime_max)
        as [Hle|_]; [|reflexivity].
      exfalso. unfold timedelta_days in *. lia.
Qed.

(** Moving forward by the distance to a day of the week lands on it. *)
Lemma weekday_after_distance (dt : datetime) (dow : Z) :
  0 <= dow < 7 ->
  weekday (dt_add dt (timedelta_days ((dow - weekday dt) mod 7))) = dow.
Proof.
  intros Hdow. rewrite weekday_add_days, Zplus_mod_idemp_r.
  replace (weekday dt + (dow - weekday dt)) with dow by lia.
  apply Z.mod_small; lia.
Qed.

Lemma advance_to_weekday_total (fuel : nat) (dt : datetime) (dow : Z) :
  0 <= dow < 7 -> (7 <= fuel)%nat -> in_range (naive dt) = true ->
  let j := (dow - weekday dt) mod 7 in
  0 <= j <= 6
  /\ ReminderScheduler.advance_to_weekday fuel dt dow
     = (if naive dt + timedelta_days j <=? datetime_max
        then Return (dt_add dt (timedelta_days j))
        else Raise OverflowError)
  /\ weekday (dt_add dt (timedelta_days j)) = dow.
Proof.
  intros Hdow Hfuel Hin j.
  pose proof (Z.mod_pos_bound (dow - weekday dt) 7 ltac:(lia)) as Hb.
  fold j in Hb. split; [lia|].
  split.
  - pose proof (advance_to_weekday_steps (Z.to_nat j) fuel dt dow Hdow) as Hsteps.
    rewrite Z2Nat.id in Hsteps by lia.
    apply Hsteps; [reflexivity | lia | exact Hin].
  - now apply weekday_after_distance.
Qed.

(** A target day outside 0..6 is never reached: the loop runs until a step
    leaves the range of [datetime], which happens within as many steps as
    there are days left in the range. *)
Lemma advance_to_weekday_never (fuel : nat) :
  forall dt (dow : Z),
    ~ (0 <= dow <= 6) ->
    (ReminderScheduler.advance_to_weekday fuel dt dow = OutOfFuel
     \/ ReminderScheduler.advance_to_weekday fuel dt dow = Raise OverflowError)
    /\ ((datetime_max - naive dt) / 86400000000 < Z.of_nat fuel ->
        (1 <= fuel)%nat ->
        ReminderScheduler.advance_to_weekday fuel dt dow = Raise OverflowError).
Proof.
  induction fuel as [|fuel IH]; intros dt dow Hdow.
  - split; [left; reflexivity | lia].
  - cbn [ReminderScheduler.advance_to_weekday].
    pose proof (weekday_range dt).
    destruct (Z.eqb_spec (weekday dt) dow); [lia|]. cbn [negb].
    destruct (in_range (naive dt + timedelta_days 1)) eqn:Hstep.
    + rewrite (add_timedelta_in_range _ _ Hstep). cbn [mbind outcome_bind].
      destruct (IH (dt_add dt (timedelta_days 1)) dow Hdow) as [Hnever Henough].
      split; [exact Hnever|].
      intros Hfuel _. apply in_range_true in Hstep.
      assert (Hdiv : (datetime_max - naive (dt_add dt (timedelta_days 1))) / 86400000000
                     = (datetime_max - naive dt) / 86400000000 - 1).
      { unfold dt_add, timedelta_days. cbn [naive].
        replace (datetime_max - (naive dt + 1 * 86400000000))
          with (datetime_max - naive dt + (-1) * 86400000000) by lia.
        rewrite Z.div_add by lia. lia. }
      assert (Hpos : 0 <= (datetime_max - naive (dt_add dt (timedelta_days 1)))
                          / 86400000000).
      { apply Z.div_pos; [|lia]. unfold dt_add. cbn [naive]. lia. }
      apply Henough; lia.
    + rewrite (add_timedelta_overflow _ _ Hstep). cbn [mbind outcome_bind].
      split; [right; reflexivity | reflexivity].
Qed.

(** What the calculator computes for a daily descriptor: the stored instant
    plus [interval] times 24 hours when that is a [datetime]. *)
Lemma next_occurrence_daily (fuel : nat) (r : Reminder) (rec : Recurring) (tz : tzinfo) :
  zones_db (r_timezone r) = Some tz ->
  recurring r = Some rec ->
  rec_type rec = Some "daily"%string ->
  next_occurrence fuel r
  = if next_is_datetime tz r rec
    then Return (Some (when_iso r + timedelta_days (default 1 (rec_interval rec))))
    else Raise OverflowError.
Proof.
  intros Htz Hrec Hkind. unfold ReminderScheduler._next_occurrence.
  rewrite Htz, Hrec. cbn [default from_option Datatypes.id]. rewrite Hkind.
  unfold next_is_datetime, days_to_next. rewrite Hkind.
  cbn [str_is String.eqb Ascii.eqb Bool.eqb].
  set (k := default 1 (rec_interval rec)).
  set (base := astimezone tz (when_iso r)).
  unfold timedelta, add_timedelta, to_utc.
  destruct ((-999999999 <=? k) && (k <=? 999999999));
    cbn [mbind outcome_bind andb]; [|reflexivity].
  destruct (in_range (naive base + timedelta_days k));
    cbn [mbind outcome_bind andb]; [|reflexivity].
  unfold base. rewrite astimezone_utc_add, astimezone_roundtrip.
  destruct (in_range (when_iso r + timedelta_days k)); reflexivity.
Qed.

(** What the calculator computes for a weekly descriptor whose target day is
    a day of the week. *)
Lemma next_occurrence_weekly (fuel : nat) (r : Reminder) (rec : Recurring) (tz : tzinfo) :
  zones_db (r_timezone r) = Some tz ->
  recurring r = Some rec ->
  rec_type rec = Some "weekly"%string ->
  let base := astimezone tz (when_iso r) in
  let dow := default (weekday base) (rec_dow rec) in
  0 <= dow < 7 -> (7 <= fuel)%nat ->
  next_occurrence fuel r
  = (if next_is_datetime tz r rec
     then Return (Some (when_iso r + timedelta_days (days_to_next tz r rec)))
     else Raise OverflowError)
  /\ weekday (dt_add base (timedelta_days (days_to_next tz r rec))) = dow.
Proof.
  intros Htz Hrec Hkind base dow Hdow Hfuel.
  set (k := default 1 (rec_interval rec)).
  set (first := dt_add base (timedelta_days (7 * k))).
  assert (Hwd : weekday first = weekday base).
  { unfold first. rewrite weekday_add_days.
    replace (weekday base + 7 * k) with (weekday base + k * 7) by lia.
    rewrite Z.mod_add by lia. apply Z.mod_small, weekday_range. }
  set (j := (dow - weekday base) mod 7).
  assert (Hdays : days_to_next tz r rec = 7 * k + j).
  { unfold days_to_next. rewrite Hkind. reflexivity. }
  assert (Hj : 0 <= j <= 6).
  { pose proof (Z.mod_pos_bound (dow - weekday base) 7 ltac:(lia)). unfold j. lia. }
  assert (Hlast : dt_add first (timedelta_days j)
                  = dt_add base (timedelta_days (7 * k + j))).
  { unfold first. rewrite dt_add_add. f_equal. unfold timedelta_days. lia. }
  split.
  - unfold ReminderScheduler._next_occurrence.
    rewrite Htz, Hrec. cbn [default from_option Datatypes.id]. rewrite Hkind.
    unfold next_is_datetime. rewrite Hdays, Hkind.
    cbn [str_is String.eqb Ascii.eqb Bool.eqb].
    fold k base dow. unfold timedelta, add_timedelta, to_utc.
    destruct ((-999999999 <=? 7 * k) && (7 * k <=? 999999999));
      cbn [mbind outcome_bind andb]; [|reflexivity].
    destruct (in_range (naive base + timedelta_days (7 * k))) eqn:Hin;
      cbn [mbind outcome_bind andb]; [|reflexivity].
    fold first.
    destruct (advance_to_weekday_total fuel first dow Hdow Hfuel Hin)
      as (_ & Hadv & _).
    rewrite Hwd in Hadv. fold j in Hadv. rewrite Hadv, Hlast.
    apply in_range_true in Hin.
    assert (Hn : naive first + timedelta_days j
                 = naive base + timedelta_days (7 * k + j)).
    { unfold first, dt_add, timedelta_days. cbn [naive]. lia. }
    rewrite Hn.
    destruct (Z.leb_spec (naive base + timedelta_days (7 * k + j)) datetime_max)
      as [Hle|Hgt].
    + assert (Hin2 : in_range (naive base + timedelta_days (7 * k + j)) = true).
      { apply in_range_true. unfold timedelta_days in *. lia. }
      rewrite Hin2. cbn [mbind outcome_bind andb].
      unfold base. rewrite astimezone_utc_add, astimezone_roundtrip.
      destruct (in_range (when_iso r + timedelta_days (7 * k + j))); reflexivity.
    + assert (Hin2 : in_range (naive base + timedelta_days (7 * k + j)) = false).
      { apply in_range_false. right. exact Hgt. }
      rewrite Hin2. reflexivity.
  - rewrite Hdays, <- Hlast. unfold j. rewrite <- Hwd.
    now apply weekday_after_distance.
Qed.
End Recurrence.

Section RecurrenceProperties.
Variable zones_db : string -> option tzinfo.
Abbreviation next_occurrence' := (ReminderScheduler._next_occurrence zones_db).

(** The local wall clock of the next daily occurrence: [interval] days later,
    shifted by whatever the zone's UTC offset changed in between. *)
Lemma daily_local_delta (tz : tzinfo) (u k : Z) :
  naive (astimezone tz (u + timedelta_days k))
  = naive (astimezone tz u) + timedelta_days k
    + (utcoffset_at tz (u + timedelta_days k) - utcoffset_at tz u).
Proof. unfold astimezone; simpl; lia. Qed.

(** Where the UTC offset of the zone is the same at both instants, the next
    daily occurrence is the same local time of day, [interval] days later. *)
Lemma daily_same_local_time_if_offset_kept
    (fuel : nat) (r : Reminder) (rec : Recurring) (tz : tzinfo) (k : Z) :
  zones_db (r_timezone r) = Some tz ->
  recurring r = Some rec ->
  rec_type rec = Some "daily"%string ->
  rec_interval rec = Some k ->
  next_is_datetime tz r rec = true ->
  utcoffset_at tz (when_iso r + timedelta_days k) = utcoffset_at tz (when_iso r) ->
  exists next,
    next_occurrence' fuel r = Return (Some next)
    /\ astimezone tz next = dt_add (astimezone tz (when_iso r)) (timedelta_days k)
    /\ hour (astimezone tz next) = hour (astimezone tz (when_iso r))
    /\ minute (astimezone tz next) = minute (astimezone tz (when_iso r))
    /\ second (astimezone tz next) = second (astimezone tz (when_iso r)).
Proof.
  intros Htz Hrec Hkind Hk Hdt Hoff.
  exists (when_iso r + timedelta_days k). split.
  - rewrite (next_occurrence_daily zones_db fuel r rec tz Htz Hrec Hkind), Hdt, Hk.
    reflexivity.
  - assert (Heq : astimezone tz (when_iso r + timedelta_days k)
                  = dt_add (astimezone tz (when_iso r)) (timedelta_days k)).
    { unfold astimezone, dt_add; simpl. rewrite Hoff. f_equal. lia. }
    rewrite Heq. split; [reflexivity|].
    destruct (time_of_day_add_days (astimezone tz (when_iso r)) k)
      as (Hh & Hm & Hs & _).
    auto.
Qed.

(** Daily occurrences are strictly increasing, [interval] times 24 hours apart. *)
Lemma daily_strictly_later
    (fuel : nat) (r : Reminder) (rec : Recurring) (tz : tzinfo) (k : Z) :
  zones_db (r_timezone r) = Some tz ->
  recurring r = Some rec ->
  rec_type rec = Some "daily"%string ->
  rec_interval rec = Some k -> 1 <= k ->
  next_is_datetime tz r rec = true ->
  exists next,
    next_occurrence' fuel r = Return (Some next)
    /\ next = when_iso r + timedelta_days k /\ when_iso r < next.
Proof.
  intros Htz Hrec Hkind Hk Hpos Hdt.
  exists (when_iso r + timedelta_days k).
  rewrite (next_occurrence_daily zones_db fuel r rec tz Htz Hrec Hkind), Hdt, Hk.
  unfold timedelta_days. repeat split; simpl; lia.
Qed.

(** The weekly occurrence is strictly later than the stored instant, and the
    wall clock value the loop stops at (still carrying the UTC offset of the
    last occurrence) falls on the target day; a missing target day is the
    weekday of the last local instant. *)
Lemma weekly_strictly_later
    (fuel : nat) (r : Reminder) (rec : Recurring) (tz : tzinfo) (k : Z) :
  zones_db (r_timezone r) = Some tz ->
  recurring r = Some rec ->
  rec_type rec = Some "weekly"%string ->
  rec_interval rec = Some k -> 1 <= k ->
  (forall d, rec_dow rec = Some d -> 0 <= d <= 6) ->
  (7 <= fuel)%nat ->
  next_is_datetime tz r rec = true ->
  let base := astimezone tz (when_iso r) in
  let dow := default (weekday base) (rec_dow rec) in
  exists next,
    next_occurrence' fuel r = Return (Some next)
    /\ when_iso r < next
    /\ weekday (dt_add base (next - when_iso r)) = dow.
Proof.
  intros Htz Hrec Hkind Hk Hpos Hd Hfuel Hdt base dow.
  assert (Hdow : 0 <= dow < 7).
  { unfold dow. destruct (rec_dow rec) as [d|] eqn:E; simpl.
    - specialize (Hd d eq_refl). lia.
    - apply weekday_range. }
  destruct (next_occurrence_weekly zones_db fuel r rec tz Htz Hrec Hkind Hdow Hfuel)
    as (Hnext & Hwd).
  rewrite Hdt in Hnext.
  assert (Hdays : 7 * k <= days_to_next tz r rec).
  { unfold days_to_next. rewrite Hkind, Hk. cbn.
    pose proof (Z.mod_pos_bound
                  (default (weekday (astimezone tz (when_iso r))) (rec_dow rec)
                   - weekday (astimezone tz (when_iso r))) 7 ltac:(lia)).
    lia. }
  eexists. split; [exact Hnext|]. split.
  - unfold timedelta_days. lia.
  - replace (when_iso r + timedelta_days (days_to_next tz r rec) - when_iso r)
      with (timedelta_days (days_to_next tz r rec)) by lia.
    exact Hwd.
Qed.
End RecurrenceProperties.

(** C1.  The claim: for a daily recurrence the next occurrence is the same
    local hour, minute and second, [interval] days later, also across a DST
    transition.  The code adds [interval] times 24 hours to the stored instant
    instead.  Here it is run on a reminder due at 09:00:00 New York time on
    Saturday 2024-03-09 (14:00Z), daily with interval 1: the next occurrence is
    2024-03-10T14:00Z, which is 10:00:00 in New York, 25 hours of wall clock
    after the last one. *)
Theorem daily_next_occurrence_across_dst :
  let last := when_iso r_daily_NY in
  exists next,
    ReminderScheduler._next_occurrence zones 7 r_daily_NY = Return (Some next)
    /\ next = last + timedelta_days 1
    /\ hour (astimezone New_York last) = 9
    /\ minute (astimezone New_York last) = 0
    /\ second (astimezone New_York last) = 0
    /\ hour (astimezone New_York next) = 10
    /\ minute (astimezone New_York next) = 0
    /\ second (astimezone New_York next) = 0
    /\ naive (astimezone New_York next) - naive (astimezone New_York last)
       = timedelta_days 1 + timedelta_minutes 60.
Proof.
  exists 1710079200000000. repeat split; vm_compute; reflexivity.
Qed.

(** C2.  The claim: for a weekly recurrence the local weekday of the next
    occurrence is the target day.  Here the code is run on a reminder due at
    23:30 New York time on Sunday 2024-03-03 (2024-03-04T04:30Z), weekly with
    interval 1 and target day 6 (Sunday): the next occurrence is
    2024-03-11T04:30Z, strictly later, but 00:30 on Monday in New York. *)
Theorem weekly_next_occurrence_across_dst :
  let last := when_iso r_weekly_NY in
  exists next,
    ReminderScheduler._next_occurrence zones 7 r_weekly_NY = Return (Some next)
    /\ (recurring r_weekly_NY ≫= rec_dow) = Some 6
    /\ weekday (astimezone New_York last) = 6
    /\ last < next
    /\ weekday (astimezone New_York next) = 0
    /\ hour (astimezone New_York next) = 0
    /\ minute (astimezone New_York next) = 30.
Proof.
  exists 1710131400000000. repeat split; vm_compute; reflexivity.
Qed.

(** ** The tier and credit policy *)

Lemma PREMIUM_TIERS_unknown (t : string) :
  known_tier t = false -> PREMIUM_TIERS !! t = None.
Proof.
  unfold known_tier. intros H.
  repeat (apply orb_false_elim in H; destruct H as [H ?]).
  repeat match goal with E : String.eqb _ _ = false |- _ => apply String.eqb_neq in E end.
  unfold PREMIUM_TIERS.
  rewrite !lookup_insert_ne by congruence. apply lookup_empty.
Qed.

Lemma PREMIUM_TIERS_known :
  PREMIUM_TIERS !! "FREE"%string = Some FREE_info
  /\ PREMIUM_TIERS !! "SILVER"%string = Some SILVER_info
  /\ PREMIUM_TIERS !! "GOLD"%string = Some GOLD_info
  /\ PREMIUM_TIERS !! "PLATINUM"%string = Some PLATINUM_info.
Proof. repeat split; vm_compute; reflexivity. Qed.

Lemma tier_info_not_premium (p : UserProfile) :
  is_premium p = false -> get_user_tier_info p = FREE_info.
Proof.
  intros H. unfold get_user_tier_info. rewrite H.
  destruct PREMIUM_TIERS_known as (-> & _). reflexivity.
Qed.

Lemma tier_info_unknown_tier (p : UserProfile) :
  known_tier (premium_tier p) = false -> get_user_tier_info p = FREE_info.
Proof.
  intros H. destruct (is_premium p) eqn:E.
  - unfold get_user_tier_info. rewrite E, (PREMIUM_TIERS_unknown _ H). reflexivity.
  - now apply tier_info_not_premium.
Qed.


(** C7.  [can_create] denies when the active count has reached the limit of
    the tier, denies a profile that is not premium and has no credits left,
    and allows in every other case; so it denies at the limit itself and
    allows one below it for a profile that is premium or has credits. *)
Theorem can_create_verdict (profile : UserProfile) (n : Z) :
  let limit := max_active (get_user_tier_info profile) in
  (limit <= n -> fst (CreditPolicy.can_create profile n) = false)
  /\ (is_premium profile = false -> credits profile <= 0 ->
      fst (CreditPolicy.can_create profile n) = false)
  /\ (n < limit -> is_premium profile = true \/ 0 < credits profile ->
      CreditPolicy.can_create profile n = (true, None))
  /\ fst (CreditPolicy.can_create profile limit) = false
  /\ (is_premium profile = true \/ 0 < credits profile ->
      CreditPolicy.can_create profile (limit - 1) = (true, None)).
Proof.
  intros limit.
  assert (Hdeny : forall m, limit <= m -> fst (CreditPolicy.can_create profile m) = false).
  { intros m Hm. unfold CreditPolicy.can_create. fold limit.
    rewrite Z.geb_leb. destruct (Z.leb_spec limit m); [reflexivity | lia]. }
  assert (Hallow : forall m, m < limit -> is_premium profile = true \/ 0 < credits profile ->
                     CreditPolicy.can_create profile m = (true, None)).
  { intros m Hm Hp. unfold CreditPolicy.can_create. fold limit.
    rewrite Z.geb_leb. destruct (Z.leb_spec limit m); [lia|].
    destruct Hp as [Hp|Hp].
    - rewrite Hp. reflexivity.
    - destruct (Z.leb_spec (credits profile) 0); [lia|].
      now rewrite andb_false_r. }
  repeat split.
  - apply Hdeny.
  - intros Hp Hc. unfold CreditPolicy.can_create.
    destruct (_ >=? _); [reflexivity|].
    rewrite Hp. destruct (Z.leb_spec (credits profile) 0); [reflexivity | lia].
  - apply Hallow.
  - apply Hdeny. lia.
  - apply Hallow. lia.
Qed.

Lemma can_create_verdict_witness :
  fst (CreditPolicy.can_create free_user 20) = false
  /\ fst (CreditPolicy.can_create (set_credits 0 free_user) 3) = false
  /\ CreditPolicy.can_create free_user 19 = (true, None)
  /\ CreditPolicy.can_create gold_user 299 = (true, None).
Proof.
  destruct (can_create_verdict free_user 20) as (H1 & _).
  destruct (can_create_verdict (set_credits 0 free_user) 3) as (_ & H2 & _).
  destruct (can_create_verdict free_user 19) as (_ & _ & H3 & _).
  destruct (can_create_verdict gold_user 299) as (_ & _ & _ & _ & H4).
  split; [apply H1; vm_compute; discriminate|].
  split; [apply H2; [reflexivity | vm_compute; discriminate]|].
  split; [apply H3; [reflexivity | right; reflexivity]|].
  apply H4. left; reflexivity.
Defined.

Lemma inc_used_users (c : string) (w : World) :
  users_json (CodesStore.inc_used c w) = users_json w.
Proof. unfold CodesStore.inc_used. now destruct (codes_json w !! c). Qed.

(** C10.  The limits the policy uses come from [get_user_tier_info], which
    answers with the FREE tier (20 active reminders, 1 snooze) for every
    profile that is not premium, whatever its [premium_tier], and for every
    profile whose [premium_tier] is none of the four tier names; redeeming a
    plan code whose plan name is not a tier name makes the profile premium and
    leaves it on the FREE limits. *)
Theorem tier_limits_fall_back_to_FREE :
  (forall p, is_premium p = false -> get_user_tier_info p = FREE_info)
  /\ (forall p, known_tier (premium_tier p) = false -> get_user_tier_info p = FREE_info)
  /\ max_active FREE_info = 20 /\ snooze_limit FREE_info = 1
  /\ (forall p, CreditPolicy.get_snooze_limit p = snooze_limit (get_user_tier_info p))
  /\ (forall p n, fst (CreditPolicy.can_create p n) = true ->
        n < max_active (get_user_tier_info p))
  /\ (forall (clock : nat -> Z) (upper : string -> string) (user : Z) (text : string)
             (w : World) (c : RedeemCode),
        let profile := fst (UserStore.get_user clock user w) in
        let w0 := snd (UserStore.get_user clock user w) in
        CodesStore.get (upper text) w0 = Some c ->
        (forall e, expires_at c = Some e -> clock (ticks w0) <= e) ->
        used c < max_uses c ->
        kind c = "plan"%string ->
        known_tier (Handlers.plan_or_PREMIUM c) = false ->
        let w' := fst (Handlers.on_text_message clock upper user text w) in
        exists p',
          users_json w' !! user_id profile = Some p'
          /\ is_premium p' = true
          /\ premium_tier p' = Handlers.plan_or_PREMIUM c
          /\ get_user_tier_info p' = FREE_info
          /\ max_active (get_user_tier_info p') = 20
          /\ CreditPolicy.get_snooze_limit p' = 1).
Proof.
  split; [exact tier_info_not_premium|].
  split; [exact tier_info_unknown_tier|].
  split; [reflexivity|]. split; [reflexivity|]. split; [reflexivity|].
  split.
  - intros p n H. unfold CreditPolicy.can_create in H.
    rewrite Z.geb_leb in H.
    destruct (Z.leb_spec (max_active (get_user_tier_info p)) n); [discriminate | lia].
  - intros clock upper user text w c profile w0 Hget Hexp Hused Hkind Hplan w'.
    assert (Hw' : w' = CodesStore.inc_used (code c)
                         (UserStore.put_user (set_premium (Handlers.plan_or_PREMIUM c) profile)
                            (match expires_at c with
                             | Some _ => tick w0 | None => w0 end))).
    { unfold w', Handlers.on_text_message.
      destruct (UserStore.get_user clock user w) as [profile0 w00] eqn:Eg.
      simpl in profile, w0. subst profile w0. rewrite Hget.
      destruct (expires_at c) as [e|] eqn:Ee.
      - unfold now_utc. specialize (Hexp e eq_refl).
        destruct (Z.ltb_spec e (clock (ticks w00))); [lia|].
        rewrite Z.geb_leb. destruct (Z.leb_spec (max_uses c) (used c)); [lia|].
        rewrite Hkind. reflexivity.
      - rewrite Z.geb_leb. destruct (Z.leb_spec (max_uses c) (used c)); [lia|].
        rewrite Hkind. reflexivity. }
    exists (set_premium (Handlers.plan_or_PREMIUM c) profile).
    assert (Hinfo : get_user_tier_info (set_premium (Handlers.plan_or_PREMIUM c) profile)
                    = FREE_info) by (apply tier_info_unknown_tier; exact Hplan).
    split.
    + rewrite Hw', inc_used_users. unfold UserStore.put_user. simpl.
      apply lookup_insert_eq.
    + unfold CreditPolicy.get_snooze_limit. rewrite Hinfo. repeat split.
Qed.

Lemma tier_limits_fall_back_to_FREE_witness :
  get_user_tier_info (set_credits 3 free_user) = FREE_info
  /\ (exists p',
        users_json (fst (Handlers.on_text_message sample_clock ascii_upper 7
                           "miku-vip-abc123" world_with_code)) !! 7 = Some p'
        /\ is_premium p' = true
        /\ premium_tier p' = "VIP"%string
        /\ get_user_tier_info p' = FREE_info
        /\ max_active (get_user_tier_info p') = 20
        /\ CreditPolicy.get_snooze_limit p' = 1).
Proof.
  destruct tier_limits_fall_back_to_FREE as (H1 & _ & _ & _ & _ & _ & H7).
  split; [apply H1; reflexivity|].
  apply (H7 sample_clock ascii_upper 7 "miku-vip-abc123"%string world_with_code
           plan_code_VIP).
  - vm_compute. reflexivity.
  - intros e He. discriminate He.
  - vm_compute. reflexivity.
  - reflexivity.
  - vm_compute. reflexivity.
Defined.

(** ** Stores and the job queue *)

Section StoreFacts.
Variable clock : nat -> Z.

Lemma get_user_frame (uid : Z) (w : World) :
  let w' := snd (UserStore.get_user clock uid w) in
  reminders_json w' = reminders_json w
  /\ codes_json w' = codes_json w
  /\ job_queue w' = job_queue w
  /\ outbox w' = outbox w
  /\ (ticks w <= ticks w')%nat.
Proof.
  unfold UserStore.get_user.
  destruct (users_json w !! uid); simpl; repeat split; lia.
Qed.

Lemma get_user_stored (uid : Z) (w : World) :
  let '(profile, w') := UserStore.get_user clock uid w in
  users_json w' !! uid = Some profile.
Proof.
  unfold UserStore.get_user.
  destruct (users_json w !! uid) eqn:E; simpl; [exact E | apply lookup_insert_eq].
Qed.

Lemma get_user_found (uid : Z) (p : UserProfile) (w : World) :
  users_json w !! uid = Some p -> UserStore.get_user clock uid w = (p, w).
Proof. intros H. unfold UserStore.get_user. now rewrite H. Qed.

Lemma set_job_queue_same (jq : list Job) (q : option (list Job)) (w : World) :
  job_queue w = Some jq -> set_job_queue (Some jq) (set_job_queue q w) = w.
Proof. destruct w; simpl; intros ->; reflexivity. Qed.

Lemma schedule_once_frame (when : Z) (rid : string) (w : World) :
  let w' := ReminderScheduler.schedule_once when rid w in
  reminders_json w' = reminders_json w
  /\ users_json w' = users_json w
  /\ codes_json w' = codes_json w
  /\ outbox w' = outbox w
  /\ ticks w' = ticks w.
Proof.
  unfold ReminderScheduler.schedule_once. destruct (job_queue w); simpl; auto.
Qed.

Lemma schedule_once_jobs (when : Z) (rid : string) (jq : list Job) (w : World) :
  job_queue w = Some jq ->
  job_queue (ReminderScheduler.schedule_once when rid w)
  = Some (jq ++ [mk_Job when rid rid]).
Proof. intros H. unfold ReminderScheduler.schedule_once. now rewrite H. Qed.
End StoreFacts.

(** ** The fire handler *)

Section FireHandler.
Variable clock : nat -> Z.
Variable zones_db : string -> option tzinfo.
Abbreviation run_job := (ReminderScheduler._run_reminder_job clock zones_db).
Abbreviation fire_job := (ReminderScheduler.fire clock zones_db).
Abbreviation next_occ := (ReminderScheduler._next_occurrence zones_db).

(** What the calculator answers for a descriptor of the data model. *)
Lemma next_occurrence_spec (fuel : nat) (r : Reminder) (rec : Recurring) (tz : tzinfo) :
  zones_db (r_timezone r) = Some tz ->
  recurring r = Some rec ->
  valid_recurrence rec = true ->
  (7 <= fuel)%nat ->
  next_occ fuel r
  = if next_is_datetime tz r rec
    then Return (Some (when_iso r + timedelta_days (days_to_next tz r rec)))
    else Raise OverflowError.
Proof.
  intros Htz Hrec Hvalid Hfuel. unfold valid_recurrence in Hvalid.
  destruct (str_is (rec_type rec) "daily") eqn:Hd.
  - unfold str_is in Hd. destruct (rec_type rec) as [k|] eqn:Ek; [|discriminate].
    apply String.eqb_eq in Hd. subst k.
    rewrite (next_occurrence_daily zones_db fuel r rec tz Htz Hrec Ek).
    unfold days_to_next. rewrite Ek. reflexivity.
  - cbn [orb] in Hvalid. apply andb_true_iff in Hvalid. destruct Hvalid as [Hw Hdow].
    unfold str_is in Hw. destruct (rec_type rec) as [k|] eqn:Ek; [|discriminate].
    apply String.eqb_eq in Hw. subst k.
    assert (Hrange : 0 <= default (weekday (astimezone tz (when_iso r))) (rec_dow rec) < 7).
    { destruct (rec_dow rec) as [d|]; simpl.
      - apply andb_true_iff in Hdow. destruct Hdow as [H0 H6].
        apply Z.leb_le in H0, H6. lia.
      - apply weekday_range. }
    now destruct (next_occurrence_weekly zones_db fuel r rec tz Htz Hrec Ek Hrange Hfuel).
Qed.

(** How far the calculator moves the due instant of a descriptor of the data
    model: by [interval] days, or by [interval] weeks and at most six days, to
    a wall clock value on the target day. *)
Lemma days_to_next_bounds (r : Reminder) (rec : Recurring) (tz : tzinfo) :
  valid_recurrence rec = true ->
  let k := default 1 (rec_interval rec) in
  let base := astimezone tz (when_iso r) in
  (str_is (rec_type rec) "daily" = true -> days_to_next tz r rec = k)
  /\ (str_is (rec_type rec) "daily" = false ->
      7 * k <= days_to_next tz r rec <= 7 * k + 6
      /\ weekday (dt_add base (timedelta_days (days_to_next tz r rec)))
         = default (weekday base) (rec_dow rec))
  /\ (1 <= k -> 1 <= days_to_next tz r rec).
Proof.
  intros Hvalid k base. unfold valid_recurrence in Hvalid.
  unfold days_to_next. fold k base.
  destruct (str_is (rec_type rec) "daily") eqn:Hd.
  - split; [reflexivity|]. split; [discriminate | auto].
  - cbn [orb] in Hvalid. apply andb_true_iff in Hvalid. destruct Hvalid as [_ Hdow].
    set (dow := default (weekday base) (rec_dow rec)).
    assert (Hrange : 0 <= dow < 7).
    { unfold dow. destruct (rec_dow rec) as [d|]; simpl.
      - apply andb_true_iff in Hdow. destruct Hdow as [H0 H6].
        apply Z.leb_le in H0, H6. lia.
      - apply weekday_range. }
    pose proof (Z.mod_pos_bound (dow - weekday base) 7 ltac:(lia)) as Hb.
    split; [discriminate|]. split; [|lia].
    intros _. split; [lia|].
    replace (timedelta_days (7 * k + (dow - weekday base) mod 7))
      with (timedelta_days (7 * k) + timedelta_days ((dow - weekday base) mod 7))
      by (unfold timedelta_days; lia).
    rewrite <- dt_add_add.
    assert (Hwd : weekday (dt_add base (timedelta_days (7 * k))) = weekday base).
    { rewrite weekday_add_days.
      replace (weekday base + 7 * k) with (weekday base + k * 7) by lia.
      rewrite Z.mod_add by lia. apply Z.mod_small, weekday_range. }
    rewrite <- Hwd at 1. now apply weekday_after_distance.
Qed.

(** C5.  A timer that fires for a reminder id which is no longer in the
    store, or whose reminder is completed, does nothing: the world is the one
    before, with no delivery attempted and no store written.  So a timer armed
    for a completed reminder delivers nothing when it fires. *)
Theorem fire_absent_or_done_is_noop
    (send_ok : bool) (fuel : nat) (rid : string) (w : World) :
  (ReminderStore.get rid w = None
   \/ exists r, ReminderStore.get rid w = Some r /\ done r = true) ->
  run_job send_ok fuel rid w = (w, Return tt)
  /\ (forall when jq,
        job_queue w = Some jq ->
        fire_job send_ok fuel (length jq) (ReminderScheduler.schedule_once when rid w)
        = Some (w, Return tt)).
Proof.
  intros H.
  assert (Hrun : run_job send_ok fuel rid w = (w, Return tt)).
  { unfold ReminderScheduler._run_reminder_job.
    destruct H as [-> | (r & -> & ->)]; reflexivity. }
  split; [exact Hrun|].
  intros when jq Hjq.
  unfold ReminderScheduler.fire, ReminderScheduler.schedule_once.
  rewrite Hjq. cbn [job_queue set_job_queue].
  rewrite list_lookup_middle by reflexivity.
  rewrite delete_middle, app_nil_r. cbn [job_data].
  rewrite (set_job_queue_same jq _ w Hjq). now rewrite Hrun.
Qed.
End FireHandler.

Lemma fire_absent_or_done_is_noop_witness :
  let w := world_of [r_done_UTC] free_user [] in
  ReminderScheduler._run_reminder_job sample_clock zones true 7 "a5" w = (w, Return tt)
  /\ ReminderScheduler.fire sample_clock zones true 7 0
       (ReminderScheduler.schedule_once 99 "a5" w) = Some (w, Return tt)
  /\ ReminderScheduler._run_reminder_job sample_clock zones true 7 "zz" w = (w, Return tt).
Proof.
  intros w.
  assert (Hdone : ReminderStore.get "a5" w = None
                  \/ exists r, ReminderStore.get "a5" w = Some r /\ done r = true).
  { right. exists r_done_UTC. split; vm_compute; reflexivity. }
  assert (Habsent : ReminderStore.get "zz" w = None
                  \/ exists r, ReminderStore.get "zz" w = Some r /\ done r = true).
  { left. vm_compute. reflexivity. }
  destruct (fire_absent_or_done_is_noop sample_clock zones true 7 "a5" w Hdone) as [H1 H2].
  destruct (fire_absent_or_done_is_noop sample_clock zones true 7 "zz" w Habsent) as [H3 _].
  split; [exact H1|]. split; [|exact H3].
  apply (H2 99 []). reflexivity.
Defined.


Section FireTransition.
Variable clock : nat -> Z.
Variable zones_db : string -> option tzinfo.
Abbreviation run_job' := (ReminderScheduler._run_reminder_job clock zones_db).
Abbreviation next_occ' := (ReminderScheduler._next_occurrence zones_db).

(** The fire handler on a reminder that is in the store and not completed,
    in terms of its three stages. *)
Lemma run_job_stages (send_ok : bool) (fuel : nat) (rid : string) (r : Reminder) (w : World) :
  ReminderStore.get rid w = Some r -> done r = false ->
  let w1 := snd (UserStore.get_user clock (r_user_id r) w) in
  let tried := ReminderScheduler.deliver zones_db send_ok r w1 in
  let finished := ReminderScheduler.after_delivery zones_db fuel r (fst tried) in
  run_job' send_ok fuel rid w
  = (fst finished,
     match snd finished with Return _ => snd tried | other => other end).
Proof.
  intros Hget Hdone. unfold ReminderScheduler._run_reminder_job.
  rewrite Hget, Hdone.
  destruct (UserStore.get_user clock (r_user_id r) w) as [profile w1].
  cbn [snd].
  destruct (ReminderScheduler.deliver zones_db send_ok r w1) as [w2 tried].
  cbn [fst snd].
  destruct (ReminderScheduler.after_delivery zones_db fuel r w2) as [w3 finished].
  now destruct finished.
Qed.

(** The rollover of a recurring reminder: the record is stored again with the
    new due instant and a timer is added for it. *)
Lemma after_delivery_rollover (fuel : nat) (r : Reminder) (next : Z) (w : World) :
  is_recurring r = true ->
  next_occ' fuel r = Return (Some next) ->
  ReminderScheduler.after_delivery zones_db fuel r w
  = (ReminderScheduler.schedule_once next (id r)
       (ReminderStore.put (set_when_iso next r) w), Return tt).
Proof.
  intros Hrec Hnext. unfold ReminderScheduler.after_delivery.
  now rewrite Hrec, Hnext.
Qed.

Lemma after_delivery_one_shot (fuel : nat) (r : Reminder) (w : World) :
  is_recurring r = false ->
  ReminderScheduler.after_delivery zones_db fuel r w
  = (ReminderStore.put (set_done true r) w, Return tt).
Proof. intros Hrec. unfold ReminderScheduler.after_delivery. now rewrite Hrec. Qed.

(** The calculator raising: the reminder is left as it is. *)
Lemma after_delivery_raises (fuel : nat) (r : Reminder) (e : exn) (w : World) :
  is_recurring r = true ->
  next_occ' fuel r = Raise e ->
  ReminderScheduler.after_delivery zones_db fuel r w = (w, Raise e).
Proof.
  intros Hrec Hnext. unfold ReminderScheduler.after_delivery.
  now rewrite Hrec, Hnext.
Qed.

(** C4, as amended.  When the timer of a stored, not completed reminder
    fires and the send raises, the transition still happens whenever the
    calculator yields an instant: a reminder without recurrence is stored as
    completed; a reminder with a daily or weekly recurrence whose next
    occurrence is a [datetime] is stored with its due instant moved to it,
    still not completed, and a timer is armed for that instant, which is
    [interval] days later for a daily descriptor, [interval] weeks and up to
    six days later for a weekly one, and later than the last whenever
    [interval] is at least 1.  When the next occurrence is beyond the range of
    [datetime] the calculator raises [OverflowError] in the [finally] block
    and the reminder is left as stored, with no timer armed. *)
Theorem failed_delivery_still_transitions
    (fuel : nat) (rid : string) (r : Reminder) (tz : tzinfo) (jq : list Job) (w : World) :
  ReminderStore.get rid w = Some r ->
  done r = false ->
  zones_db (r_timezone r) = Some tz ->
  job_queue w = Some jq ->
  (7 <= fuel)%nat ->
  let result := run_job' false fuel rid w in
  let w' := fst result in
  let failed := mk_Delivery (chat_id r) r false in
  outbox w' = outbox w ++ [failed]
  /\ (is_recurring r = false ->
      snd result = Raise SendFailed
      /\ ReminderStore.get (id r) w' = Some (set_done true r)
      /\ job_queue w' = Some jq)
  /\ (forall rec,
        recurring r = Some rec -> dict_truthy rec = true ->
        valid_recurrence rec = true ->
        let k := default 1 (rec_interval rec) in
        let base := astimezone tz (when_iso r) in
        let days := days_to_next tz r rec in
        let next := when_iso r + timedelta_days days in
        (next_is_datetime tz r rec = true ->
         next_occ' fuel r = Return (Some next)
         /\ snd result = Raise SendFailed
         /\ ReminderStore.get (id r) w' = Some (set_when_iso next r)
         /\ done (set_when_iso next r) = false
         /\ job_queue w' = Some (jq ++ [mk_Job next (id r) (id r)])
         /\ (str_is (rec_type rec) "daily" = true -> days = k)
         /\ (str_is (rec_type rec) "daily" = false ->
             7 * k <= days <= 7 * k + 6
             /\ weekday (dt_add base (timedelta_days days))
                = default (weekday base) (rec_dow rec))
         /\ (1 <= k -> when_iso r < next))
        /\ (next_is_datetime tz r rec = false ->
            next_occ' fuel r = Raise OverflowError
            /\ snd result = Raise OverflowError
            /\ reminders_json w' = reminders_json w
            /\ job_queue w' = Some jq)).
Proof.
  intros Hget Hdone Htz Hjq Hfuel result w' failed.
  pose proof (run_job_stages false fuel rid r w Hget Hdone) as Hrun.
  cbn zeta in Hrun.
  destruct (get_user_frame clock (r_user_id r) w) as (Hrem & _ & Hq & Hout & _).
  set (w1 := snd (UserStore.get_user clock (r_user_id r) w)) in *.
  assert (Htried : ReminderScheduler.deliver zones_db false r w1
                   = (log_delivery failed w1, Raise SendFailed)).
  { unfold ReminderScheduler.deliver. now rewrite Htz. }
  rewrite Htried in Hrun. cbn [fst snd] in Hrun.
  set (w2 := log_delivery failed w1) in *.
  assert (Hout2 : outbox w2 = outbox w ++ [failed]) by (simpl; now rewrite Hout).
  assert (Hshape : outbox (fst (ReminderScheduler.after_delivery zones_db fuel r w2))
                   = outbox w2).
  { unfold ReminderScheduler.after_delivery.
    destruct (is_recurring r); [|reflexivity].
    destruct (next_occ' fuel r) as [[next|]|e|]; try reflexivity.
    cbn [fst].
    destruct (schedule_once_frame next (id (set_when_iso next r))
                (ReminderStore.put (set_when_iso next r) w2))
      as (_ & _ & _ & Ho & _).
    rewrite Ho. reflexivity. }
  split; [|split].
  - subst w' result. rewrite Hrun. cbn [fst]. now rewrite Hshape.
  - intros Hrec.
    rewrite (after_delivery_one_shot fuel r w2 Hrec) in Hrun.
    cbn [fst snd] in Hrun. subst w' result. rewrite Hrun. cbn [fst snd].
    split; [reflexivity|].
    split; [apply lookup_insert_eq|]. simpl. now rewrite Hq.
  - intros rec Erec Htruthy Hvalid k base days next.
    pose proof (next_occurrence_spec zones_db fuel r rec tz Htz Erec Hvalid Hfuel)
      as Hspec.
    fold days next in Hspec.
    assert (Hrec : is_recurring r = true) by (unfold is_recurring; now rewrite Erec).
    destruct (days_to_next_bounds r rec tz Hvalid) as (Hdaily & Hweekly & Hlater).
    fold k base days in Hdaily, Hweekly, Hlater.
    split; intros Hdt; rewrite Hdt in Hspec.
    + rewrite (after_delivery_rollover fuel r next w2 Hrec Hspec) in Hrun.
      cbn [fst snd] in Hrun. subst w' result. rewrite Hrun. cbn [fst snd].
      destruct (schedule_once_frame next (id r)
                  (ReminderStore.put (set_when_iso next r) w2)) as (Hr' & _).
      split; [exact Hspec|]. split; [reflexivity|].
      split; [unfold ReminderStore.get; rewrite Hr'; apply lookup_insert_eq|].
      split; [exact Hdone|].
      split; [apply schedule_once_jobs; simpl; now rewrite Hq|].
      split; [exact Hdaily|]. split; [exact Hweekly|].
      intros Hk. specialize (Hlater Hk). unfold next, timedelta_days. lia.
    + rewrite (after_delivery_raises fuel r OverflowError w2 Hrec Hspec) in Hrun.
      cbn [fst snd] in Hrun. subst w' result. rewrite Hrun. cbn [fst snd].
      split; [exact Hspec|]. split; [reflexivity|].
      split; [simpl; exact Hrem | simpl; now rewrite Hq].
Qed.
End FireTransition.

Lemma failed_delivery_still_transitions_witness :
  let w := world_of [r_once_UTC; r_daily_UTC] free_user [] in
  let fired_once := ReminderScheduler._run_reminder_job sample_clock zones false 7 "a4" w in
  let fired_daily := ReminderScheduler._run_reminder_job sample_clock zones false 7 "a3" w in
  let next_day := when_iso r_daily_UTC + timedelta_days 1 in
  (snd fired_once = Raise SendFailed
   /\ outbox (fst fired_once) = [mk_Delivery 7 r_once_UTC false]
   /\ ReminderStore.get "a4" (fst fired_once) = Some (set_done true r_once_UTC)
   /\ job_queue (fst fired_once) = Some [])
  /\ (ReminderScheduler._next_occurrence zones 7 r_daily_UTC = Return (Some next_day)
      /\ snd fired_daily = Raise SendFailed
      /\ outbox (fst fired_daily) = [mk_Delivery 7 r_daily_UTC false]
      /\ ReminderStore.get "a3" (fst fired_daily) = Some (set_when_iso next_day r_daily_UTC)
      /\ done (set_when_iso next_day r_daily_UTC) = false
      /\ job_queue (fst fired_daily) = Some [mk_Job next_day "a3" "a3"]
      /\ when_iso r_daily_UTC < next_day).
Proof.
  intros w fired_once fired_daily next_day.
  destruct (failed_delivery_still_transitions sample_clock zones 7 "a4"
              r_once_UTC (StaticTzInfo 0) [] w)
    as (Hout1 & Hone & _); [reflexivity .. | lia |].
  destruct (failed_delivery_still_transitions sample_clock zones 7 "a3"
              r_daily_UTC (StaticTzInfo 0) [] w)
    as (Hout2 & _ & Hrec); [reflexivity .. | lia |].
  destruct (Hone eq_refl) as (H1 & H2 & H3).
  destruct (Hrec (daily 1) eq_refl eq_refl eq_refl) as (Hroll & _).
  destruct (Hroll eq_refl) as (G1 & G2 & G3 & G4 & G5 & _ & _ & G8).
  split.
  - split; [exact H1|]. split; [exact Hout1|]. split; [exact H2 | exact H3].
  - split; [exact G1|]. split; [exact G2|]. split; [exact Hout2|].
    split; [exact G3|]. split; [exact G4|]. split; [exact G5|].
    apply G8. vm_compute. discriminate.
Defined.

(** C4, the claim as stated fails: a daily reminder with the interval
    3000000, which [/repeat daily 3000000 | ... at HH:MM] stores, is due at
    1970-01-01T00:00:01Z; its next occurrence would be in the year 10183.
    When its timer fires and the send raises, [_next_occurrence] raises
    [OverflowError] in the [finally] block: the handler ends with that
    exception, the reminder is still stored with its old due instant and no
    timer is armed. *)
Lemma failed_delivery_without_transition :
  let w := world_of [r_daily_far] free_user [] in
  let result := ReminderScheduler._run_reminder_job sample_clock zones false 7 "a7" w in
  ReminderStore.get "a7" w = Some r_daily_far
  /\ done r_daily_far = false
  /\ is_recurring r_daily_far = true
  /\ outbox (fst result) = [mk_Delivery 7 r_daily_far false]
  /\ snd result = Raise OverflowError
  /\ ReminderStore.get "a7" (fst result) = Some r_daily_far
  /\ job_queue (fst result) = Some []
  /\ ~ (exists next,
          when_iso r_daily_far < next
          /\ ReminderStore.get "a7" (fst result) = Some (set_when_iso next r_daily_far)
          /\ job_queue (fst result) = Some [mk_Job next "a7" "a7"]).
Proof.
  intros w result.
  assert (Hq : job_queue (fst result) = Some []) by (vm_compute; reflexivity).
  repeat split; try (vm_compute; reflexivity).
  intros (next & _ & _ & Harmed). rewrite Hq in Harmed. discriminate Harmed.
Qed.

(** ** Snoozing *)

Section Snooze.
Variable clock : nat -> Z.
Abbreviation callback := (Handlers.on_callback clock).

(** The snooze branch of [on_callback] for a stored reminder of the caller. *)
Lemma on_callback_snooze
    (user : Z) (rid : string) (minutes : option Z) (r : Reminder) (w : World) :
  let profile := fst (UserStore.get_user clock user w) in
  let w0 := snd (UserStore.get_user clock user w) in
  let limit := CreditPolicy.get_snooze_limit profile in
  let new_when := clock (ticks w0) + timedelta_minutes (default 5 minutes) in
  let snoozed := set_snoozes_used (snoozes_used r + 1) (set_when_iso new_when r) in
  ReminderStore.get rid w = Some r ->
  r_user_id r = user ->
  callback user "snooze" rid minutes w
  = if snoozes_used r >=? limit
    then (w0, SnoozeLimitReached (snoozes_used r) limit (premium_tier profile))
    else (ReminderScheduler.schedule_once new_when (id snoozed)
            (ReminderStore.put snoozed (tick w0)), SnoozedTo new_when).
Proof.
  intros profile w0 limit new_when snoozed Hget Howner.
  destruct (get_user_frame clock user w) as (Hrem & _).
  fold w0 in Hrem.
  assert (Hget0 : ReminderStore.get rid w0 = Some r)
    by (unfold ReminderStore.get; now rewrite Hrem).
  unfold Handlers.on_callback.
  subst limit new_when snoozed profile w0.
  destruct (UserStore.get_user clock user w) as [p w00]. cbn [fst snd] in *.
  cbn [String.eqb Ascii.eqb Bool.eqb orb negb].
  rewrite Hget0, Howner, Z.eqb_refl. cbn [negb]. reflexivity.
Qed.

End Snooze.


(** ** Recurrence rollover *)

Section Rollover.
Variable clock : nat -> Z.
Variable zones_db : string -> option tzinfo.

(** C9.  When a recurring reminder fires and rolls over, the record stored
    under its id is the old one with a new due instant: the snooze counter is
    not reset, and id, owner, chat, text, zone, creation instant, recurrence
    and completion flag (and the remaining fields) are the same; the other
    records of the store are untouched.  A reminder whose counter had reached
    the snooze limit of its owner is therefore still refused a snooze after
    the rollover. *)
Theorem rollover_changes_only_due_instant
    (send_ok : bool) (fuel : nat) (rid : string) (r : Reminder) (next : Z) (w : World) :
  ReminderStore.get rid w = Some r ->
  done r = false ->
  is_recurring r = true ->
  ReminderScheduler._next_occurrence zones_db fuel r = Return (Some next) ->
  let w' := fst (ReminderScheduler._run_reminder_job clock zones_db send_ok fuel rid w) in
  exists r',
    ReminderStore.get (id r) w' = Some r'
    /\ r' = set_when_iso next r
    /\ when_iso r' = next
    /\ snoozes_used r' = snoozes_used r
    /\ id r' = id r /\ r_user_id r' = r_user_id r /\ chat_id r' = chat_id r
    /\ text r' = text r /\ r_timezone r' = r_timezone r
    /\ created_at r' = created_at r /\ recurring r' = recurring r
    /\ done r' = done r
    /\ category r' = category r /\ priority r' = priority r /\ tags r' = tags r
    /\ location r' = location r /\ template_id r' = template_id r
    /\ (forall k, k <> id r -> reminders_json w' !! k = reminders_json w !! k)
    /\ (forall minutes,
          let owner := fst (UserStore.get_user clock (r_user_id r) w') in
          CreditPolicy.get_snooze_limit owner <= snoozes_used r ->
          snd (Handlers.on_callback clock (r_user_id r) "snooze" (id r) minutes w')
          = SnoozeLimitReached (snoozes_used r) (CreditPolicy.get_snooze_limit owner)
              (premium_tier owner)).
Proof.
  intros Hget Hdone Hrec Hnext w'.
  pose proof (run_job_stages clock zones_db send_ok fuel rid r w Hget Hdone) as Hrun.
  cbn zeta in Hrun.
  destruct (get_user_frame clock (r_user_id r) w) as (Hrem & _ & _ & _ & _).
  set (w1 := snd (UserStore.get_user clock (r_user_id r) w)) in *.
  assert (Hdel : reminders_json (fst (ReminderScheduler.deliver zones_db send_ok r w1))
                 = reminders_json w1).
  { unfold ReminderScheduler.deliver.
    destruct (zones_db (r_timezone r)); [destruct send_ok|]; reflexivity. }
  set (w2 := fst (ReminderScheduler.deliver zones_db send_ok r w1)) in *.
  rewrite (after_delivery_rollover zones_db fuel r next w2 Hrec Hnext) in Hrun.
  cbn [fst snd] in Hrun.
  assert (Hstore : reminders_json w' = <[id r := set_when_iso next r]> (reminders_json w)).
  { subst w'. rewrite Hrun. cbn [fst].
    destruct (schedule_once_frame next (id r)
                (ReminderStore.put (set_when_iso next r) w2)) as (Hr' & _).
    rewrite Hr'. simpl. now rewrite Hdel, Hrem. }
  assert (Hlook : ReminderStore.get (id r) w' = Some (set_when_iso next r)).
  { unfold ReminderStore.get. rewrite Hstore. apply lookup_insert_eq. }
  exists (set_when_iso next r).
  split; [exact Hlook|].
  do 16 (split; [reflexivity|]).
  split.
  - intros k Hk. rewrite Hstore. now apply lookup_insert_ne.
  - intros minutes owner Hlim.
    rewrite (on_callback_snooze clock (r_user_id r) (id r) minutes
               (set_when_iso next r) w' Hlook eq_refl).
    cbn [snoozes_used set_when_iso]. fold owner.
    rewrite Z.geb_leb.
    destruct (Z.leb_spec (CreditPolicy.get_snooze_limit owner) (snoozes_used r)); [|lia].
    reflexivity.
Qed.
End Rollover.

Lemma rollover_changes_only_due_instant_witness :
  let w := world_of [r_daily_snoozed] free_user [] in
  let next := when_iso r_daily_snoozed + timedelta_days 1 in
  let w' := fst (ReminderScheduler._run_reminder_job sample_clock zones true 7 "a3" w) in
  ReminderStore.get "a3" w' = Some (set_when_iso next r_daily_snoozed)
  /\ (ReminderStore.get "a3" w' ≫= fun r => Some (snoozes_used r)) = Some 1
  /\ snd (Handlers.on_callback sample_clock 7 "snooze" "a3" (Some 5) w')
     = SnoozeLimitReached 1 1 "FREE".
Proof.
  intros w next w'.
  destruct (rollover_changes_only_due_instant sample_clock zones true 7 "a3"
              r_daily_snoozed next w eq_refl eq_refl eq_refl eq_refl)
    as (r' & Hlook & -> & _ & _ & _ & _ & _ & _ & _ & _ & _ & _ & _ & _ & _ & _ & _ & _ & Hsnooze).
  change (id r_daily_snoozed) with "a3"%string in Hlook.
  fold w' in Hlook. split; [exact Hlook|]. split; [now rewrite Hlook|].
  apply (Hsnooze (Some 5)). vm_compute. discriminate.
Defined.

(** ** Arming timers *)

(** C3, as stated, fails.  After the rollover the reminder has one pending
    timer, for the next day.  The snooze arms a second timer and leaves the
    first one pending: the id has two pending timers.  The reminder is
    delivered when the timer of the snooze fires, and again when the older
    timer fires, at the instant armed before the snooze. *)
Lemma snooze_leaves_old_timer_pending :
  let next_day := when_iso r_daily_UTC + timedelta_days 1 in
  let snoozed_to := sample_clock 0 + timedelta_minutes 5 in
  pending "a3" scenario_fired = [mk_Job next_day "a3" "a3"]
  /\ pending "a3" scenario_snoozed
     = [mk_Job next_day "a3" "a3"; mk_Job snoozed_to "a3" "a3"]
  /\ ~ (length (pending "a3" scenario_snoozed) <= 1)%nat
  /\ length (outbox scenario_snoozed) = 1%nat
  /\ length (outbox scenario_snooze_fired) = 2%nat
  /\ pending "a3" scenario_snooze_fired
     = [mk_Job next_day "a3" "a3"; mk_Job (snoozed_to + timedelta_days 1) "a3" "a3"]
  /\ length (outbox scenario_old_fired) = 3%nat
  /\ (sent <$> outbox scenario_old_fired) = [true; true; true].
Proof.
  repeat split; try (vm_compute; reflexivity).
  vm_compute. intros H. repeat (apply le_S_n in H). inversion H.
Qed.

Lemma deliver_frame (zones_db : string -> option tzinfo) (send_ok : bool)
    (r : Reminder) (w : World) :
  let w' := fst (ReminderScheduler.deliver zones_db send_ok r w) in
  reminders_json w' = reminders_json w /\ job_queue w' = job_queue w.
Proof.
  unfold ReminderScheduler.deliver.
  destruct (zones_db (r_timezone r)); [destruct send_ok|]; split; reflexivity.
Qed.

(** Removing the only job a filter keeps leaves nothing for the filter. *)
Lemma filter_delete_only (f : Job -> bool) (jq : list Job) (i : nat) (j : Job) :
  jq !! i = Some j -> List.filter f jq = [j] ->
  List.filter f (base.delete i jq) = [].
Proof.
  intros Hi Hf.
  rewrite <- (take_drop_middle jq i j Hi) in Hf.
  rewrite List.filter_app in Hf. cbn [List.filter] in Hf.
  rewrite delete_take_drop, List.filter_app.
  destruct (f j) eqn:Hfj.
  - apply (f_equal (@length Job)) in Hf.
    rewrite length_app in Hf. cbn [length] in Hf.
    destruct (List.filter f (take i jq)); [|cbn [length] in Hf; lia].
    destruct (List.filter f (drop (S i) jq)); [reflexivity | cbn [length] in Hf; lia].
  - exfalso.
    assert (Hin : In j (List.filter f (take i jq) ++ List.filter f (drop (S i) jq)))
      by (rewrite Hf; left; reflexivity).
    apply in_app_or in Hin.
    destruct Hin as [Hin|Hin]; apply List.filter_In in Hin; destruct Hin as [_ Hin];
      congruence.
Qed.

(** A rollover re-arms after the fired timer has left the queue: when the
    only pending timer of a recurring reminder fires, the reminder is left
    with exactly one pending timer, the one for its next occurrence. *)
Lemma fire_rollover_single_timer
    (clock : nat -> Z) (zones_db : string -> option tzinfo) (send_ok : bool)
    (fuel i : nat) (j : Job) (r : Reminder) (next : Z) (jq : list Job) (w : World) :
  job_queue w = Some jq ->
  jq !! i = Some j ->
  job_data j = id r ->
  ReminderStore.get (id r) w = Some r ->
  done r = false ->
  is_recurring r = true ->
  ReminderScheduler._next_occurrence zones_db fuel r = Return (Some next) ->
  pending (id r) w = [j] ->
  exists w' res,
    ReminderScheduler.fire clock zones_db send_ok fuel i w = Some (w', res)
    /\ pending (id r) w' = [mk_Job next (id r) (id r)].
Proof.
  intros Hjq Hi Hdata Hget Hdone Hrec Hnext Hpending.
  unfold ReminderScheduler.fire. rewrite Hjq, Hi, Hdata.
  set (w0 := set_job_queue (Some (base.delete i jq)) w).
  pose proof (run_job_stages clock zones_db send_ok fuel (id r) r w0 Hget Hdone) as Hrun.
  cbn zeta in Hrun.
  destruct (get_user_frame clock (r_user_id r) w0) as (_ & _ & Hq1 & _).
  set (w1 := snd (UserStore.get_user clock (r_user_id r) w0)) in *.
  destruct (deliver_frame zones_db send_ok r w1) as (_ & Hq2).
  set (w2 := fst (ReminderScheduler.deliver zones_db send_ok r w1)) in *.
  rewrite (after_delivery_rollover zones_db fuel r next w2 Hrec Hnext) in Hrun.
  cbn [fst snd] in Hrun. rewrite Hrun.
  eexists _, _. split; [reflexivity|].
  unfold pending.
  rewrite (schedule_once_jobs next (id r) (base.delete i jq)
             (ReminderStore.put (set_when_iso next r) w2))
    by (simpl; rewrite Hq2, Hq1; reflexivity).
  cbn [default from_option Datatypes.id set_when_iso id].
  unfold pending in Hpending. rewrite Hjq in Hpending.
  rewrite List.filter_app, (filter_delete_only _ jq i j Hi Hpending).
  cbn [List.filter job_name app]. now rewrite String.eqb_refl.
Qed.

(** C3, amended.  With a job queue, [schedule_once] adds exactly one timer for
    the id, at the requested instant, and cancels none: every timer that was
    pending stays pending at its place in the queue, so the id has one pending
    timer more than before and the timers of the other ids are the same; the
    stores are not touched.  A rollover re-arms after the fired timer has left
    the queue: when the only pending timer of a recurring reminder fires, the
    reminder is left with exactly one pending timer, for its next occurrence. *)
Theorem schedule_once_adds_one_timer
    (when : Z) (rid : string) (jq : list Job) (w : World) :
  job_queue w = Some jq ->
  let w' := ReminderScheduler.schedule_once when rid w in
  job_queue w' = Some (jq ++ [mk_Job when rid rid])
  /\ pending rid w' = pending rid w ++ [mk_Job when rid rid]
  /\ length (pending rid w') = S (length (pending rid w))
  /\ (forall other, other <> rid -> pending other w' = pending other w)
  /\ (forall i j, jq !! i = Some j -> (jq ++ [mk_Job when rid rid]) !! i = Some j)
  /\ reminders_json w' = reminders_json w
  /\ users_json w' = users_json w
  /\ (forall clock zones_db send_ok fuel i j r next,
        jq !! i = Some j -> job_data j = rid -> id r = rid ->
        ReminderStore.get rid w = Some r -> done r = false ->
        is_recurring r = true ->
        ReminderScheduler._next_occurrence zones_db fuel r = Return (Some next) ->
        pending rid w = [j] ->
        exists fired res,
          ReminderScheduler.fire clock zones_db send_ok fuel i w = Some (fired, res)
          /\ pending rid fired = [mk_Job next rid rid]).
Proof.
  intros Hjq w'.
  assert (Hq' : job_queue w' = Some (jq ++ [mk_Job when rid rid]))
    by (apply schedule_once_jobs; exact Hjq).
  assert (Hp : forall other,
             pending other w'
             = pending other w
               ++ (if String.eqb rid other then [mk_Job when rid rid] else [])).
  { intros other. unfold pending. rewrite Hq', Hjq. simpl.
    now rewrite List.filter_app. }
  split; [exact Hq'|].
  split; [rewrite Hp, String.eqb_refl; reflexivity|].
  split; [rewrite Hp, String.eqb_refl, length_app; simpl; lia|].
  split.
  { intros other Hne. rewrite Hp.
    apply not_eq_sym in Hne. apply String.eqb_neq in Hne. rewrite Hne.
    apply app_nil_r. }
  split; [intros i j Hi; now apply lookup_app_l_Some|].
  destruct (schedule_once_frame when rid w) as (Hr & Hu & _).
  split; [exact Hr|]. split; [exact Hu|].
  intros clock zones_db send_ok fuel i j r next Hi Hdata Hid Hget Hdone Hrec Hnext Hpend.
  clear Hq' Hp Hr Hu. clear w'. rewrite <- Hid in *.
  apply (fire_rollover_single_timer clock zones_db send_ok fuel i j r next jq w);
    assumption.
Qed.

Lemma schedule_once_adds_one_timer_witness :
  let w := ReminderScheduler.schedule_once 3 "a3" (world_of [r_daily_UTC] free_user []) in
  let w' := ReminderScheduler.schedule_once 5 "a3" w in
  (job_queue w' = Some [mk_Job 3 "a3" "a3"; mk_Job 5 "a3" "a3"]
   /\ pending "a3" w' = [mk_Job 3 "a3" "a3"; mk_Job 5 "a3" "a3"]
   /\ length (pending "a3" w') = 2%nat)
  /\ (exists fired res,
        ReminderScheduler.fire sample_clock zones true 7 0 w = Some (fired, res)
        /\ pending "a3" fired
           = [mk_Job (when_iso r_daily_UTC + timedelta_days 1) "a3" "a3"]).
Proof.
  intros w w'.
  destruct (schedule_once_adds_one_timer 5 "a3" [mk_Job 3 "a3" "a3"] w eq_refl)
    as (H1 & H2 & H3 & _ & _ & _ & _ & H8).
  split; [split; [exact H1 | split; [exact H2 | exact H3]]|].
  apply (H8 sample_clock zones true 7%nat 0%nat (mk_Job 3 "a3" "a3") r_daily_UTC);
    reflexivity.
Defined.

(** ** Startup *)

Section Startup.
Variable clock : nat -> Z.

Lemma armed_as_earlier (n0 n1 : nat) (r : Reminder) (j : Job) :
  (n0 <= n1)%nat -> armed_as clock n1 r j -> armed_as clock n0 r j.
Proof.
  intros Hle (Hn & Hd & n & Hge & Hwhen).
  repeat split; try assumption. exists n. split; [lia | exact Hwhen].
Qed.

(** One round of the loop: nothing for a completed reminder, one timer
    otherwise. *)
Lemma schedule_on_startup_spec (r : Reminder) (jq : list Job) (w : World) :
  job_queue w = Some jq ->
  let w' := ReminderScheduler.schedule_on_startup clock r w in
  reminders_json w' = reminders_json w
  /\ (ticks w <= ticks w')%nat
  /\ if done r then job_queue w' = Some jq
     else exists j, job_queue w' = Some (jq ++ [j]) /\ armed_as clock (ticks w) r j.
Proof.
  intros Hjq. unfold ReminderScheduler.schedule_on_startup.
  destruct (done r); [simpl; auto|].
  unfold now_utc. cbn [ticks tick].
  destruct (Z.ltb_spec (when_iso r) (clock (ticks w))) as [Hpast|Hfuture].
  - split; [|split].
    + destruct (schedule_once_frame (clock (S (ticks w)) + timedelta_seconds 2) (id r)
                  (tick (tick w))) as (-> & _). reflexivity.
    + destruct (schedule_once_frame (clock (S (ticks w)) + timedelta_seconds 2) (id r)
                  (tick (tick w))) as (_ & _ & _ & _ & ->). simpl. lia.
    + eexists. split; [apply schedule_once_jobs; exact Hjq|].
      repeat split. exists (ticks w). split; [lia|]. right. split; [exact Hpast | reflexivity].
  - split; [|split].
    + destruct (schedule_once_frame (when_iso r) (id r) (tick w)) as (-> & _). reflexivity.
    + destruct (schedule_once_frame (when_iso r) (id r) (tick w)) as (_ & _ & _ & _ & ->).
      simpl. lia.
    + eexists. split; [apply schedule_once_jobs; exact Hjq|].
      repeat split. exists (ticks w). split; [lia|]. left. split; [exact Hfuture | reflexivity].
Qed.

(** The loop arms the reminders that are not completed, in order, one timer
    each. *)
Lemma schedule_all_spec (rs : list Reminder) :
  forall (jq : list Job) (w : World),
    job_queue w = Some jq ->
    let w' := ReminderScheduler.schedule_all clock rs w in
    exists added,
      job_queue w' = Some (jq ++ added)
      /\ reminders_json w' = reminders_json w
      /\ Forall2 (armed_as clock (ticks w)) (filter (fun r => done r = false) rs) added.
Proof.
  induction rs as [|r rs IH]; intros jq w Hjq.
  - exists []. simpl. rewrite app_nil_r. repeat split; [assumption | constructor].
  - cbn [ReminderScheduler.schedule_all].
    destruct (schedule_on_startup_spec r jq w Hjq) as (Hrem & Hticks & Hstep).
    set (w1 := ReminderScheduler.schedule_on_startup clock r w) in *.
    destruct (done r) eqn:Hdone.
    + destruct (IH jq w1 Hstep) as (added & Hq & Hr & Hall).
      exists added. split; [exact Hq|]. split; [congruence|].
      rewrite filter_cons_False by (rewrite Hdone; discriminate).
      eapply Forall2_impl; [exact Hall|].
      intros r' j'. now apply armed_as_earlier.
    + destruct Hstep as (j & Hq1 & Harmed).
      destruct (IH (jq ++ [j]) w1 Hq1) as (added & Hq & Hr & Hall).
      exists (j :: added). split; [rewrite Hq, <- app_assoc; reflexivity|].
      split; [congruence|].
      rewrite filter_cons_True by exact Hdone.
      constructor; [exact Harmed|].
      eapply Forall2_impl; [exact Hall|].
      intros r' j'. now apply armed_as_earlier.
Qed.

(** C8.  With a job queue and a clock that does not run backwards, startup
    adds one timer per stored reminder that is not completed and none for a
    completed one.  The timer of a reminder whose due instant is already in
    the past is set two seconds after a clock read made during startup, so it
    is later than the time startup began and is not the stale instant. *)
Theorem startup_arms_open_reminders (jq : list Job) (w : World) :
  (forall n m, (n <= m)%nat -> clock n <= clock m) ->
  job_queue w = Some jq ->
  let w' := ReminderScheduler.schedule_all_on_startup clock w in
  exists added,
    job_queue w' = Some (jq ++ added)
    /\ reminders_json w' = reminders_json w
    /\ length added = length (filter (fun r => done r = false) (ReminderStore.all w))
    /\ (forall k r,
          reminders_json w !! k = Some r -> done r = false ->
          exists j, j ∈ added /\ job_name j = id r /\ job_data j = id r
            /\ (job_when j = when_iso r
                \/ exists n, (ticks w < n)%nat
                             /\ job_when j = clock n + timedelta_seconds 2)
            /\ (when_iso r < clock (ticks w) ->
                (exists n, (ticks w < n)%nat
                           /\ job_when j = clock n + timedelta_seconds 2)
                /\ clock (ticks w) + timedelta_seconds 2 <= job_when j
                /\ when_iso r < job_when j))
    /\ (forall j, j ∈ added ->
          exists k r, reminders_json w !! k = Some r /\ done r = false
                      /\ job_name j = id r).
Proof.
  intros Hmono Hjq w'.
  destruct (schedule_all_spec (ReminderStore.all w) jq w Hjq) as (added & Hq & Hr & Hall).
  exists added. split; [exact Hq|]. split; [exact Hr|].
  split; [symmetry; eapply Forall2_length; exact Hall|].
  split.
  - intros k r Hk Hdone.
    assert (Hin : r ∈ filter (fun r => done r = false) (ReminderStore.all w)).
    { apply list_elem_of_filter. split; [exact Hdone|].
      unfold ReminderStore.all. apply list_elem_of_fmap.
      exists (k, r). split; [reflexivity|]. now apply elem_of_map_to_list. }
    apply list_elem_of_lookup_1 in Hin. destruct Hin as [i Hi].
    destruct (Forall2_lookup_l _ _ _ _ _ Hall Hi) as (j & Hj & Hn & Hd & n & Hge & Hwhen).
    exists j. split; [eapply list_elem_of_lookup_2; exact Hj|].
    split; [exact Hn|]. split; [exact Hd|].
    split.
    + destruct Hwhen as [[_ ->] | [_ ->]]; [left; reflexivity|].
      right. exists (S n). split; [lia | reflexivity].
    + intros Hpast.
      pose proof (Hmono (ticks w) n Hge) as Hn0.
      pose proof (Hmono (ticks w) (S n) ltac:(lia)) as Hn1.
      destruct Hwhen as [[Hfut _] | [_ ->]]; [lia|].
      split; [exists (S n); split; [lia | reflexivity]|].
      unfold timedelta_seconds. lia.
  - intros j Hj.
    apply list_elem_of_lookup_1 in Hj. destruct Hj as [i Hi].
    destruct (Forall2_lookup_r _ _ _ _ _ Hall Hi) as (r & Hri & Hn & _).
    apply list_elem_of_lookup_2, list_elem_of_filter in Hri.
    destruct Hri as [Hdone Hin].
    unfold ReminderStore.all in Hin. apply list_elem_of_fmap in Hin.
    destruct Hin as ([k r'] & -> & Hin). apply elem_of_map_to_list in Hin.
    exists k, r'. auto.
Qed.
End Startup.

Lemma startup_arms_open_reminders_witness :
  let w := world_of [r_done_UTC; r_once_UTC; r_later_UTC] free_user [] in
  let w' := ReminderScheduler.schedule_all_on_startup sample_clock w in
  exists added,
    job_queue w' = Some added
    /\ length added = 2%nat
    /\ (exists j, j ∈ added /\ job_name j = "a4"%string
                  /\ timedelta_seconds 7 <= job_when j)
    /\ (exists j, j ∈ added /\ job_name j = "a6"%string
                  /\ job_data j = "a6"%string).
Proof.
  intros w w'.
  destruct (startup_arms_open_reminders sample_clock [] w)
    as (added & Hq & _ & Hlen & Hopen & _).
  - intros n m Hnm. unfold sample_clock, timedelta_seconds. lia.
  - reflexivity.
  - exists added. split; [exact Hq|]. split; [rewrite Hlen; vm_compute; reflexivity|].
    split.
    + destruct (Hopen "a4"%string r_once_UTC) as (j & Hj & Hname & _ & _ & Hpast);
        [vm_compute; reflexivity | reflexivity |].
      exists j. split; [exact Hj|]. split; [exact Hname|].
      destruct Hpast as (_ & Hlate & _); [vm_compute; reflexivity|].
      exact Hlate.
    + destruct (Hopen "a6"%string r_later_UTC) as (j & Hj & Hname & Hdata & _);
        [vm_compute; reflexivity | reflexivity |].
      exists j. split; [exact Hj|]. split; [exact Hname | exact Hdata].
Defined.

(** * Further properties *)

(** ** The stores *)

(** X1.  [get_user] answers with the stored profile and leaves the world as
    it is; for an id that is not stored it makes the default profile (zone
    UTC, not premium, tier FREE, 15 credits, [first_seen] the clock read),
    stores it under the id and touches no other profile.  Asked again, it
    answers with the same profile and changes nothing. *)
Theorem get_user_creates_once (clock : nat -> Z) (uid : Z) (w : World) :
  let profile := fst (UserStore.get_user clock uid w) in
  let w1 := snd (UserStore.get_user clock uid w) in
  users_json w1 !! uid = Some profile
  /\ UserStore.get_user clock uid w1 = (profile, w1)
  /\ (forall other, other <> uid -> users_json w1 !! other = users_json w !! other)
  /\ (forall p, users_json w !! uid = Some p -> profile = p /\ w1 = w)
  /\ (users_json w !! uid = None ->
      profile = mk_UserProfile uid "UTC" false "FREE" 15 None None
                  (Some (clock (ticks w))) None None None
      /\ ticks w1 = S (ticks w)
      /\ get_user_tier_info profile = FREE_info).
Proof.
  intros profile w1.
  pose proof (get_user_stored clock uid w) as Hstored.
  destruct (UserStore.get_user clock uid w) as [p0 w0] eqn:Eg.
  cbn [fst snd] in profile, w1. subst profile w1.
  split; [exact Hstored|].
  split; [now apply get_user_found|].
  unfold UserStore.get_user in Eg.
  destruct (users_json w !! uid) as [p|] eqn:Eu.
  - inversion Eg; subst. repeat split; try reflexivity; congruence.
  - unfold now_utc in Eg. inversion Eg; subst. cbn [users_json set_users tick ticks].
    split; [intros other Hne; now apply lookup_insert_ne|].
    split; [intros p Hp; discriminate|].
    intros _. repeat split.
Qed.

Lemma get_user_creates_once_witness :
  let w := world_of [] free_user [] in
  UserStore.get_user sample_clock 7 w = (free_user, w)
  /\ fst (UserStore.get_user sample_clock 8 w)
     = mk_UserProfile 8 "UTC" false "FREE" 15 None None (Some (timedelta_seconds 5))
         None None None
  /\ users_json (snd (UserStore.get_user sample_clock 8 w)) !! 7 = Some free_user.
Proof.
  intros w.
  destruct (get_user_creates_once sample_clock 7 w) as (_ & _ & _ & Hold & _).
  destruct (get_user_creates_once sample_clock 8 w) as (_ & _ & Hother & _ & Hnew).
  split.
  - destruct (Hold free_user) as [H1 H2]; [reflexivity|].
    rewrite (surjective_pairing (UserStore.get_user sample_clock 7 w)).
    now rewrite H1, H2.
  - split.
    + destruct Hnew as (H & _); [reflexivity|]. exact H.
    + rewrite Hother by discriminate. reflexivity.
Defined.

(** X2.  [ReminderStore]: a reminder that is put is what [get] finds under its
    id and is listed by [all], the other ids keep their records; [delete]
    removes the record of its id only, and on an id that is not stored it
    changes nothing; deleting a reminder that was put under a fresh id gives
    the store back. *)
Theorem reminder_store_round_trips (r : Reminder) (rid : string) (w : World) :
  ReminderStore.get (id r) (ReminderStore.put r w) = Some r
  /\ r ∈ ReminderStore.all (ReminderStore.put r w)
  /\ (forall k, k <> id r ->
        ReminderStore.get k (ReminderStore.put r w) = ReminderStore.get k w)
  /\ ReminderStore.get rid (ReminderStore.delete rid w) = None
  /\ (forall k, k <> rid ->
        ReminderStore.get k (ReminderStore.delete rid w) = ReminderStore.get k w)
  /\ (ReminderStore.get rid w = None -> ReminderStore.delete rid w = w)
  /\ (ReminderStore.get (id r) w = None ->
      ReminderStore.delete (id r) (ReminderStore.put r w) = w).
Proof.
  unfold ReminderStore.get, ReminderStore.put, ReminderStore.delete, ReminderStore.all.
  cbn [reminders_json set_reminders].
  split; [apply lookup_insert_eq|].
  split.
  { apply list_elem_of_fmap. exists (id r, r). split; [reflexivity|].
    apply elem_of_map_to_list, lookup_insert_eq. }
  split; [intros k Hk; now apply lookup_insert_ne|].
  split; [apply lookup_delete_eq|].
  split; [intros k Hk; now apply lookup_delete_ne|].
  split.
  - intros Hnone. rewrite (delete_id _ _ Hnone). now destruct w.
  - intros Hnone. rewrite delete_insert_id by exact Hnone. now destruct w.
Qed.

Lemma reminder_store_round_trips_witness :
  let w := world_of [r_once_UTC] free_user [] in
  ReminderStore.delete "zz" w = w
  /\ ReminderStore.delete "a3" (ReminderStore.put r_daily_UTC w) = w.
Proof.
  intros w.
  destruct (reminder_store_round_trips r_daily_UTC "zz" w)
    as (_ & _ & _ & _ & _ & Habsent & Hfresh).
  split; [apply Habsent | apply Hfresh]; reflexivity.
Defined.

(** ** Creating a reminder *)

Section CreationFacts.
Variable clock : nat -> Z.


Lemma active_count_same_store (user : Z) (w w' : World) :
  reminders_json w' = reminders_json w -> active_count user w' = active_count user w.
Proof.
  intros H. unfold active_count, active_reminders, ReminderStore.all. now rewrite H.
Qed.



(** The admission check and the charge, case by case. *)
Lemma admit_and_charge_cases (user : Z) (profile : UserProfile) (w : World) :
  let n := active_count user w in
  let limit := max_active (get_user_tier_info profile) in
  match Creation.admit_and_charge user profile w with
  | inl reason =>
      reason <> None
      /\ (limit <= n \/ (is_premium profile = false /\ credits profile <= 0))
  | inr (profile', cost, w') =>
      n < limit
      /\ (is_premium profile = true \/ 0 < credits profile)
      /\ reminders_json w' = reminders_json w
      /\ job_queue w' = job_queue w
      /\ ticks w' = ticks w
      /\ outbox w' = outbox w
      /\ timezone profile' = timezone profile
      /\ if is_premium profile
         then cost = 0 /\ profile' = profile /\ w' = w
         else cost = 1 /\ profile' = set_credits (credits profile - 1) profile
              /\ w' = UserStore.put_user profile' w
  end.
Proof.
  intros n limit. unfold Creation.admit_and_charge, CreditPolicy.can_create,
    CreditPolicy.consume_on_create.
  fold n limit. rewrite Z.geb_leb.
  destruct (Z.leb_spec limit n) as [Hfull|Hroom]; cbn [negb].
  - split; [discriminate | left; exact Hfull].
  - destruct (is_premium profile) eqn:Hp; cbn [negb andb].
    + cbn [Z.eqb]. repeat split; auto.
    + destruct (Z.leb_spec (credits profile) 0) as [Hnone|Hsome]; cbn [negb].
      * split; [discriminate | right; split; [reflexivity | exact Hnone]].
      * cbn [Z.eqb]. repeat split; auto.
Qed.
End CreationFacts.

Section CreateText.
Variable clock : nat -> Z.
Abbreviation create := (Creation.create_text clock).

(** [create_text] in terms of the admission check. *)
Lemma create_text_unfold (user chat : Z) (what : string) (temp_when_dt : option Z)
    (new_id : string) (w : World) :
  let profile := fst (UserStore.get_user clock user w) in
  let w0 := snd (UserStore.get_user clock user w) in
  create user chat what temp_when_dt new_id w
  = match Creation.admit_and_charge user profile w0 with
    | inl reason => (w0, Denied reason)
    | inr (profile', cost, w1) =>
        let when := default (clock (ticks w1)) temp_when_dt in
        let w2 := match temp_when_dt with Some _ => w1 | None => tick w1 end in
        let reminder :=
          new_reminder new_id chat user what when (timezone profile')
            (clock (ticks w2)) None in
        (ReminderScheduler.schedule_once when new_id
           (ReminderStore.put reminder (tick w2)),
         ReminderCreated reminder cost)
    end.
Proof.
  intros profile w0. unfold Creation.create_text. subst profile w0.
  destruct (UserStore.get_user clock user w) as [p w0]. cbn [fst snd].
  destruct (Creation.admit_and_charge user p w0) as [reason|[[p' cost] w1]];
    [reflexivity|].
  destruct temp_when_dt as [dt|]; reflexivity.
Qed.

(** X3.  [create_text] refuses a user whose count of active reminders has
    reached the limit of the tier, and a user who is not premium and has no
    credit left: the answer carries a reason, and no reminder is stored, no
    timer armed and no credit taken. *)
Theorem create_text_denied (user chat : Z) (what : string) (temp_when_dt : option Z)
    (new_id : string) (w : World) :
  let profile := fst (UserStore.get_user clock user w) in
  let w0 := snd (UserStore.get_user clock user w) in
  max_active (get_user_tier_info profile) <= active_count user w
  \/ (is_premium profile = false /\ credits profile <= 0) ->
  let result := create user chat what temp_when_dt new_id w in
  (exists reason, snd result = Denied (Some reason))
  /\ fst result = w0
  /\ reminders_json (fst result) = reminders_json w
  /\ job_queue (fst result) = job_queue w
  /\ users_json (fst result) !! user = Some profile.
Proof.
  intros profile w0 Hdeny result.
  destruct (get_user_frame clock user w) as (Hrem & _ & Hq & _ & _).
  fold w0 in Hrem, Hq.
  pose proof (get_user_stored clock user w) as Hstored.
  rewrite (surjective_pairing (UserStore.get_user clock user w)) in Hstored.
  fold profile w0 in Hstored.
  pose proof (create_text_unfold user chat what temp_when_dt new_id w) as Hc.
  cbn zeta in Hc. fold profile w0 result in Hc.
  pose proof (admit_and_charge_cases user profile w0) as Hcases. cbn zeta in Hcases.
  rewrite (active_count_same_store user w w0 Hrem) in Hcases.
  destruct (Creation.admit_and_charge user profile w0) as [reason|[[p' cost] w1]].
  - rewrite Hc. cbn [fst snd]. destruct Hcases as [Hreason _].
    split; [destruct reason as [reason|]; [now exists reason | congruence]|].
    auto.
  - exfalso. destruct Hcases as (Hroom & Hcredit & _).
    destruct Hdeny as [Hfull | [Hp Hc0]]; [lia|].
    destruct Hcredit as [Hcredit|Hcredit]; [congruence | lia].
Qed.

(** X4.  When [create_text] accepts, the reminder it answers with is stored
    under the new id: not completed, no snooze used, no recurrence, in the
    zone of the profile, due at the instant chosen before (or at the clock
    read when none was); one timer is armed for that instant; a premium
    profile pays nothing and a profile that is not premium pays exactly one
    credit and keeps a balance of at least zero. *)
Theorem create_text_accepted (user chat : Z) (what : string) (temp_when_dt : option Z)
    (new_id : string) (jq : list Job) (w : World) :
  let profile := fst (UserStore.get_user clock user w) in
  let w0 := snd (UserStore.get_user clock user w) in
  active_count user w < max_active (get_user_tier_info profile) ->
  is_premium profile = true \/ 0 < credits profile ->
  job_queue w = Some jq ->
  let result := create user chat what temp_when_dt new_id w in
  exists reminder cost,
    snd result = ReminderCreated reminder cost
    /\ ReminderStore.get new_id (fst result) = Some reminder
    /\ id reminder = new_id /\ r_user_id reminder = user /\ chat_id reminder = chat
    /\ text reminder = what /\ done reminder = false /\ snoozes_used reminder = 0
    /\ recurring reminder = None /\ r_timezone reminder = timezone profile
    /\ when_iso reminder = default (clock (ticks w0)) temp_when_dt
    /\ job_queue (fst result) = Some (jq ++ [mk_Job (when_iso reminder) new_id new_id])
    /\ (forall k, k <> new_id ->
          ReminderStore.get k (fst result) = ReminderStore.get k w)
    /\ (is_premium profile = true ->
        cost = 0 /\ users_json (fst result) !! user = Some profile)
    /\ (is_premium profile = false ->
        cost = 1
        /\ users_json (fst result) !! user_id profile
           = Some (set_credits (credits profile - 1) profile)
        /\ 0 <= credits profile - 1).
Proof.
  intros profile w0 Hroom Hcredit Hjq result.
  destruct (get_user_frame clock user w) as (Hrem & _ & Hq & _ & _).
  fold w0 in Hrem, Hq.
  pose proof (get_user_stored clock user w) as Hstored.
  rewrite (surjective_pairing (UserStore.get_user clock user w)) in Hstored.
  fold profile w0 in Hstored.
  pose proof (create_text_unfold user chat what temp_when_dt new_id w) as Hc.
  cbn zeta in Hc. fold profile w0 result in Hc.
  pose proof (admit_and_charge_cases user profile w0) as Hcases. cbn zeta in Hcases.
  rewrite (active_count_same_store user w w0 Hrem) in Hcases.
  destruct (Creation.admit_and_charge user profile w0) as [reason|[[p' cost] w1]].
  { exfalso. destruct Hcases as [_ [Hfull | [Hp Hc0]]]; [lia|].
    destruct Hcredit as [Hcredit|Hcredit]; [congruence | lia]. }
  destruct Hcases as (_ & _ & Hrem1 & Hq1 & Ht1 & _ & Htz & Hpay).
  set (w2 := match temp_when_dt with Some _ => w1 | None => tick w1 end) in *.
  set (when := default (clock (ticks w1)) temp_when_dt) in *.
  set (reminder := new_reminder new_id chat user what when (timezone p')
                     (clock (ticks w2)) None) in *.
  assert (Hframe2 : reminders_json (tick w2) = reminders_json w
                    /\ job_queue (tick w2) = Some jq
                    /\ users_json (tick w2) = users_json w1).
  { subst w2. destruct temp_when_dt; cbn [reminders_json job_queue users_json tick];
      rewrite Hrem1, Hq1, Hrem, Hq, Hjq; auto. }
  destruct Hframe2 as (Hrem2 & Hq2 & Hu2).
  destruct (schedule_once_frame when new_id (ReminderStore.put reminder (tick w2)))
    as (Hr' & Hu' & _).
  exists reminder, cost. rewrite Hc. cbn [fst snd].
  split; [reflexivity|].
  split; [unfold ReminderStore.get; rewrite Hr'; apply lookup_insert_eq|].
  do 8 (split; [reflexivity || exact Htz|]).
  split; [unfold reminder, when; cbn [when_iso new_reminder]; now rewrite Ht1|].
  split; [apply schedule_once_jobs; exact Hq2|].
  split.
  { intros k Hk. unfold ReminderStore.get. rewrite Hr'. cbn [reminders_json
      ReminderStore.put set_reminders new_reminder id reminder].
    rewrite lookup_insert_ne by congruence. now rewrite Hrem2. }
  rewrite Hu'. cbn [users_json ReminderStore.put set_reminders]. rewrite Hu2.
  split; intros Hp; rewrite Hp in Hpay.
  - destruct Hpay as (-> & _ & ->). split; [reflexivity | exact Hstored].
  - destruct Hpay as (-> & -> & ->). split; [reflexivity|].
    split; [apply lookup_insert_eq|].
    destruct Hcredit as [Hcredit|Hcredit]; [congruence | lia].
Qed.

End CreateText.

Lemma create_text_denied_witness :
  let w := world_of [r_once_UTC] (set_credits 0 free_user) [] in
  let result := Creation.create_text sample_clock 7 7 "Call" (Some 99) "b1" w in
  (exists reason, snd result = Denied (Some reason))
  /\ fst result = w
  /\ ReminderStore.get "b1" (fst result) = None.
Proof.
  intros w result.
  destruct (create_text_denied sample_clock 7 7 "Call" (Some 99) "b1" w)
    as (Hreason & Hw & Hrem & _).
  - right. split; [reflexivity | vm_compute; discriminate].
  - split; [exact Hreason|]. split; [exact Hw|].
    unfold ReminderStore.get. fold result in Hrem. rewrite Hrem. reflexivity.
Defined.

Lemma create_text_accepted_witness :
  let w := world_of [r_once_UTC] (set_credits 1 free_user) [] in
  let result := Creation.create_text sample_clock 7 7 "Call" None "b1" w in
  exists reminder,
    snd result = ReminderCreated reminder 1
    /\ ReminderStore.get "b1" (fst result) = Some reminder
    /\ when_iso reminder = timedelta_seconds 5
    /\ job_queue (fst result) = Some [mk_Job (when_iso reminder) "b1" "b1"]
    /\ (users_json (fst result) !! 7 ≫= fun p => Some (credits p)) = Some 0.
Proof.
  intros w result.
  destruct (create_text_accepted sample_clock 7 7 "Call" None "b1" [] w)
    as (reminder & cost & Hans & Hget & _ & _ & _ & _ & _ & _ & _ & _ & Hwhen & Hq
        & _ & _ & Hpay).
  - vm_compute. reflexivity.
  - right. vm_compute. reflexivity.
  - reflexivity.
  - destruct Hpay as (-> & Hbal & _); [reflexivity|].
    exists reminder. fold result in Hans, Hget, Hq, Hbal.
    split; [exact Hans|]. split; [exact Hget|]. split; [exact Hwhen|].
    split; [exact Hq|].
    change (user_id (UserStore.get_user sample_clock 7 w).1) with 7 in Hbal.
    rewrite Hbal. reflexivity.
Defined.


(** ** The first occurrence of a repeating reminder *)

Section FirstOccurrence.
Implicit Types (dt now_local target : datetime).


(** The time [replace] sets is on the date of [dt], at [h]:[m]:00. *)
Lemma replace_time_valid dt (h m : Z) :
  0 <= h <= 23 -> 0 <= m <= 59 ->
  exists target,
    replace_time dt h m = Some target
    /\ utcoffset target = utcoffset dt
    /\ naive target = naive dt / 86400000000 * 86400000000
                      + h * 3600000000 + m * 60000000
    /\ hour target = h /\ minute target = m /\ second target = 0
    /\ microsecond target = 0
    /\ naive dt - 86400000000 < naive target < naive dt + 86400000000.
Proof.
  intros Hh Hm. unfold replace_time.
  destruct (Z.leb_spec 0 h); [|lia]. destruct (Z.leb_spec h 23); [|lia].
  destruct (Z.leb_spec 0 m); [|lia]. destruct (Z.leb_spec m 59); [|lia].
  cbn [andb]. eexists. split; [reflexivity|]. cbn [utcoffset naive].
  split; [reflexivity|]. split; [reflexivity|].
  set (D := naive dt / 86400000000).
  assert (HD : D * 86400000000 <= naive dt < D * 86400000000 + 86400000000).
  { unfold D. pose proof (Z.div_mod (naive dt) 86400000000 ltac:(lia)).
    pose proof (Z.mod_pos_bound (naive dt) 86400000000 ltac:(lia)). lia. }
  unfold hour, minute, second, microsecond. cbn [naive].
  repeat split.
  - replace (D * 86400000000 + h * 3600000000 + m * 60000000)
      with (m * 60000000 + (D * 24 + h) * 3600000000) by lia.
    rewrite Z.div_add by lia. rewrite (Z.div_small (m * 60000000)) by lia.
    rewrite Z.add_0_l, Z.add_comm, Z.mod_add by lia. apply Z.mod_small; lia.
  - replace (D * 86400000000 + h * 3600000000 + m * 60000000)
      with (0 + (D * 1440 + h * 60 + m) * 60000000) by lia.
    rewrite Z.div_add by lia. rewrite Z.div_0_l, Z.add_0_l by lia.
    replace (D * 1440 + h * 60 + m) with (m + (D * 24 + h) * 60) by lia.
    rewrite Z.mod_add by lia. apply Z.mod_small; lia.
  - replace (D * 86400000000 + h * 3600000000 + m * 60000000)
      with (0 + (D * 86400 + h * 3600 + m * 60) * 1000000) by lia.
    rewrite Z.div_add by lia. rewrite Z.div_0_l, Z.add_0_l by lia.
    replace (D * 86400 + h * 3600 + m * 60) with (0 + (D * 1440 + h * 60 + m) * 60)
      by lia.
    rewrite Z.mod_add by lia. reflexivity.
  - replace (D * 86400000000 + h * 3600000000 + m * 60000000)
      with (0 + (D * 86400 + h * 3600 + m * 60) * 1000000) by lia.
    rewrite Z.mod_add by lia. reflexivity.
  - lia.
  - lia.
Qed.

(** Once the candidate is later than now, the loop of [cmd_repeat] is the
    loop of [_next_occurrence]. *)
Lemma next_matching_day_future (fuel : nat) :
  forall target now_local (desired : Z),
    naive now_local < naive target ->
    Repeat.next_matching_day fuel target now_local desired
    = ReminderScheduler.advance_to_weekday fuel target desired.
Proof.
  induction fuel as [|fuel IH]; intros target now_local desired Hlater; [reflexivity|].
  cbn [Repeat.next_matching_day ReminderScheduler.advance_to_weekday].
  destruct (Z.leb_spec (naive target) (naive now_local)); [lia|].
  rewrite orb_false_r.
  destruct (negb (weekday target =? desired)); [|reflexivity].
  unfold add_timedelta.
  destruct (in_range (naive target + timedelta_days 1));
    cbn [mbind outcome_bind]; [|reflexivity].
  apply IH. unfold dt_add, timedelta_days. cbn [naive]. lia.
Qed.

(** The days of the range of [datetime] are fewer than 3652059. *)
Lemma days_left_in_range (n : Z) :
  in_range n = true -> (datetime_max - n) / 86400000000 < 3652059.
Proof.
  intros H. apply in_range_true in H.
  apply Z.div_lt_upper_bound; [lia|]. unfold datetime_min, datetime_max in *. lia.
Qed.

(** With a target day outside 0..6 the loop of [_next_occurrence] raises
    [OverflowError] once it is given as many tests as the range has days. *)
Lemma advance_to_weekday_overflows (fuel : nat) dt (dow : Z) :
  ~ (0 <= dow <= 6) ->
  3652060 <= Z.of_nat fuel ->
  ReminderScheduler.advance_to_weekday fuel dt dow = Raise OverflowError.
Proof.
  intros Hdow Hfuel. destruct fuel as [|fuel]; [lia|].
  cbn [ReminderScheduler.advance_to_weekday].
  pose proof (weekday_range dt).
  destruct (Z.eqb_spec (weekday dt) dow); [lia|]. cbn [negb].
  destruct (in_range (naive dt + timedelta_days 1)) eqn:Hstep.
  - rewrite (add_timedelta_in_range _ _ Hstep). cbn [mbind outcome_bind].
    apply (advance_to_weekday_never fuel _ dow Hdow); [|lia].
    pose proof (days_left_in_range _ Hstep). cbn [dt_add naive]. lia.
  - now rewrite (add_timedelta_overflow _ _ Hstep).
Qed.

(** A target day outside 0..6 is never reached by the loop of [cmd_repeat]
    either. *)
Lemma next_matching_day_never (fuel : nat) :
  forall target now_local (desired : Z),
    ~ (0 <= desired <= 6) ->
    (Repeat.next_matching_day fuel target now_local desired = OutOfFuel
     \/ Repeat.next_matching_day fuel target now_local desired = Raise OverflowError)
    /\ ((datetime_max - naive target) / 86400000000 < Z.of_nat fuel ->
        (1 <= fuel)%nat ->
        Repeat.next_matching_day fuel target now_local desired = Raise OverflowError).
Proof.
  induction fuel as [|fuel IH]; intros target now_local desired Hd.
  - split; [left; reflexivity | lia].
  - cbn [Repeat.next_matching_day].
    pose proof (weekday_range target).
    destruct (Z.eqb_spec (weekday target) desired); [lia|]. cbn [negb orb].
    destruct (in_range (naive target + timedelta_days 1)) eqn:Hstep.
    + rewrite (add_timedelta_in_range _ _ Hstep). cbn [mbind outcome_bind].
      destruct (IH (dt_add target (timedelta_days 1)) now_local desired Hd)
        as [Hnever Henough].
      split; [exact Hnever|].
      intros Hfuel _. apply in_range_true in Hstep.
      assert (Hdiv : (datetime_max - naive (dt_add target (timedelta_days 1)))
                       / 86400000000
                     = (datetime_max - naive target) / 86400000000 - 1).
      { unfold dt_add, timedelta_days. cbn [naive].
        replace (datetime_max - (naive target + 1 * 86400000000))
          with (datetime_max - naive target + (-1) * 86400000000) by lia.
        rewrite Z.div_add by lia. lia. }
      assert (Hpos : 0 <= (datetime_max - naive (dt_add target (timedelta_days 1)))
                          / 86400000000).
      { apply Z.div_pos; [|lia]. unfold dt_add. cbn [naive]. lia. }
      apply Henough; lia.
    + rewrite (add_timedelta_overflow _ _ Hstep). cbn [mbind outcome_bind].
      split; [right; reflexivity | reflexivity].
Qed.

Lemma next_matching_day_overflows (fuel : nat) target now_local (desired : Z) :
  ~ (0 <= desired <= 6) ->
  3652060 <= Z.of_nat fuel ->
  Repeat.next_matching_day fuel target now_local desired = Raise OverflowError.
Proof.
  intros Hd Hfuel. destruct fuel as [|fuel]; [lia|].
  cbn [Repeat.next_matching_day].
  pose proof (weekday_range target).
  destruct (Z.eqb_spec (weekday target) desired); [lia|]. cbn [negb orb].
  destruct (in_range (naive target + timedelta_days 1)) eqn:Hstep.
  - rewrite (add_timedelta_in_range _ _ Hstep). cbn [mbind outcome_bind].
    apply (next_matching_day_never fuel _ now_local desired Hd); [|lia].
    pose proof (days_left_in_range _ Hstep). cbn [dt_add naive]. lia.
  - now rewrite (add_timedelta_overflow _ _ Hstep).
Qed.

(** Whatever the loop of [cmd_repeat] ends on is the first day, counted from
    the candidate, that falls on the desired weekday and is later than now. *)
Lemma next_matching_day_first (fuel : nat) :
  forall target now_local (desired : Z) (found : datetime),
    Repeat.next_matching_day fuel target now_local desired = Return found ->
    exists n : nat,
      (n < fuel)%nat
      /\ found = dt_add target (timedelta_days (Z.of_nat n))
      /\ weekday found = desired
      /\ naive now_local < naive found
      /\ (forall i : nat, (i < n)%nat ->
            weekday (dt_add target (timedelta_days (Z.of_nat i))) <> desired
            \/ naive (dt_add target (timedelta_days (Z.of_nat i))) <= naive now_local).
Proof.
  induction fuel as [|fuel IH]; intros target now_local desired found Hfound;
    [discriminate|].
  cbn [Repeat.next_matching_day] in Hfound.
  destruct (negb (weekday target =? desired) || (naive target <=? naive now_local))
    eqn:Hcond.
  - (* one more day *)
    unfold add_timedelta in Hfound.
    destruct (in_range (naive target + timedelta_days 1));
      cbn [mbind outcome_bind] in Hfound; [|discriminate].
    destruct (IH _ _ _ _ Hfound) as (n & Hn & -> & Hw & Hl & Hmin).
    exists (S n). rewrite dt_add_add.
    replace (timedelta_days 1 + timedelta_days (Z.of_nat n))
      with (timedelta_days (Z.of_nat (S n))) by (unfold timedelta_days; lia).
    rewrite dt_add_add in Hw, Hl.
    replace (timedelta_days 1 + timedelta_days (Z.of_nat n))
      with (timedelta_days (Z.of_nat (S n))) in Hw, Hl by (unfold timedelta_days; lia).
    repeat split; [lia | exact Hw | exact Hl |].
    intros [|i] Hi.
    + rewrite dt_add_0. apply orb_true_iff in Hcond. destruct Hcond as [Hc|Hc].
      * left. apply negb_true_iff, Z.eqb_neq in Hc. exact Hc.
      * right. apply Z.leb_le in Hc. exact Hc.
    + specialize (Hmin i ltac:(lia)). rewrite dt_add_add in Hmin.
      replace (timedelta_days 1 + timedelta_days (Z.of_nat i))
        with (timedelta_days (Z.of_nat (S i))) in Hmin by (unfold timedelta_days; lia).
      exact Hmin.
  - (* the weekday, later than now: found *)
    apply orb_false_iff in Hcond. destruct Hcond as [Hwd Hlater].
    apply negb_false_iff, Z.eqb_eq in Hwd. apply Z.leb_gt in Hlater.
    inversion Hfound; subst found. exists O.
    rewrite dt_add_0. repeat split; [lia | exact Hwd | exact Hlater |].
    intros i Hi. lia.
Qed.

(** From a candidate on today's date the loop ends within eight tests, at
    most seven days after the candidate, when the range of [datetime] has
    that many days left. *)
Lemma next_matching_day_total (fuel : nat) target now_local (desired : Z) :
  0 <= desired <= 6 -> (8 <= fuel)%nat ->
  naive now_local - 86400000000 < naive target ->
  in_range (naive target) = true ->
  naive target + timedelta_days 7 <= datetime_max ->
  exists j,
    0 <= j <= 7
    /\ Repeat.next_matching_day fuel target now_local desired
       = Return (dt_add target (timedelta_days j))
    /\ (j = 7 -> naive target <= naive now_local).
Proof.
  intros Hd Hfuel Htoday Hin Hleft.
  pose proof (proj1 (in_range_true _) Hin) as Hbounds.
  destruct (Z.leb_spec (naive target) (naive now_local)) as [Hpast|Hfuture].
  - destruct fuel as [|fuel]; [lia|].
    assert (Hin1 : in_range (naive target + timedelta_days 1) = true).
    { apply in_range_true. unfold timedelta_days in *. lia. }
    assert (Hstep : Repeat.next_matching_day (S fuel) target now_local desired
                    = ReminderScheduler.advance_to_weekday fuel
                        (dt_add target (timedelta_days 1)) desired).
    { cbn [Repeat.next_matching_day].
      destruct (Z.leb_spec (naive target) (naive now_local)); [|lia].
      rewrite orb_true_r, (add_timedelta_in_range _ _ Hin1).
      cbn [mbind outcome_bind]. apply next_matching_day_future.
      unfold dt_add, timedelta_days. cbn [naive]. lia. }
    destruct (advance_to_weekday_total fuel (dt_add target (timedelta_days 1)) desired)
      as (Hj & Hadv & _); [lia | lia | exact Hin1 |].
    set (j := (desired - weekday (dt_add target (timedelta_days 1))) mod 7) in *.
    destruct (Z.leb_spec (naive (dt_add target (timedelta_days 1)) + timedelta_days j)
                datetime_max) as [_|Hgt];
      [|exfalso; unfold dt_add, timedelta_days in *; cbn [naive] in Hgt; lia].
    exists (1 + j). rewrite dt_add_add in Hadv.
    replace (timedelta_days 1 + timedelta_days j) with (timedelta_days (1 + j)) in Hadv
      by (unfold timedelta_days; lia).
    split; [lia|]. split; [now rewrite Hstep | intros _; exact Hpast].
  - destruct (advance_to_weekday_total fuel target desired) as (Hj & Hadv & _);
      [lia | lia | exact Hin |].
    set (j := (desired - weekday target) mod 7) in *.
    destruct (Z.leb_spec (naive target + timedelta_days j) datetime_max) as [_|Hgt];
      [|exfalso; unfold timedelta_days in *; lia].
    exists j. split; [lia|].
    split; [now rewrite next_matching_day_future | lia].
Qed.
End FirstOccurrence.

Section CmdRepeat.
Variable clock : nat -> Z.
Variable zones_db : string -> option tzinfo.
Abbreviation repeat_cmd := (Repeat.cmd_repeat clock zones_db).

(** [cmd_repeat] for a kind it supports, a known zone and a time that parsed,
    in terms of [first_occurrence] and the admission check. *)
Lemma cmd_repeat_unfold (fuel : nat) (user chat : Z) (kind : string) (interval : Z)
    (dow : option Z) (hour minute : Z) (what new_id : string) (tz : tzinfo) (w : World) :
  let profile := fst (UserStore.get_user clock user w) in
  let w0 := snd (UserStore.get_user clock user w) in
  kind = "daily"%string \/ kind = "weekly"%string ->
  zones_db (timezone profile) = Some tz ->
  repeat_cmd fuel user chat kind interval dow (Some (hour, minute)) what new_id w
  = let now_local := astimezone tz (clock (ticks w0)) in
    let w1 := tick w0 in
    match Repeat.first_occurrence fuel kind interval dow now_local hour minute with
    | inl ending => (w1, ending)
    | inr (target_local, rec) =>
        match Creation.admit_and_charge user profile w1 with
        | inl reason => (w1, Answered (Denied reason))
        | inr (profile', cost, w2) =>
            let reminder :=
              new_reminder new_id chat user what (astimezone_utc target_local)
                (timezone profile') (clock (ticks w2)) (Some rec) in
            (ReminderScheduler.schedule_once (astimezone_utc target_local) new_id
               (ReminderStore.put reminder (tick w2)),
             Answered (RepeatingSet reminder))
        end
    end.
Proof.
  intros profile w0 Hkind Htz. unfold Repeat.cmd_repeat. subst profile w0.
  destruct (UserStore.get_user clock user w) as [p w0]. cbn [fst snd] in *.
  assert (Hk : (String.eqb kind "daily" || String.eqb kind "weekly") = true)
    by (destruct Hkind as [-> | ->]; reflexivity).
  rewrite Hk, Htz. cbn [negb]. unfold now_utc at 1.
  destruct (Repeat.first_occurrence fuel kind interval dow
              (astimezone tz (clock (ticks w0))) hour minute) as [ending|[target rec]];
    reflexivity.
Qed.

(** What [cmd_repeat] stores and arms once the first occurrence is computed
    and the admission check passes. *)
Lemma cmd_repeat_stores (fuel : nat) (user chat : Z) (kind : string) (interval : Z)
    (dow : option Z) (hour minute : Z) (what new_id : string) (tz : tzinfo)
    (target_local : datetime) (rec : Recurring) (jq : list Job) (w : World) :
  let profile := fst (UserStore.get_user clock user w) in
  let w0 := snd (UserStore.get_user clock user w) in
  kind = "daily"%string \/ kind = "weekly"%string ->
  zones_db (timezone profile) = Some tz ->
  Repeat.first_occurrence fuel kind interval dow (astimezone tz (clock (ticks w0)))
    hour minute = inr (target_local, rec) ->
  active_count user w < max_active (get_user_tier_info profile) ->
  is_premium profile = true \/ 0 < credits profile ->
  job_queue w = Some jq ->
  let result :=
    repeat_cmd fuel user chat kind interval dow (Some (hour, minute)) what new_id w in
  exists reminder,
    snd result = Answered (RepeatingSet reminder)
    /\ ReminderStore.get new_id (fst result) = Some reminder
    /\ id reminder = new_id /\ r_user_id reminder = user
    /\ done reminder = false /\ snoozes_used reminder = 0
    /\ r_timezone reminder = timezone profile
    /\ recurring reminder = Some rec
    /\ when_iso reminder = astimezone_utc target_local
    /\ job_queue (fst result) = Some (jq ++ [mk_Job (when_iso reminder) new_id new_id]).
Proof.
  intros profile w0 Hkind Htz Hfirst Hroom Hcredit Hjq result.
  destruct (get_user_frame clock user w) as (Hrem & _ & Hq & _ & _).
  fold w0 in Hrem, Hq.
  pose proof (cmd_repeat_unfold fuel user chat kind interval dow hour minute what
                new_id tz w Hkind Htz) as Hc.
  cbn zeta in Hc. fold profile w0 result in Hc. rewrite Hfirst in Hc.
  pose proof (admit_and_charge_cases user profile (tick w0)) as Hcases.
  cbn zeta in Hcases.
  rewrite (active_count_same_store user w (tick w0) Hrem) in Hcases.
  destruct (Creation.admit_and_charge user profile (tick w0)) as [reason|[[p' cost] w2]].
  { exfalso. destruct Hcases as [_ [Hfull | [Hp Hc0]]]; [lia|].
    destruct Hcredit as [Hcredit|Hcredit]; [congruence | lia]. }
  destruct Hcases as (_ & _ & Hrem2 & Hq2 & _ & _ & Htz' & _).
  set (reminder := new_reminder new_id chat user what (astimezone_utc target_local)
                     (timezone p') (clock (ticks w2)) (Some rec)) in *.
  destruct (schedule_once_frame (astimezone_utc target_local) new_id
              (ReminderStore.put reminder (tick w2))) as (Hr' & _).
  exists reminder. rewrite Hc. cbn [fst snd].
  split; [reflexivity|].
  split; [unfold ReminderStore.get; rewrite Hr'; apply lookup_insert_eq|].
  do 4 (split; [reflexivity|]). split; [exact Htz'|].
  do 2 (split; [reflexivity|]).
  apply schedule_once_jobs. cbn [job_queue ReminderStore.put set_reminders tick].
  rewrite Hq2. cbn [job_queue tick]. now rewrite Hq.
Qed.

(** X6.  [/repeat daily ... at h:m], admitted: the reminder is stored with
    the descriptor daily and the given interval, and armed for its first
    occurrence, which is later than now and at most one day later, and which
    reads h:m:00 on the wall clock of the user's zone (at the UTC offset in
    force now). *)
Theorem cmd_repeat_daily_first_occurrence
    (fuel : nat) (user chat : Z) (interval : Z) (dow : option Z) (h m : Z)
    (what new_id : string) (tz : tzinfo) (jq : list Job) (w : World) :
  let profile := fst (UserStore.get_user clock user w) in
  let w0 := snd (UserStore.get_user clock user w) in
  let now := clock (ticks w0) in
  zones_db (timezone profile) = Some tz ->
  0 <= h <= 23 -> 0 <= m <= 59 ->
  active_count user w < max_active (get_user_tier_info profile) ->
  is_premium profile = true \/ 0 < credits profile ->
  job_queue w = Some jq ->
  let result :=
    repeat_cmd fuel user chat "daily" interval dow (Some (h, m)) what new_id w in
  exists reminder,
    snd result = Answered (RepeatingSet reminder)
    /\ ReminderStore.get new_id (fst result) = Some reminder
    /\ done reminder = false
    /\ recurring reminder
       = Some (mk_Recurring (Some "daily"%string) (Some interval) None None)
    /\ job_queue (fst result) = Some (jq ++ [mk_Job (when_iso reminder) new_id new_id])
    /\ now < when_iso reminder <= now + timedelta_days 1
    /\ let local := mk_datetime (when_iso reminder + utcoffset_at tz now)
                      (utcoffset_at tz now) in
       hour local = h /\ minute local = m /\ second local = 0.
Proof.
  intros profile w0 now Htz Hh Hm Hroom Hcredit Hjq result.
  set (now_local := astimezone tz now).
  destruct (replace_time_valid now_local h m Hh Hm)
    as (today & Hrep & Hoff & Hnaive & Hhour & Hmin & Hsec & _ & Hnear).
  set (target := if naive today <=? naive now_local
                 then dt_add today (timedelta_days 1) else today).
  assert (Hfirst : Repeat.first_occurrence fuel "daily" interval dow now_local h m
                   = inr (target,
                          mk_Recurring (Some "daily"%string) (Some interval) None None)).
  { unfold Repeat.first_occurrence. rewrite Hrep. reflexivity. }
  destruct (cmd_repeat_stores fuel user chat "daily" interval dow h m what new_id tz
              target _ jq w (or_introl eq_refl) Htz Hfirst Hroom Hcredit Hjq)
    as (reminder & Hans & Hget & _ & _ & Hdone & _ & _ & Hrec & Hwhen & Hq).
  exists reminder. fold result in Hans, Hget, Hq.
  split; [exact Hans|]. split; [exact Hget|]. split; [exact Hdone|].
  split; [exact Hrec|]. split; [exact Hq|].
  assert (Htarget : utcoffset target = utcoffset_at tz now
                    /\ naive now_local < naive target <= naive now_local + timedelta_days 1
                    /\ hour target = h /\ minute target = m /\ second target = 0).
  { unfold target.
    destruct (time_of_day_add_days today 1) as (Hh1 & Hm1 & Hs1 & _).
    destruct (Z.leb_spec (naive today) (naive now_local)).
    - rewrite Hh1, Hm1, Hs1. cbn [utcoffset dt_add naive].
      unfold timedelta_days in *. repeat split; try assumption; lia.
    - unfold timedelta_days. repeat split; try assumption; lia. }
  destruct Htarget as (Hoff' & Hrange & Hh' & Hm' & Hs').
  rewrite Hwhen. unfold astimezone_utc. rewrite Hoff'.
  split.
  - unfold now_local, astimezone in Hrange. cbn [naive] in Hrange. lia.
  - cbn zeta.
    replace (mk_datetime (naive target - utcoffset_at tz now + utcoffset_at tz now)
               (utcoffset_at tz now)) with target; [auto|].
    destruct target as [n o]. cbn [utcoffset naive] in *. subst o. f_equal. lia.
Qed.
(** X7.  [/repeat weekly k d ... at h:m] with a day of the week between 0 and
    6, or none (then the weekday of today), sent at least a day after the
    start and eight days before the end of the range of [datetime], and
    admitted: the loop ends within eight tests and the reminder is stored
    with the descriptor weekly, the interval and that day, and armed for its
    first occurrence.  At the UTC offset in force when the command is sent,
    the first occurrence reads h:m on the wall clock and falls on that
    weekday; it does so in the zone itself whenever the zone has that same
    offset at the first occurrence.  The first occurrence is later than now
    and at most seven days later, and no earlier day from today on is both on
    that weekday and later than now. *)
Theorem cmd_repeat_weekly_first_occurrence
    (fuel : nat) (user chat : Z) (interval : Z) (dow : option Z) (h m : Z)
    (what new_id : string) (tz : tzinfo) (jq : list Job) (w : World) :
  let profile := fst (UserStore.get_user clock user w) in
  let w0 := snd (UserStore.get_user clock user w) in
  let now := clock (ticks w0) in
  let off := utcoffset_at tz now in
  zones_db (timezone profile) = Some tz ->
  0 <= h <= 23 -> 0 <= m <= 59 ->
  (forall d, dow = Some d -> 0 <= d <= 6) ->
  (8 <= fuel)%nat ->
  datetime_min + timedelta_days 1 <= naive (astimezone tz now) ->
  naive (astimezone tz now) + timedelta_days 8 <= datetime_max ->
  active_count user w < max_active (get_user_tier_info profile) ->
  is_premium profile = true \/ 0 < credits profile ->
  job_queue w = Some jq ->
  let result :=
    repeat_cmd fuel user chat "weekly" interval dow (Some (h, m)) what new_id w in
  exists reminder desired,
    snd result = Answered (RepeatingSet reminder)
    /\ ReminderStore.get new_id (fst result) = Some reminder
    /\ done reminder = false
    /\ recurring reminder
       = Some (mk_Recurring (Some "weekly"%string) (Some interval) (Some desired) None)
    /\ desired = default (weekday (astimezone tz now)) dow
    /\ 0 <= desired <= 6
    /\ job_queue (fst result) = Some (jq ++ [mk_Job (when_iso reminder) new_id new_id])
    /\ now < when_iso reminder <= now + timedelta_days 7
    /\ (let local := mk_datetime (when_iso reminder + off) off in
        weekday local = desired /\ hour local = h /\ minute local = m
        /\ second local = 0)
    /\ (utcoffset_at tz (when_iso reminder) = off ->
        let zoned := astimezone tz (when_iso reminder) in
        weekday zoned = desired /\ hour zoned = h /\ minute zoned = m
        /\ second zoned = 0)
    /\ (forall i : Z,
          1 <= i ->
          now < when_iso reminder - timedelta_days i ->
          naive (astimezone tz now) / 86400000000 * 86400000000
            <= when_iso reminder - timedelta_days i + off ->
          weekday (mk_datetime (when_iso reminder - timedelta_days i + off) off)
          <> desired).
Proof.
  intros profile w0 now off Htz Hh Hm Hdow Hfuel Hstart Hend Hroom Hcredit Hjq result.
  set (now_local := astimezone tz now) in *.
  destruct (replace_time_valid now_local h m Hh Hm)
    as (today & Hrep & Hoff & Hnaive & Hhour & Hmin & Hsec & _ & Hnear).
  assert (Hwd_today : weekday today = weekday now_local).
  { unfold weekday. rewrite Hnaive.
    replace (naive now_local / 86400000000 * 86400000000 + h * 3600000000 + m * 60000000)
      with (h * 3600000000 + m * 60000000 + naive now_local / 86400000000 * 86400000000)
      by lia.
    rewrite Z.div_add by lia. rewrite Z.div_small by lia. reflexivity. }
  set (desired := default (weekday today) dow).
  assert (Hdesired : 0 <= desired <= 6).
  { unfold desired. destruct dow as [d|]; cbn.
    - now apply Hdow.
    - pose proof (weekday_range today). lia. }
  assert (Hin : in_range (naive today) = true).
  { apply in_range_true. unfold timedelta_days in *. lia. }
  destruct (next_matching_day_total fuel today now_local desired Hdesired Hfuel)
    as (j & Hj & Hloop & Hseven);
    [lia | exact Hin | unfold timedelta_days in *; lia |].
  destruct (next_matching_day_first fuel today now_local desired _ Hloop)
    as (n & _ & Hn & Hwd & Hlater & Hmin').
  set (target := dt_add today (timedelta_days j)) in *.
  assert (Hfirst : Repeat.first_occurrence fuel "weekly" interval dow now_local h m
                   = inr (target,
                          mk_Recurring (Some "weekly"%string) (Some interval)
                            (Some desired) None)).
  { unfold Repeat.first_occurrence. rewrite Hrep. cbn [String.eqb Ascii.eqb Bool.eqb].
    fold desired. now rewrite Hloop. }
  destruct (cmd_repeat_stores fuel user chat "weekly" interval dow h m what new_id tz
              target _ jq w (or_intror eq_refl) Htz Hfirst Hroom Hcredit Hjq)
    as (reminder & Hans & Hget & _ & _ & Hdone & _ & _ & Hrec & Hwhen & Hq).
  exists reminder, desired. fold result in Hans, Hget, Hq.
  split; [exact Hans|]. split; [exact Hget|]. split; [exact Hdone|].
  split; [exact Hrec|].
  split; [unfold desired; now rewrite Hwd_today|].
  split; [exact Hdesired|]. split; [exact Hq|].
  assert (Hnj : Z.of_nat n = j).
  { unfold target, dt_add in Hn. inversion Hn as [Hnn]. unfold timedelta_days in Hnn. lia. }
  assert (Htoff : utcoffset target = off) by (unfold target; cbn; exact Hoff).
  assert (Hnow : naive now_local = now + off) by reflexivity.
  assert (Hlocal : mk_datetime (when_iso reminder + off) off = target).
  { rewrite Hwhen. unfold astimezone_utc. rewrite Htoff.
    destruct target as [nt ot]. cbn [utcoffset naive] in *. subst ot. f_equal. lia. }
  assert (Hwhen' : when_iso reminder = naive target - off)
    by (rewrite Hwhen; unfold astimezone_utc; now rewrite Htoff).
  assert (Hnt : naive target = naive today + timedelta_days j) by reflexivity.
  assert (Hclock : weekday target = desired /\ hour target = h /\ minute target = m
                   /\ second target = 0).
  { destruct (time_of_day_add_days today j) as (Hh1 & Hm1 & Hs1 & _).
    fold target in Hh1, Hm1, Hs1. rewrite Hh1, Hm1, Hs1. auto. }
  split.
  - rewrite Hwhen'. unfold timedelta_days in *. split; [lia|].
    destruct (Z.eq_dec j 7) as [H7|H7]; [specialize (Hseven H7); lia | lia].
  - split; [cbn zeta; rewrite Hlocal; exact Hclock|].
    split.
    + intros Hsame. cbn zeta. unfold astimezone. rewrite Hsame, Hlocal. exact Hclock.
    + intros i Hi Hstill Hfrom.
      assert (Hij : 0 <= j - i).
      { rewrite Hwhen', Hnt, Hnaive in Hfrom. unfold timedelta_days in Hfrom.
        assert (h * 3600000000 + m * 60000000 < 86400000000) by lia.
        assert (0 <= (j - i) * 86400000000 + 86400000000 - 1) by lia. lia. }
      specialize (Hmin' (Z.to_nat (j - i)) ltac:(lia)).
      rewrite Z2Nat.id in Hmin' by lia.
      assert (Heq : mk_datetime (when_iso reminder - timedelta_days i + off) off
                    = dt_add today (timedelta_days (j - i))).
      { unfold dt_add. rewrite Hwhen', Hnt, Hoff. fold off. f_equal.
        unfold timedelta_days. lia. }
      rewrite Heq. destruct Hmin' as [Hne | Hle]; [exact Hne|].
      exfalso. unfold dt_add in Hle. cbn [naive] in Hle.
      rewrite Hwhen', Hnt in Hstill. unfold timedelta_days in *. lia.
Qed.

(** X8.  A day of the week outside 0..6, which [/repeat weekly k d] accepts
    for any digits [d], is never reached: the loop of [cmd_repeat] steps
    through the days until the date leaves the range of [datetime], and the
    command ends with [OverflowError] with nothing stored, armed or charged;
    in the same way [_next_occurrence] raises [OverflowError] for a stored
    descriptor with such a day.  The range has fewer than 3652060 days; a
    loop of the model that is given fewer tests than it needs is still
    running. *)
Theorem weekly_loop_on_bad_day_overflows
    (fuel : nat) (user chat : Z) (interval d h m : Z)
    (what new_id : string) (tz : tzinfo) (w : World) (r : Reminder) (rec : Recurring) :
  ~ (0 <= d <= 6) ->
  (zones_db (timezone (fst (UserStore.get_user clock user w))) = Some tz ->
   0 <= h <= 23 -> 0 <= m <= 59 ->
   let result :=
     repeat_cmd fuel user chat "weekly" interval (Some d) (Some (h, m)) what new_id w in
   fst result = tick (snd (UserStore.get_user clock user w))
   /\ (snd result = LoopRunning \/ snd result = RaisedOverflowError)
   /\ (3652060 <= Z.of_nat fuel -> snd result = RaisedOverflowError))
  /\ (zones_db (r_timezone r) = Some tz ->
      recurring r = Some rec -> rec_type rec = Some "weekly"%string ->
      rec_dow rec = Some d ->
      (ReminderScheduler._next_occurrence zones_db fuel r = OutOfFuel
       \/ ReminderScheduler._next_occurrence zones_db fuel r = Raise OverflowError)
      /\ (3652060 <= Z.of_nat fuel ->
          ReminderScheduler._next_occurrence zones_db fuel r = Raise OverflowError)).
Proof.
  intros Hbad. split.
  - intros Htz Hh Hm result. unfold result.
    rewrite (cmd_repeat_unfold fuel user chat "weekly" interval (Some d) h m what
               new_id tz w (or_intror eq_refl) Htz).
    cbn zeta.
    set (now_local :=
           astimezone tz (clock (ticks (snd (UserStore.get_user clock user w))))).
    destruct (replace_time_valid now_local h m Hh Hm) as (today & Hrep & _).
    unfold Repeat.first_occurrence. rewrite Hrep.
    cbn [String.eqb Ascii.eqb Bool.eqb default from_option Datatypes.id].
    destruct (next_matching_day_never fuel today now_local d Hbad) as [Hnever _].
    pose proof (next_matching_day_overflows fuel today now_local d Hbad) as Henough.
    destruct Hnever as [Hloop|Hloop].
    + rewrite Hloop. cbn [fst snd]. split; [reflexivity|]. split; [left; reflexivity|].
      intros Hfuel. specialize (Henough Hfuel). rewrite Hloop in Henough.
      discriminate Henough.
    + rewrite Hloop. cbn [fst snd]. auto.
  - intros Htz Hrec Hkind Hd.
    assert (Hshape : forall o,
              ReminderScheduler.advance_to_weekday fuel
                (dt_add (astimezone tz (when_iso r))
                   (timedelta_days (7 * default 1 (rec_interval rec)))) d = o ->
              (o = OutOfFuel \/ o = Raise OverflowError) ->
              (ReminderScheduler._next_occurrence zones_db fuel r = OutOfFuel
               \/ ReminderScheduler._next_occurrence zones_db fuel r = Raise OverflowError)
              /\ (o = Raise OverflowError ->
                  ReminderScheduler._next_occurrence zones_db fuel r
                  = Raise OverflowError)).
    { intros o Ho Hcases. unfold ReminderScheduler._next_occurrence.
      rewrite Htz, Hrec. cbn [default from_option Datatypes.id]. rewrite Hkind, Hd.
      cbn [str_is String.eqb Ascii.eqb Bool.eqb default from_option Datatypes.id].
      unfold timedelta, add_timedelta.
      destruct ((-999999999 <=? 7 * default 1 (rec_interval rec))
                && (7 * default 1 (rec_interval rec) <=? 999999999));
        cbn [mbind outcome_bind]; [|auto].
      destruct (in_range (naive (astimezone tz (when_iso r))
                          + timedelta_days (7 * default 1 (rec_interval rec))));
        cbn [mbind outcome_bind]; [|auto].
      rewrite Ho. destruct Hcases as [-> | ->]; cbn [mbind outcome_bind]; auto.
      split; [left; reflexivity | discriminate]. }
    destruct (advance_to_weekday_never fuel
                (dt_add (astimezone tz (when_iso r))
                   (timedelta_days (7 * default 1 (rec_interval rec)))) d Hbad)
      as [Hnever _].
    destruct (Hshape _ eq_refl Hnever) as [Hcases Hraise].
    split; [exact Hcases|].
    intros Hfuel. apply Hraise. now apply advance_to_weekday_overflows.
Qed.

End CmdRepeat.

Lemma cmd_repeat_daily_first_occurrence_witness :
  let w := world_of [] free_user [] in
  let result :=
    Repeat.cmd_repeat sample_clock zones 8 7 7 "daily" 2 None (Some (7, 30))
      "Meditate" "b2" w in
  exists reminder,
    snd result = Answered (RepeatingSet reminder)
    /\ ReminderStore.get "b2" (fst result) = Some reminder
    /\ recurring reminder = Some (daily 2)
    /\ timedelta_seconds 5 < when_iso reminder <= timedelta_seconds 5 + timedelta_days 1.
Proof.
  intros w result.
  destruct (cmd_repeat_daily_first_occurrence sample_clock zones 8 7 7 2 None 7 30
              "Meditate" "b2" (StaticTzInfo 0) [] w)
    as (reminder & Hans & Hget & _ & Hrec & _ & Hwhen & _);
    [reflexivity | lia | lia | vm_compute; reflexivity | right; vm_compute; reflexivity
    | reflexivity |].
  exists reminder. auto.
Defined.

(** Two runs of [/repeat weekly]: in UTC, and in New York at noon on Saturday
    2024-03-09 for Sundays at 23:30, where the first occurrence is stored as
    2024-03-11T04:30Z: Sunday 23:30 at the offset of the Saturday, Monday
    00:30 in New York after the clocks have changed. *)
Lemma cmd_repeat_weekly_first_occurrence_witness :
  let w := world_of [] free_user [] in
  let result :=
    Repeat.cmd_repeat sample_clock zones 8 7 7 "weekly" 1 (Some 0) (Some (7, 30))
      "Review" "b3" w in
  let at_dst :=
    Repeat.cmd_repeat dst_eve_clock zones 8 7 7 "weekly" 1 (Some 6) (Some (23, 30))
      "Review" "b5" (world_of [] new_yorker []) in
  (exists reminder,
     snd result = Answered (RepeatingSet reminder)
     /\ recurring reminder = Some (weekly 1 (Some 0))
     /\ timedelta_seconds 5 < when_iso reminder <= timedelta_seconds 5 + timedelta_days 7
     /\ weekday (astimezone (StaticTzInfo 0) (when_iso reminder)) = 0)
  /\ (exists reminder,
        snd at_dst = Answered (RepeatingSet reminder)
        /\ when_iso reminder = 1710131400000000
        /\ weekday (mk_datetime (when_iso reminder + timedelta_seconds (-18000))
                      (timedelta_seconds (-18000))) = 6
        /\ weekday (astimezone New_York (when_iso reminder)) = 0
        /\ hour (astimezone New_York (when_iso reminder)) = 0
        /\ minute (astimezone New_York (when_iso reminder)) = 30).
Proof.
  intros w result at_dst. split.
  - destruct (cmd_repeat_weekly_first_occurrence sample_clock zones 8 7 7 1 (Some 0) 7 30
                "Review" "b3" (StaticTzInfo 0) [] w)
      as (reminder & desired & Hans & _ & _ & Hrec & Hdes & _ & _ & Hwhen & _ & Hzoned & _);
      [reflexivity | lia | lia | intros d Hd; inversion Hd; lia | lia
      | vm_compute; discriminate | vm_compute; discriminate
      | vm_compute; reflexivity | right; vm_compute; reflexivity | reflexivity |].
    cbn [default from_option Datatypes.id] in Hdes. subst desired.
    exists reminder. destruct (Hzoned eq_refl) as (Hwd & _). auto.
  - destruct (cmd_repeat_weekly_first_occurrence dst_eve_clock zones 8 7 7 1 (Some 6) 23 30
                "Review" "b5" New_York [] (world_of [] new_yorker []))
      as (reminder & desired & Hans & _ & _ & _ & Hdes & _ & _ & _ & Hlocal & _);
      [reflexivity | lia | lia | intros d Hd; inversion Hd; lia | lia
      | vm_compute; discriminate | vm_compute; discriminate
      | vm_compute; reflexivity | right; vm_compute; reflexivity | reflexivity |].
    cbn [default from_option Datatypes.id] in Hdes. subst desired.
    exists reminder. fold at_dst in Hans.
    assert (Hwhen : when_iso reminder = 1710131400000000).
    { vm_compute in Hans. injection Hans as <-. reflexivity. }
    destruct Hlocal as (Hwd & _).
    split; [exact Hans|]. split; [exact Hwhen|]. split; [exact Hwd|].
    rewrite Hwhen. repeat split; vm_compute; reflexivity.
Defined.

Lemma weekly_loop_on_bad_day_overflows_witness :
  let w := world_of [] free_user [] in
  let stored := sample "b4" "UTC" 1000000 (Some (weekly 1 (Some 9))) in
  snd (Repeat.cmd_repeat sample_clock zones (Z.to_nat 3652060) 7 7 "weekly" 1 (Some 9)
         (Some (7, 30)) "Review" "b3" w) = RaisedOverflowError
  /\ fst (Repeat.cmd_repeat sample_clock zones (Z.to_nat 3652060) 7 7 "weekly" 1 (Some 9)
            (Some (7, 30)) "Review" "b3" w) = tick w
  /\ ReminderScheduler._next_occurrence zones (Z.to_nat 3652060) stored
     = Raise OverflowError.
Proof.
  intros w stored.
  destruct (weekly_loop_on_bad_day_overflows sample_clock zones (Z.to_nat 3652060)
              7 7 1 9 7 30 "Review" "b3" (StaticTzInfo 0) w stored (weekly 1 (Some 9)))
    as (Hcmd & Hnext); [lia|].
  destruct Hcmd as (Hworld & _ & Hraise); [reflexivity | lia | lia |].
  destruct Hnext as (_ & Hover); [reflexivity .. |].
  split; [apply Hraise; lia|]. split; [exact Hworld|]. apply Hover; lia.
Defined.


(** ** Redeeming codes *)

Section Redeem.
Variable clock : nat -> Z.
(** [str.upper] *)
Variable upper : string -> string.
Abbreviation redeem_inline := (Handlers.on_text_message clock upper).
Abbreviation redeem_cmd := (Commands.cmd_redeem clock upper).

(** Both redeem handlers up to the point where the kind of the code is
    looked at. *)
Lemma redeem_checks (user : Z) (text : string) (w : World) :
  let profile := fst (UserStore.get_user clock user w) in
  let w0 := snd (UserStore.get_user clock user w) in
  match CodesStore.get (upper text) w0 with
  | None =>
      redeem_inline user text w = (w0, InvalidCode)
      /\ redeem_cmd user text w = (w0, InvalidCode)
  | Some c =>
      let w1 := match expires_at c with Some _ => tick w0 | None => w0 end in
      let expired :=
        match expires_at c with Some e => e <? clock (ticks w0) | None => false end in
      if expired then
        redeem_inline user text w = (w1, CodeExpired)
        /\ redeem_cmd user text w = (w1, CodeExpired)
      else if used c >=? max_uses c then
        redeem_inline user text w = (w1, FullyRedeemed)
        /\ redeem_cmd user text w = (w1, FullyRedeemed)
      else
        let stored p := CodesStore.inc_used (code c) (UserStore.put_user p w1) in
        redeem_inline user text w
        = (if String.eqb (kind c) "credits" then
             (stored (set_credits (credits profile + amount c) profile),
              CreditsAdded (amount c) (credits profile + amount c))
           else if String.eqb (kind c) "premium" then
             (stored (set_premium "PLATINUM" profile), PremiumActivated)
           else if String.eqb (kind c) "plan" then
             (stored (set_premium (Handlers.plan_or_PREMIUM c) profile),
              PlanActivated (Handlers.plan_or_PREMIUM c)
                (max_active (get_user_tier_info
                               (set_premium (Handlers.plan_or_PREMIUM c) profile)))
                (snooze_limit (get_user_tier_info
                                 (set_premium (Handlers.plan_or_PREMIUM c) profile))))
           else (w1, UnknownCodeType))
        /\ redeem_cmd user text w
           = (if String.eqb (kind c) "credits" then
                (stored (set_credits (credits profile + amount c) profile),
                 CreditsAdded (amount c) (credits profile + amount c))
              else if String.eqb (kind c) "premium" then
                (stored (set_premium (premium_tier profile) profile), PremiumActivated)
              else if String.eqb (kind c) "plan" then
                (stored (set_premium (Handlers.plan_or_PREMIUM c) profile),
                 PlanActivated (Handlers.plan_or_PREMIUM c)
                   (max_active (get_user_tier_info
                                  (set_premium (Handlers.plan_or_PREMIUM c) profile)))
                   (snooze_limit (get_user_tier_info
                                    (set_premium (Handlers.plan_or_PREMIUM c) profile))))
              else (w1, UnknownCodeType))
  end.
Proof.
  intros profile w0. unfold Handlers.on_text_message, Commands.cmd_redeem.
  subst profile w0.
  destruct (UserStore.get_user clock user w) as [p w0]. cbn [fst snd].
  destruct (CodesStore.get (upper text) w0) as [c|]; [|split; reflexivity].
  destruct (expires_at c) as [e|]; unfold now_utc; cbn zeta.
  - destruct (e <? clock (ticks w0)); [split; reflexivity|].
    destruct (used c >=? max_uses c); [split; reflexivity|].
    destruct (String.eqb (kind c) "credits"); [split; reflexivity|].
    destruct (String.eqb (kind c) "premium"); [split; reflexivity|].
    destruct (String.eqb (kind c) "plan"); split; reflexivity.
  - destruct (used c >=? max_uses c); [split; reflexivity|].
    destruct (String.eqb (kind c) "credits"); [split; reflexivity|].
    destruct (String.eqb (kind c) "premium"); [split; reflexivity|].
    destruct (String.eqb (kind c) "plan"); split; reflexivity.
Qed.
Lemma inc_used_frame (k : string) (w : World) :
  users_json (CodesStore.inc_used k w) = users_json w
  /\ reminders_json (CodesStore.inc_used k w) = reminders_json w
  /\ job_queue (CodesStore.inc_used k w) = job_queue w.
Proof. unfold CodesStore.inc_used. destruct (codes_json w !! k); auto. Qed.

(** The shape of a refusal: an answer that names the reason, in the world
    after the profile was read, with at most one more clock read. *)
Lemma redeem_refused_shape (user : Z) (text : string) (w : World) :
  let w0 := snd (UserStore.get_user clock user w) in
  CodesStore.get (upper text) w0 = None
  \/ (exists c, CodesStore.get (upper text) w0 = Some c
                /\ ((exists e, expires_at c = Some e /\ e < clock (ticks w0))
                    \/ max_uses c <= used c)) ->
  forall result,
    result = redeem_inline user text w \/ result = redeem_cmd user text w ->
    exists reply w1,
      result = (w1, reply)
      /\ (reply = InvalidCode /\ CodesStore.get (upper text) w0 = None
          \/ (reply = CodeExpired \/ reply = FullyRedeemed)
             /\ CodesStore.get (upper text) w0 <> None)
      /\ (w1 = w0 \/ w1 = tick w0).
Proof.
  intros w0 Hwhy result Hresult.
  pose proof (redeem_checks user text w) as Hchk. cbn zeta in Hchk. fold w0 in Hchk.
  assert (Hdone : forall reply w1,
             redeem_inline user text w = (w1, reply)
             /\ redeem_cmd user text w = (w1, reply) ->
             result = (w1, reply))
    by (intros reply w1 [H1 H2]; destruct Hresult as [-> | ->]; assumption).
  destruct Hwhy as [Hnone | (c & Hc & Hbad)].
  - rewrite Hnone in Hchk.
    exists InvalidCode, w0. split; [now apply Hdone|]. auto.
  - rewrite Hc in Hchk |- *.
    assert (Hfound : Some c <> None) by discriminate.
    destruct (expires_at c) as [e|] eqn:Ee.
    + destruct (Z.ltb_spec e (clock (ticks w0))) as [Hexp|Hlive].
      * exists CodeExpired, (tick w0). split; [now apply Hdone|].
        split; [right; split; [auto | exact Hfound] | auto].
      * destruct Hbad as [(e' & He' & Hlt) | Hused]; [inversion He'; lia|].
        rewrite Z.geb_leb in Hchk.
        destruct (Z.leb_spec (max_uses c) (used c)); [|lia].
        exists FullyRedeemed, (tick w0). split; [now apply Hdone|].
        split; [right; split; [auto | exact Hfound] | auto].
    + destruct Hbad as [(e' & He' & _) | Hused]; [discriminate|].
      rewrite Z.geb_leb in Hchk.
      destruct (Z.leb_spec (max_uses c) (used c)); [|lia].
      exists FullyRedeemed, w0. split; [now apply Hdone|].
      split; [right; split; [auto | exact Hfound] | auto].
Qed.

(** An accepted code of a known kind counts one more use. *)
Lemma redeem_counts_use (user : Z) (text : string) (c : RedeemCode) (w : World) :
  let w0 := snd (UserStore.get_user clock user w) in
  CodesStore.get (upper text) w0 = Some c ->
  code c = upper text ->
  (forall e, expires_at c = Some e -> clock (ticks w0) <= e) ->
  used c < max_uses c ->
  kind c = "credits"%string \/ kind c = "premium"%string \/ kind c = "plan"%string ->
  forall result,
    result = redeem_inline user text w \/ result = redeem_cmd user text w ->
    codes_json (fst result) !! upper text = Some (set_used (used c + 1) c)
    /\ (snd result <> InvalidCode /\ snd result <> CodeExpired
        /\ snd result <> FullyRedeemed /\ snd result <> UnknownCodeType).
Proof.
  intros w0 Hget Hcode Hlive Hused Hkind result Hresult.
  destruct (get_user_frame clock user w) as (_ & Hcodes & _). fold w0 in Hcodes.
  pose proof (redeem_checks user text w) as Hchk. cbn zeta in Hchk.
  fold w0 in Hchk. rewrite Hget in Hchk.
  set (w1 := match expires_at c with Some _ => tick w0 | None => w0 end) in *.
  assert (Hnot : match expires_at c with
                 | Some e => e <? clock (ticks w0) | None => false end = false).
  { destruct (expires_at c) as [e|]; [|reflexivity].
    specialize (Hlive e eq_refl). destruct (Z.ltb_spec e (clock (ticks w0))); [lia|].
    reflexivity. }
  rewrite Hnot in Hchk. rewrite Z.geb_leb in Hchk.
  destruct (Z.leb_spec (max_uses c) (used c)); [lia|].
  assert (Hc1 : codes_json w1 = codes_json w0)
    by (unfold w1; destruct (expires_at c); reflexivity).
  assert (Hinc : forall p,
             codes_json (CodesStore.inc_used (code c) (UserStore.put_user p w1))
             !! upper text = Some (set_used (used c + 1) c)).
  { intros p. unfold CodesStore.inc_used.
    cbn [codes_json UserStore.put_user set_users]. rewrite Hc1, Hcode.
    unfold CodesStore.get in Hget. rewrite Hget.
    cbn [codes_json set_codes]. apply lookup_insert_eq. }
  destruct Hchk as [H1 H2].
  destruct Hkind as [Hk | [Hk | Hk]]; rewrite Hk in H1, H2;
    cbn [String.eqb Ascii.eqb Bool.eqb] in H1, H2;
    destruct Hresult as [-> | ->]; rewrite ?H1, ?H2; cbn [fst snd];
    (split; [apply Hinc | repeat split; discriminate]).
Qed.

(** X10.  A code that is not in the store, that has expired, or whose uses
    are spent is refused by both redeem handlers, and the refusal changes no
    profile, no code and no reminder. *)
Theorem redeem_refusal_changes_nothing (user : Z) (text : string) (w : World) :
  let w0 := snd (UserStore.get_user clock user w) in
  CodesStore.get (upper text) w0 = None
  \/ (exists c, CodesStore.get (upper text) w0 = Some c
                /\ ((exists e, expires_at c = Some e /\ e < clock (ticks w0))
                    \/ max_uses c <= used c)) ->
  forall result,
    result = redeem_inline user text w \/ result = redeem_cmd user text w ->
    (snd result = InvalidCode \/ snd result = CodeExpired \/ snd result = FullyRedeemed)
    /\ users_json (fst result) = users_json w0
    /\ codes_json (fst result) = codes_json w
    /\ reminders_json (fst result) = reminders_json w
    /\ job_queue (fst result) = job_queue w.
Proof.
  intros w0 Hwhy result Hresult.
  destruct (get_user_frame clock user w) as (Hrem & Hcodes & Hq & _ & _).
  fold w0 in Hrem, Hcodes, Hq.
  destruct (redeem_refused_shape user text w Hwhy result Hresult)
    as (reply & w1 & -> & Hreply & Hw1).
  cbn [fst snd].
  split; [destruct Hreply as [[-> _] | [[-> | ->] _]]; auto|].
  destruct Hw1 as [-> | ->]; cbn [users_json codes_json reminders_json job_queue tick];
    auto.
Qed.

(** X11.  A credits code that is in the store under its own name, has not
    expired and has uses left adds its amount to the balance of the user and
    counts one more use, in both handlers; the count of uses stays within
    [max_uses], and the other codes and profiles are as before. *)
Theorem redeem_credits_adds_amount (user : Z) (text : string) (c : RedeemCode) (w : World) :
  let profile := fst (UserStore.get_user clock user w) in
  let w0 := snd (UserStore.get_user clock user w) in
  CodesStore.get (upper text) w0 = Some c ->
  code c = upper text ->
  (forall e, expires_at c = Some e -> clock (ticks w0) <= e) ->
  used c < max_uses c ->
  kind c = "credits"%string ->
  forall result,
    result = redeem_inline user text w \/ result = redeem_cmd user text w ->
    snd result = CreditsAdded (amount c) (credits profile + amount c)
    /\ users_json (fst result) !! user_id profile
       = Some (set_credits (credits profile + amount c) profile)
    /\ codes_json (fst result) !! upper text = Some (set_used (used c + 1) c)
    /\ used (set_used (used c + 1) c) <= max_uses c
    /\ (forall k, k <> upper text -> codes_json (fst result) !! k = codes_json w !! k)
    /\ (forall u, u <> user_id profile ->
          users_json (fst result) !! u = users_json w0 !! u)
    /\ reminders_json (fst result) = reminders_json w.
Proof.
  intros profile w0 Hget Hcode Hlive Hused Hkind result Hresult.
  destruct (get_user_frame clock user w) as (Hrem & Hcodes & _).
  fold w0 in Hrem, Hcodes.
  pose proof (redeem_checks user text w) as Hchk. cbn zeta in Hchk.
  fold profile w0 in Hchk. rewrite Hget in Hchk.
  set (w1 := match expires_at c with Some _ => tick w0 | None => w0 end) in *.
  assert (Hnot : match expires_at c with
                 | Some e => e <? clock (ticks w0) | None => false end = false).
  { destruct (expires_at c) as [e|]; [|reflexivity].
    specialize (Hlive e eq_refl). destruct (Z.ltb_spec e (clock (ticks w0))); [lia|].
    reflexivity. }
  rewrite Hnot in Hchk. rewrite Z.geb_leb in Hchk.
  destruct (Z.leb_spec (max_uses c) (used c)); [lia|].
  rewrite Hkind in Hchk. cbn [String.eqb Ascii.eqb Bool.eqb] in Hchk.
  assert (Hres : result
                 = (CodesStore.inc_used (code c)
                      (UserStore.put_user
                         (set_credits (credits profile + amount c) profile) w1),
                    CreditsAdded (amount c) (credits profile + amount c)))
    by (destruct Hchk as [H1 H2]; destruct Hresult as [-> | ->]; assumption).
  assert (Hw1 : users_json w1 = users_json w0 /\ codes_json w1 = codes_json w
                /\ reminders_json w1 = reminders_json w).
  { unfold w1. destruct (expires_at c); cbn [users_json codes_json reminders_json tick];
      auto. }
  destruct Hw1 as (Hu1 & Hc1 & Hr1).
  rewrite Hres. cbn [fst snd].
  destruct (inc_used_frame (code c)
              (UserStore.put_user (set_credits (credits profile + amount c) profile) w1))
    as (Hu & Hr & _).
  assert (Hstoredc : codes_json (UserStore.put_user
                       (set_credits (credits profile + amount c) profile) w1)
                     !! code c = Some c).
  { cbn [codes_json UserStore.put_user set_users]. rewrite Hc1, <- Hcodes, Hcode.
    exact Hget. }
  split; [reflexivity|].
  split; [rewrite Hu; apply lookup_insert_eq|].
  unfold CodesStore.inc_used. rewrite Hstoredc.
  cbn [codes_json set_codes UserStore.put_user set_users users_json reminders_json].
  rewrite Hcode.
  split; [apply lookup_insert_eq|].
  split; [cbn [used set_used]; lia|].
  split; [intros k Hk; rewrite lookup_insert_ne by congruence; now rewrite Hc1|].
  split; [intros u Hu'; rewrite lookup_insert_ne by (cbn; congruence); now rewrite Hu1|].
  exact Hr1.
Qed.

(** X12.  The two redeem handlers do the same whenever the code is not a
    premium code: the same answer and the same world. *)
Theorem redeem_handlers_agree (user : Z) (text : string) (w : World) :
  (forall c, CodesStore.get (upper text) (snd (UserStore.get_user clock user w)) = Some c ->
             kind c <> "premium"%string) ->
  redeem_inline user text w = redeem_cmd user text w.
Proof.
  intros Hkind.
  pose proof (redeem_checks user text w) as Hchk. cbn zeta in Hchk.
  destruct (CodesStore.get (upper text) (snd (UserStore.get_user clock user w)))
    as [c|]; [|destruct Hchk; congruence].
  specialize (Hkind c eq_refl). apply String.eqb_neq in Hkind.
  destruct (match expires_at c with
            | Some e => e <? clock (ticks (snd (UserStore.get_user clock user w)))
            | None => false end); [destruct Hchk; congruence|].
  destruct (used c >=? max_uses c); [destruct Hchk; congruence|].
  rewrite Hkind in Hchk. destruct Hchk as [-> ->]. reflexivity.
Qed.

(** X13.  On a premium code that is accepted the handlers differ: the inline
    flow stores the profile as premium on the tier PLATINUM, with 1000 active
    reminders and 10 snoozes; [/redeem] stores it as premium on the tier it
    had, so a profile on the tier FREE keeps 20 active reminders and 1
    snooze. *)
Theorem redeem_premium_differs (user : Z) (text : string) (c : RedeemCode) (w : World) :
  let profile := fst (UserStore.get_user clock user w) in
  let w0 := snd (UserStore.get_user clock user w) in
  CodesStore.get (upper text) w0 = Some c ->
  (forall e, expires_at c = Some e -> clock (ticks w0) <= e) ->
  used c < max_uses c ->
  kind c = "premium"%string ->
  (exists p,
      users_json (fst (redeem_inline user text w)) !! user_id profile = Some p
      /\ is_premium p = true /\ premium_tier p = "PLATINUM"%string
      /\ max_active (get_user_tier_info p) = 1000
      /\ CreditPolicy.get_snooze_limit p = 10
      /\ credits p = credits profile)
  /\ (exists p,
        users_json (fst (redeem_cmd user text w)) !! user_id profile = Some p
        /\ is_premium p = true /\ premium_tier p = premium_tier profile
        /\ credits p = credits profile
        /\ (premium_tier profile = "FREE"%string ->
            max_active (get_user_tier_info p) = 20
            /\ CreditPolicy.get_snooze_limit p = 1)).
Proof.
  intros profile w0 Hget Hlive Hused Hkind.
  pose proof (redeem_checks user text w) as Hchk. cbn zeta in Hchk.
  fold profile w0 in Hchk. rewrite Hget in Hchk.
  assert (Hnot : match expires_at c with
                 | Some e => e <? clock (ticks w0) | None => false end = false).
  { destruct (expires_at c) as [e|]; [|reflexivity].
    specialize (Hlive e eq_refl). destruct (Z.ltb_spec e (clock (ticks w0))); [lia|].
    reflexivity. }
  rewrite Hnot in Hchk. rewrite Z.geb_leb in Hchk.
  destruct (Z.leb_spec (max_uses c) (used c)); [lia|].
  rewrite Hkind in Hchk. cbn [String.eqb Ascii.eqb Bool.eqb] in Hchk.
  destruct Hchk as [-> ->]. cbn [fst].
  split.
  - exists (set_premium "PLATINUM" profile).
    rewrite (proj1 (inc_used_frame _ _)).
    split; [apply lookup_insert_eq|]. repeat split.
  - exists (set_premium (premium_tier profile) profile).
    rewrite (proj1 (inc_used_frame _ _)).
    split; [apply lookup_insert_eq|]. do 3 (split; [reflexivity|]).
    intros Htier. unfold CreditPolicy.get_snooze_limit, get_user_tier_info.
    cbn [is_premium premium_tier set_premium]. rewrite Htier. split; reflexivity.
Qed.
(** X14.  The last use of a code spends it: once a code with one use left
    has been accepted, every later attempt on it, by any user and through
    either handler, is refused and changes no profile and no code. *)
Theorem redeemed_code_is_spent
    (user user2 : Z) (text text2 : string) (c : RedeemCode) (w : World) :
  let w0 := snd (UserStore.get_user clock user w) in
  CodesStore.get (upper text) w0 = Some c ->
  code c = upper text ->
  (forall e, expires_at c = Some e -> clock (ticks w0) <= e) ->
  used c + 1 = max_uses c ->
  kind c = "credits"%string \/ kind c = "premium"%string \/ kind c = "plan"%string ->
  upper text2 = upper text ->
  forall first second,
    first = redeem_inline user text w \/ first = redeem_cmd user text w ->
    second = redeem_inline user2 text2 (fst first)
    \/ second = redeem_cmd user2 text2 (fst first) ->
    (snd second = CodeExpired \/ snd second = FullyRedeemed)
    /\ codes_json (fst second) = codes_json (fst first)
    /\ users_json (fst second)
       = users_json (snd (UserStore.get_user clock user2 (fst first))).
Proof.
  intros w0 Hget Hcode Hlive Hlast Hkind Hsame first second Hfirst Hsecond.
  destruct (redeem_counts_use user text c w Hget Hcode Hlive ltac:(lia) Hkind first Hfirst)
    as (Hspent & _).
  destruct (get_user_frame clock user2 (fst first)) as (_ & Hcodes2 & _).
  set (w0' := snd (UserStore.get_user clock user2 (fst first))) in *.
  assert (Hget2 : CodesStore.get (upper text2) w0' = Some (set_used (used c + 1) c))
    by (unfold CodesStore.get; now rewrite Hcodes2, Hsame).
  destruct (redeem_refused_shape user2 text2 (fst first)) with (result := second)
    as (reply & w1 & -> & Hreply & Hw1).
  - right. exists (set_used (used c + 1) c). split; [exact Hget2|].
    right. cbn [max_uses used set_used]. lia.
  - exact Hsecond.
  - cbn [fst snd].
    split.
    + destruct Hreply as [[_ Hnone] | [Hreply _]]; [|exact Hreply].
      unfold w0' in Hget2. rewrite Hget2 in Hnone. discriminate.
    + destruct Hw1 as [-> | ->]; cbn [users_json codes_json tick]; auto.
Qed.
End Redeem.

Lemma redeem_refusal_changes_nothing_witness :
  let unknown := Handlers.on_text_message sample_clock ascii_upper 7 "nope" world_with_codes in
  let expired := Commands.cmd_redeem sample_clock ascii_upper 7 "cr-0ld" world_with_codes in
  (snd unknown = InvalidCode \/ snd unknown = CodeExpired \/ snd unknown = FullyRedeemed)
  /\ users_json (fst unknown) = users_json world_with_codes
  /\ codes_json (fst expired) = codes_json world_with_codes
  /\ users_json (fst expired) = users_json world_with_codes.
Proof.
  intros unknown expired.
  destruct (redeem_refusal_changes_nothing sample_clock ascii_upper 7 "nope" world_with_codes)
    with (result := unknown) as (H1 & H2 & _);
    [left; vm_compute; reflexivity | left; reflexivity |].
  destruct (redeem_refusal_changes_nothing sample_clock ascii_upper 7 "cr-0ld" world_with_codes)
    with (result := expired) as (_ & H3 & H4 & _);
    [right; exists expired_code; split;
       [vm_compute; reflexivity
       | left; exists 0; split; [reflexivity | vm_compute; reflexivity]]
    | right; reflexivity |].
  auto.
Defined.

Lemma redeem_credits_adds_amount_witness :
  let result := Handlers.on_text_message sample_clock ascii_upper 7 "miku-cr100-abc123"
                  world_with_codes in
  snd result = CreditsAdded 100 115
  /\ (users_json (fst result) !! 7 ≫= fun p => Some (credits p)) = Some 115
  /\ (codes_json (fst result) !! "MIKU-CR100-ABC123"%string ≫= fun c => Some (used c))
     = Some 1.
Proof.
  intros result.
  destruct (redeem_credits_adds_amount sample_clock ascii_upper 7 "miku-cr100-abc123" credit_code
              world_with_codes) with (result := result)
    as (H1 & H2 & H3 & _).
  - vm_compute. reflexivity.
  - vm_compute. reflexivity.
  - intros e He. inversion He. vm_compute. discriminate.
  - vm_compute. reflexivity.
  - reflexivity.
  - left. reflexivity.
  - split; [exact H1|].
    change (user_id (UserStore.get_user sample_clock 7 world_with_codes).1) with 7 in H2.
    change (ascii_upper "miku-cr100-abc123") with "MIKU-CR100-ABC123"%string in H3.
    rewrite H2, H3. split; reflexivity.
Defined.

Lemma redeem_handlers_agree_witness :
  Handlers.on_text_message sample_clock ascii_upper 7 "miku-vip-abc123" world_with_code
  = Commands.cmd_redeem sample_clock ascii_upper 7 "miku-vip-abc123" world_with_code.
Proof.
  apply redeem_handlers_agree.
  intros c Hc. vm_compute in Hc. inversion Hc. discriminate.
Defined.

Lemma redeem_premium_differs_witness :
  (exists p,
      users_json (fst (Handlers.on_text_message sample_clock ascii_upper 7 "pr-1a2b3c4d"
                         world_with_codes)) !! 7 = Some p
      /\ premium_tier p = "PLATINUM"%string /\ CreditPolicy.get_snooze_limit p = 10)
  /\ (exists p,
        users_json (fst (Commands.cmd_redeem sample_clock ascii_upper 7 "pr-1a2b3c4d"
                           world_with_codes)) !! 7 = Some p
        /\ is_premium p = true /\ premium_tier p = "FREE"%string
        /\ CreditPolicy.get_snooze_limit p = 1).
Proof.
  destruct (redeem_premium_differs sample_clock ascii_upper 7 "pr-1a2b3c4d" premium_code
              world_with_codes) as (Hinline & Hcmd).
  - vm_compute. reflexivity.
  - intros e He. discriminate He.
  - vm_compute. reflexivity.
  - reflexivity.
  - split.
    + destruct Hinline as (p & Hp & _ & Htier & _ & Hlim & _). exists p. auto.
    + destruct Hcmd as (p & Hp & Hprem & Htier & _ & Hfree). exists p.
      destruct Hfree as (_ & Hlim); [reflexivity|]. auto.
Defined.

Lemma redeemed_code_is_spent_witness :
  let first := Handlers.on_text_message sample_clock ascii_upper 7 "miku-cr100-abc123"
                 world_with_codes in
  let second := Commands.cmd_redeem sample_clock ascii_upper 8 "MIKU-cr100-abc123" (fst first) in
  (snd second = CodeExpired \/ snd second = FullyRedeemed)
  /\ codes_json (fst second) = codes_json (fst first).
Proof.
  intros first second.
  destruct (redeemed_code_is_spent sample_clock ascii_upper 7 8 "miku-cr100-abc123"
              "MIKU-cr100-abc123" credit_code world_with_codes)
    with (first := first) (second := second) as (H1 & H2 & _).
  - vm_compute. reflexivity.
  - vm_compute. reflexivity.
  - intros e He. inversion He. vm_compute. discriminate.
  - reflexivity.
  - left. reflexivity.
  - vm_compute. reflexivity.
  - left. reflexivity.
  - right. reflexivity.
  - auto.
Defined.

(** ** Reminder buttons and deletion *)

Section Buttons.
Variable clock : nat -> Z.
Variable zones_db : string -> option tzinfo.
Abbreviation button := (Handlers.on_callback clock).
Abbreviation run := (ReminderScheduler._run_reminder_job clock zones_db).

(** A timer that fires for an id without an open reminder does nothing. *)
Lemma run_job_noop (send_ok : bool) (fuel : nat) (rid : string) (w : World) :
  ReminderStore.get rid w = None
  \/ (exists r, ReminderStore.get rid w = Some r /\ done r = true) ->
  run send_ok fuel rid w = (w, Return tt).
Proof.
  intros H. unfold ReminderScheduler._run_reminder_job.
  destruct H as [-> | (r & -> & ->)]; reflexivity.
Qed.

(** [on_callback] on one of the three reminder actions. *)
Lemma on_callback_unfold (user : Z) (action rid : string) (minutes : option Z) (w : World) :
  let profile := fst (UserStore.get_user clock user w) in
  let w0 := snd (UserStore.get_user clock user w) in
  action = "snooze"%string \/ action = "done"%string \/ action = "del"%string ->
  button user action rid minutes w
  = match ReminderStore.get rid w with
    | None => (w0, NoLongerAvailable)
    | Some r =>
        if negb (r_user_id r =? user) then (w0, NoLongerAvailable)
        else if String.eqb action "snooze" then
          button user "snooze" rid minutes w
        else if String.eqb action "done" then
          (ReminderStore.put (set_done true r) w0, MarkedDone)
        else (ReminderStore.delete (id r) w0, Deleted)
    end.
Proof.
  intros profile w0 Haction.
  destruct (get_user_frame clock user w) as (Hrem & _). fold w0 in Hrem.
  assert (Hget : ReminderStore.get rid w0 = ReminderStore.get rid w)
    by (unfold ReminderStore.get; now rewrite Hrem).
  unfold Handlers.on_callback. subst profile w0.
  destruct (UserStore.get_user clock user w) as [p w0]. cbn [fst snd] in *.
  rewrite Hget.
  destruct Haction as [-> | [-> | ->]]; cbn [String.eqb Ascii.eqb Bool.eqb orb negb];
    destruct (ReminderStore.get rid w) as [r|]; try reflexivity;
    destruct (negb (r_user_id r =? user)); reflexivity.
Qed.


(** X16.  "Done" pressed by the owner stores the reminder as completed and
    changes nothing else of it; its timers stay in the queue, but when one
    fires nothing is delivered and nothing changes, and a restart does not
    arm it again. *)
Theorem done_retires_reminder
    (user : Z) (rid : string) (minutes : option Z) (r : Reminder) (w : World) :
  ReminderStore.get rid w = Some r ->
  r_user_id r = user ->
  let result := button user "done" rid minutes w in
  let w' := fst result in
  snd result = MarkedDone
  /\ ReminderStore.get (id r) w' = Some (set_done true r)
  /\ (forall k, k <> id r -> ReminderStore.get k w' = ReminderStore.get k w)
  /\ job_queue w' = job_queue w
  /\ (forall send_ok fuel, run send_ok fuel (id r) w' = (w', Return tt))
  /\ ReminderScheduler.schedule_on_startup clock (set_done true r) w' = w'.
Proof.
  intros Hget Howner result w'.
  destruct (get_user_frame clock user w) as (Hrem & _ & Hq & _ & _).
  set (w0 := snd (UserStore.get_user clock user w)) in *.
  assert (Hres : result = (ReminderStore.put (set_done true r) w0, MarkedDone)).
  { unfold result.
    rewrite (on_callback_unfold user "done" rid minutes w) by auto.
    rewrite Hget, Howner, Z.eqb_refl. reflexivity. }
  assert (Hstored : ReminderStore.get (id r) w' = Some (set_done true r)).
  { unfold w'. rewrite Hres. apply lookup_insert_eq. }
  split; [now rewrite Hres|]. split; [exact Hstored|].
  split.
  { intros k Hk. unfold w'. rewrite Hres. unfold ReminderStore.get.
    cbn [fst reminders_json ReminderStore.put set_reminders id set_done].
    rewrite lookup_insert_ne by congruence. now rewrite Hrem. }
  split; [unfold w'; rewrite Hres; exact Hq|].
  split; [|reflexivity].
  intros send_ok fuel. apply run_job_noop. right. exists (set_done true r). auto.
Qed.

(** X17.  "Delete" pressed by the owner, and [/delete id] sent by anyone,
    remove the reminder and leave the other reminders and the job queue as
    they are; a timer of the reminder that fires later does nothing.
    [/delete] does not look at the owner of the reminder. *)
Theorem delete_removes_reminder
    (user : Z) (rid : string) (minutes : option Z) (r : Reminder) (w : World) :
  ReminderStore.get rid w = Some r ->
  (r_user_id r = user ->
   let result := button user "del" rid minutes w in
   let w' := fst result in
   snd result = Deleted
   /\ ReminderStore.get (id r) w' = None
   /\ (forall k, k <> id r -> ReminderStore.get k w' = ReminderStore.get k w)
   /\ job_queue w' = job_queue w
   /\ (forall send_ok fuel, run send_ok fuel (id r) w' = (w', Return tt)))
  /\ (let result := Commands.cmd_delete rid w in
      let w' := fst result in
      snd result = DeletedById
      /\ ReminderStore.get rid w' = None
      /\ (forall k, k <> rid -> ReminderStore.get k w' = ReminderStore.get k w)
      /\ job_queue w' = job_queue w
      /\ users_json w' = users_json w
      /\ (forall send_ok fuel, run send_ok fuel rid w' = (w', Return tt))).
Proof.
  intros Hget. split.
  - intros Howner result w'.
    destruct (get_user_frame clock user w) as (Hrem & _ & Hq & _ & _).
    set (w0 := snd (UserStore.get_user clock user w)) in *.
    assert (Hres : result = (ReminderStore.delete (id r) w0, Deleted)).
    { unfold result.
      rewrite (on_callback_unfold user "del" rid minutes w) by auto.
      rewrite Hget, Howner, Z.eqb_refl. reflexivity. }
    assert (Hgone : ReminderStore.get (id r) w' = None)
      by (unfold w'; rewrite Hres; apply lookup_delete_eq).
    split; [now rewrite Hres|]. split; [exact Hgone|].
    split.
    { intros k Hk. unfold w'. rewrite Hres. unfold ReminderStore.get.
      cbn [fst reminders_json ReminderStore.delete set_reminders].
      rewrite lookup_delete_ne by congruence. now rewrite Hrem. }
    split; [unfold w'; rewrite Hres; exact Hq|].
    intros send_ok fuel. apply run_job_noop. now left.
  - intros result w'.
    assert (Hres : result = (ReminderStore.delete rid w, DeletedById))
      by (unfold result, Commands.cmd_delete; now rewrite Hget).
    assert (Hgone : ReminderStore.get rid w' = None)
      by (unfold w'; rewrite Hres; apply lookup_delete_eq).
    split; [now rewrite Hres|]. split; [exact Hgone|].
    split.
    { intros k Hk. unfold w'. rewrite Hres. unfold ReminderStore.get.
      cbn [fst reminders_json ReminderStore.delete set_reminders].
      now rewrite lookup_delete_ne by congruence. }
    split; [unfold w'; now rewrite Hres|].
    split; [unfold w'; now rewrite Hres|].
    intros send_ok fuel. apply run_job_noop. now left.
Qed.

End Buttons.


Lemma done_retires_reminder_witness :
  let w := world_of [r_once_UTC] free_user [mk_Job 1000000 "a4" "a4"] in
  let w' := fst (Handlers.on_callback sample_clock 7 "done" "a4" None w) in
  ReminderStore.get "a4" w' = Some (set_done true r_once_UTC)
  /\ job_queue w' = Some [mk_Job 1000000 "a4" "a4"]
  /\ ReminderScheduler._run_reminder_job sample_clock zones true 7 "a4" w'
     = (w', Return tt).
Proof.
  intros w w'.
  destruct (done_retires_reminder sample_clock zones 7 "a4" None r_once_UTC w
              eq_refl eq_refl) as (_ & H1 & _ & H2 & H3 & _).
  split; [exact H1|]. split; [exact H2 | apply H3].
Defined.

Lemma delete_removes_reminder_witness :
  let w := world_of [r_once_UTC] free_user [mk_Job 1000000 "a4" "a4"] in
  ReminderStore.get "a4" (fst (Handlers.on_callback sample_clock 7 "del" "a4" None w))
  = None
  /\ ReminderStore.get "a4" (fst (Commands.cmd_delete "a4" w)) = None
  /\ job_queue (fst (Commands.cmd_delete "a4" w)) = Some [mk_Job 1000000 "a4" "a4"].
Proof.
  intros w.
  destruct (delete_removes_reminder sample_clock zones 7 "a4" None r_once_UTC w eq_refl)
    as (Hbutton & Hcmd).
  destruct (Hbutton eq_refl) as (_ & H1 & _).
  destruct Hcmd as (_ & H2 & _ & H3 & _).
  auto.
Defined.


(** ** More on the fire handler *)

Section FireMore.
Variable clock : nat -> Z.
Variable zones_db : string -> option tzinfo.
Abbreviation run2 := (ReminderScheduler._run_reminder_job clock zones_db).

(** X19.  When the timer of an open reminder without recurrence fires and the
    send succeeds, the reminder is delivered once and stored as completed, the
    handler returns, and no timer is armed; a further firing for the same id
    delivers nothing and changes nothing. *)
Theorem one_shot_is_delivered_once
    (fuel : nat) (r : Reminder) (tz : tzinfo) (w : World) :
  ReminderStore.get (id r) w = Some r ->
  done r = false ->
  is_recurring r = false ->
  zones_db (r_timezone r) = Some tz ->
  let result := run2 true fuel (id r) w in
  let w' := fst result in
  snd result = Return tt
  /\ outbox w' = outbox w ++ [mk_Delivery (chat_id r) r true]
  /\ ReminderStore.get (id r) w' = Some (set_done true r)
  /\ job_queue w' = job_queue w
  /\ (forall send_ok fuel', run2 send_ok fuel' (id r) w' = (w', Return tt)).
Proof.
  intros Hget Hdone Hrec Htz result w'.
  pose proof (run_job_stages clock zones_db true fuel (id r) r w Hget Hdone) as Hrun.
  cbn zeta in Hrun.
  destruct (get_user_frame clock (r_user_id r) w) as (_ & _ & Hq & Hout & _).
  set (w1 := snd (UserStore.get_user clock (r_user_id r) w)) in *.
  assert (Htried : ReminderScheduler.deliver zones_db true r w1
                   = (log_delivery (mk_Delivery (chat_id r) r true) w1, Return tt))
    by (unfold ReminderScheduler.deliver; now rewrite Htz).
  rewrite Htried in Hrun. cbn [fst snd] in Hrun.
  rewrite (after_delivery_one_shot zones_db fuel r _ Hrec) in Hrun.
  cbn [fst snd] in Hrun.
  assert (Hstored : ReminderStore.get (id r) w' = Some (set_done true r))
    by (unfold w', result; rewrite Hrun; apply lookup_insert_eq).
  unfold w', result in *. rewrite Hrun. cbn [fst snd].
  split; [reflexivity|].
  split; [cbn; now rewrite Hout|].
  split; [rewrite Hrun in Hstored; exact Hstored|].
  split; [cbn; exact Hq|].
  intros send_ok fuel'. apply run_job_noop. right. exists (set_done true r).
  rewrite Hrun in Hstored. auto.
Qed.

(** X20.  A reminder whose recurrence has a type other than daily or weekly
    is delivered when its timer fires, but it is neither moved, completed nor
    armed again: the store and the job queue are as before the delivery. *)
Theorem unknown_recurrence_is_left_unarmed
    (send_ok : bool) (fuel : nat) (r : Reminder) (rec : Recurring) (tz : tzinfo) (w : World) :
  ReminderStore.get (id r) w = Some r ->
  done r = false ->
  recurring r = Some rec ->
  dict_truthy rec = true ->
  str_is (rec_type rec) "daily" = false ->
  str_is (rec_type rec) "weekly" = false ->
  zones_db (r_timezone r) = Some tz ->
  let result := run2 send_ok fuel (id r) w in
  let w' := fst result in
  snd result = (if send_ok then Return tt else Raise SendFailed)
  /\ outbox w' = outbox w ++ [mk_Delivery (chat_id r) r send_ok]
  /\ reminders_json w' = reminders_json w
  /\ job_queue w' = job_queue w
  /\ pending (id r) w' = pending (id r) w.
Proof.
  intros Hget Hdone Hrec Htruthy Hnd Hnw Htz result w'.
  pose proof (run_job_stages clock zones_db send_ok fuel (id r) r w Hget Hdone) as Hrun.
  cbn zeta in Hrun.
  destruct (get_user_frame clock (r_user_id r) w) as (Hrem & _ & Hq & Hout & _).
  set (w1 := snd (UserStore.get_user clock (r_user_id r) w)) in *.
  assert (Htried : ReminderScheduler.deliver zones_db send_ok r w1
                   = (log_delivery (mk_Delivery (chat_id r) r send_ok) w1,
                      if send_ok then Return tt else Raise SendFailed))
    by (unfold ReminderScheduler.deliver; rewrite Htz; now destruct send_ok).
  rewrite Htried in Hrun. cbn [fst snd] in Hrun.
  assert (Hafter : forall w2, ReminderScheduler.after_delivery zones_db fuel r w2
                              = (w2, Return tt)).
  { intros w2. unfold ReminderScheduler.after_delivery, is_recurring.
    rewrite Hrec, Htruthy. unfold ReminderScheduler._next_occurrence.
    rewrite Htz, Hrec. cbn [default from_option Datatypes.id].
    now rewrite Hnd, Hnw. }
  rewrite Hafter in Hrun. cbn [fst snd] in Hrun.
  unfold w', result. rewrite Hrun. cbn [fst snd].
  split; [reflexivity|].
  split; [cbn; now rewrite Hout|].
  split; [cbn; exact Hrem|].
  split; [cbn; exact Hq|].
  unfold pending. cbn. now rewrite Hq.
Qed.
End FireMore.

Lemma one_shot_is_delivered_once_witness :
  let w := world_of [r_once_UTC] free_user [] in
  let result := ReminderScheduler._run_reminder_job sample_clock zones true 7 "a4" w in
  snd result = Return tt
  /\ outbox (fst result) = [mk_Delivery 7 r_once_UTC true]
  /\ ReminderScheduler._run_reminder_job sample_clock zones true 7 "a4" (fst result)
     = (fst result, Return tt).
Proof.
  intros w result.
  destruct (one_shot_is_delivered_once sample_clock zones 7 r_once_UTC (StaticTzInfo 0) w
              eq_refl eq_refl eq_refl eq_refl) as (H1 & H2 & _ & _ & H3).
  split; [exact H1|]. split; [exact H2 | apply H3].
Defined.

Lemma unknown_recurrence_is_left_unarmed_witness :
  let r := sample "b5" "UTC" 1000000
             (Some (mk_Recurring (Some "monthly"%string) (Some 1) None None)) in
  let w := world_of [r] free_user [] in
  let result := ReminderScheduler._run_reminder_job sample_clock zones true 7 "b5" w in
  snd result = Return tt
  /\ outbox (fst result) = [mk_Delivery 7 r true]
  /\ reminders_json (fst result) = reminders_json w
  /\ job_queue (fst result) = Some [].
Proof.
  intros r w result.
  destruct (unknown_recurrence_is_left_unarmed sample_clock zones true 7 r
              (mk_Recurring (Some "monthly"%string) (Some 1) None None)
              (StaticTzInfo 0) w eq_refl eq_refl eq_refl eq_refl eq_refl eq_refl eq_refl)
    as (H1 & H2 & H3 & H4 & _).
  auto.
Defined.

Section FireFrame.
Variable clock : nat -> Z.
Variable zones_db : string -> option tzinfo.

(** The three shapes of the world after the [finally] block. *)
Lemma after_delivery_shape (fuel : nat) (r : Reminder) (w : World) :
  let w' := fst (ReminderScheduler.after_delivery zones_db fuel r w) in
  w' = w
  \/ (exists r', id r' = id r /\ w' = ReminderStore.put r' w)
  \/ (exists r' when, id r' = id r
        /\ w' = ReminderScheduler.schedule_once when (id r) (ReminderStore.put r' w)).
Proof.
  unfold ReminderScheduler.after_delivery.
  destruct (is_recurring r).
  - destruct (ReminderScheduler._next_occurrence zones_db fuel r) as [[next|]|e|];
      cbn [fst]; auto.
    right. right. exists (set_when_iso next r), next. auto.
  - cbn [fst]. right. left. exists (set_done true r). auto.
Qed.

(** X21.  Whatever timer fires, the handler removes no reminder, changes at
    most the record under the id of the reminder it read, attempts at most
    one delivery, adds at most one timer (for that id) and cancels none,
    and leaves the codes alone; a store in which every record sits under its
    own id stays so. *)
Theorem fire_handler_frame (send_ok : bool) (fuel : nat) (rid : string) (w : World) :
  let w' := fst (ReminderScheduler._run_reminder_job clock zones_db send_ok fuel rid w) in
  (forall k, is_Some (reminders_json w !! k) -> is_Some (reminders_json w' !! k))
  /\ (ReminderStore.get rid w = None -> w' = w)
  /\ (forall r, ReminderStore.get rid w = Some r ->
        (forall k, k <> id r -> reminders_json w' !! k = reminders_json w !! k)
        /\ (outbox w' = outbox w
            \/ outbox w' = outbox w ++ [mk_Delivery (chat_id r) r send_ok])
        /\ (job_queue w' = job_queue w
            \/ exists jq when, job_queue w = Some jq
                 /\ job_queue w' = Some (jq ++ [mk_Job when (id r) (id r)])))
  /\ codes_json w' = codes_json w
  /\ ((forall k r, reminders_json w !! k = Some r -> id r = k) ->
      (forall k r, reminders_json w' !! k = Some r -> id r = k)).
Proof.
  intros w'.
  destruct (ReminderStore.get rid w) as [r|] eqn:Hget.
  2: { assert (Hsame : w' = w).
       { unfold w', ReminderScheduler._run_reminder_job. now rewrite Hget. }
       rewrite Hsame. repeat split; auto; discriminate. }
  destruct (done r) eqn:Hdone.
  { assert (Hsame : w' = w).
    { unfold w', ReminderScheduler._run_reminder_job. now rewrite Hget, Hdone. }
    rewrite Hsame. repeat split; auto; discriminate. }
  pose proof (run_job_stages clock zones_db send_ok fuel rid r w Hget Hdone) as Hrun.
  cbn zeta in Hrun.
  destruct (get_user_frame clock (r_user_id r) w) as (Hrem & Hcodes & Hq & Hout & _).
  set (w1 := snd (UserStore.get_user clock (r_user_id r) w)) in *.
  assert (Hdel : let w2 := fst (ReminderScheduler.deliver zones_db send_ok r w1) in
                 reminders_json w2 = reminders_json w1 /\ job_queue w2 = job_queue w1
                 /\ codes_json w2 = codes_json w1
                 /\ (outbox w2 = outbox w1
                     \/ outbox w2 = outbox w1 ++ [mk_Delivery (chat_id r) r send_ok])).
  { unfold ReminderScheduler.deliver.
    destruct (zones_db (r_timezone r)); [destruct send_ok|]; cbn; auto. }
  cbn zeta in Hdel.
  set (w2 := fst (ReminderScheduler.deliver zones_db send_ok r w1)) in *.
  destruct Hdel as (Hrem2 & Hq2 & Hcodes2 & Hout2).
  assert (Hw' : w' = fst (ReminderScheduler.after_delivery zones_db fuel r w2))
    by (unfold w'; now rewrite Hrun).
  pose proof (after_delivery_shape fuel r w2) as Hshape. cbn zeta in Hshape.
  rewrite <- Hw' in Hshape.
  assert (Hfacts :
    (reminders_json w' = reminders_json w
     \/ exists r', id r' = id r /\ reminders_json w' = <[id r := r']> (reminders_json w))
    /\ outbox w' = outbox w2
    /\ codes_json w' = codes_json w
    /\ (job_queue w' = job_queue w
        \/ exists jq when, job_queue w = Some jq
             /\ job_queue w' = Some (jq ++ [mk_Job when (id r) (id r)]))).
  { destruct Hshape as [-> | [(r' & Hid & ->) | (r' & when & Hid & ->)]].
    - repeat split; [left|..|left]; congruence.
    - cbn [reminders_json outbox codes_json job_queue ReminderStore.put set_reminders].
      repeat split; [right; exists r'; rewrite Hid; split; congruence | congruence
                    | left; congruence].
    - destruct (schedule_once_frame when (id r) (ReminderStore.put r' w2))
        as (Hr' & _ & Hc' & Ho' & _).
      rewrite Hr', Hc', Ho'.
      cbn [reminders_json outbox codes_json ReminderStore.put set_reminders].
      repeat split; [right; exists r'; rewrite Hid; split; congruence | congruence|].
      assert (Hq3 : job_queue (ReminderStore.put r' w2) = job_queue w)
        by (cbn [job_queue ReminderStore.put set_reminders]; congruence).
      destruct (job_queue w) as [jq|] eqn:Ejq.
      + right. exists jq, when. split; [reflexivity|].
        now apply schedule_once_jobs.
      + left. unfold ReminderScheduler.schedule_once. now rewrite Hq3. }
  destruct Hfacts as (Hstore & Houtbox & Hcodes' & Hqueue).
  split.
  { intros k Hk. destruct Hstore as [-> | (r' & _ & ->)]; [exact Hk|].
    destruct (decide (id r = k)) as [->|Hne];
      [rewrite lookup_insert_eq; eauto | now rewrite lookup_insert_ne]. }
  split; [discriminate|].
  split.
  { intros r0 Hr0. inversion Hr0; subst r0. split; [|split].
    - intros k Hk. destruct Hstore as [-> | (r' & _ & ->)]; [reflexivity|].
      now rewrite lookup_insert_ne.
    - rewrite Houtbox, <- Hout. exact Hout2.
    - exact Hqueue. }
  split; [exact Hcodes'|].
  intros Hkeyed k r0 Hk.
  destruct Hstore as [Hs | (r' & Hid & Hs)]; rewrite Hs in Hk; [now apply Hkeyed|].
  destruct (decide (id r = k)) as [<-|Hne].
  - rewrite lookup_insert_eq in Hk. inversion Hk; subst. exact Hid.
  - rewrite lookup_insert_ne in Hk by exact Hne. now apply Hkeyed.
Qed.
End FireFrame.

Lemma fire_handler_frame_witness :
  let w := world_of [r_once_UTC; r_daily_UTC] free_user [] in
  let w' := fst (ReminderScheduler._run_reminder_job sample_clock zones true 7 "a3" w) in
  reminders_json w' !! "a4"%string = Some r_once_UTC
  /\ is_Some (reminders_json w' !! "a3"%string)
  /\ (forall k r, reminders_json w' !! k = Some r -> id r = k).
Proof.
  intros w w'.
  destruct (fire_handler_frame sample_clock zones true 7 "a3" w)
    as (Hkeep & _ & Hone & _ & Hkeyed).
  destruct (Hone r_daily_UTC eq_refl) as (Hother & _).
  split; [rewrite Hother by discriminate; reflexivity|].
  split; [apply Hkeep; exists r_daily_UTC; reflexivity|].
  apply Hkeyed. intros k r Hk.
  unfold w, world_of in Hk. cbn [reminders_json fmap list_fmap list_to_map foldr
    uncurry fst snd Datatypes.uncurry] in Hk.
  destruct (decide (k = "a4"%string)) as [->|N4].
  - rewrite lookup_insert_eq in Hk. inversion Hk. reflexivity.
  - rewrite lookup_insert_ne in Hk by (cbn; congruence).
    destruct (decide (k = "a3"%string)) as [->|N3].
    + rewrite lookup_insert_eq in Hk. inversion Hk. reflexivity.
    + rewrite lookup_insert_ne in Hk by (cbn; congruence).
      rewrite lookup_empty in Hk. discriminate.
Defined.

(** ** The weekly recurrence in closed form *)

Section WeeklyClosedForm.
Variable zones_db : string -> option tzinfo.

(** X22.  For a weekly descriptor whose target day is between 0 and 6 or
    absent, the next occurrence is the stored instant plus [interval] weeks
    plus the days from the weekday of the last local instant forward to the
    target day, when that is a [datetime]: the [timedelta] of [interval]
    weeks can be made (at most 999999999 days), and the wall clock values
    the calculator passes and the result in UTC are within the years 1 to
    9999.  Otherwise the calculator raises [OverflowError].  The days ahead
    are between 0 and 6, and 0 when the target day is absent or is the
    weekday of the last local instant. *)
Theorem weekly_next_occurrence_closed_form
    (fuel : nat) (r : Reminder) (rec : Recurring) (tz : tzinfo) :
  zones_db (r_timezone r) = Some tz ->
  recurring r = Some rec ->
  rec_type rec = Some "weekly"%string ->
  (forall d, rec_dow rec = Some d -> 0 <= d <= 6) ->
  (7 <= fuel)%nat ->
  let base := astimezone tz (when_iso r) in
  let k := default 1 (rec_interval rec) in
  let dow := default (weekday base) (rec_dow rec) in
  let ahead := (dow - weekday base) mod 7 in
  let next := when_iso r + timedelta_weeks k + timedelta_days ahead in
  let is_datetime :=
    -999999999 <= 7 * k <= 999999999
    /\ datetime_min <= naive base + timedelta_weeks k
    /\ naive base + timedelta_weeks k + timedelta_days ahead <= datetime_max
    /\ datetime_min <= next <= datetime_max in
  (is_datetime ->
   ReminderScheduler._next_occurrence zones_db fuel r = Return (Some next))
  /\ (~ is_datetime ->
      ReminderScheduler._next_occurrence zones_db fuel r = Raise OverflowError)
  /\ 0 <= ahead <= 6
  /\ (rec_dow rec = None \/ rec_dow rec = Some (weekday base) -> ahead = 0).
Proof.
  intros Htz Hrec Hkind Hdow Hfuel base k dow ahead next is_datetime.
  pose proof (weekday_range base) as Hb.
  assert (Hrange : 0 <= dow < 7).
  { unfold dow. destruct (rec_dow rec) as [d|]; cbn; [specialize (Hdow d eq_refl)|]; lia. }
  pose proof (Z.mod_pos_bound (dow - weekday base) 7 ltac:(lia)) as Ha.
  fold ahead in Ha.
  destruct (next_occurrence_weekly zones_db fuel r rec tz Htz Hrec Hkind Hrange Hfuel)
    as (Hnext & _).
  assert (Hdays : days_to_next tz r rec = 7 * k + ahead).
  { unfold days_to_next. rewrite Hkind. reflexivity. }
  assert (Hiff : next_is_datetime tz r rec = true <-> is_datetime).
  { unfold next_is_datetime. rewrite Hdays, Hkind.
    cbn [str_is String.eqb Ascii.eqb Bool.eqb]. fold k base.
    rewrite !andb_true_iff, !in_range_true, !Z.leb_le.
    unfold is_datetime, next, timedelta_weeks, timedelta_days. lia. }
  rewrite Hdays in Hnext.
  replace (when_iso r + timedelta_days (7 * k + ahead)) with next in Hnext
    by (unfold next, timedelta_weeks, timedelta_days; lia).
  split; [|split; [|split; [lia|]]].
  - intros Hyes. apply Hiff in Hyes. now rewrite Hyes in Hnext.
  - intros Hno. destruct (next_is_datetime tz r rec) eqn:E; [|exact Hnext].
    exfalso. apply Hno, Hiff. reflexivity.
  - intros Hsame. unfold ahead.
    assert (Hd : dow = weekday base)
      by (unfold dow; destruct Hsame as [-> | ->]; reflexivity).
    rewrite Hd, Z.sub_diag. reflexivity.
Qed.
End WeeklyClosedForm.

Lemma weekly_next_occurrence_closed_form_witness :
  ReminderScheduler._next_occurrence zones 7
    (sample "b6" "UTC" 1000000 (Some (weekly 2 (Some 0))))
  = Return (Some (1000000 + timedelta_weeks 2 + timedelta_days 4))
  /\ ReminderScheduler._next_occurrence zones 7
       (sample "b7" "UTC" 1000000 (Some (weekly 500000 None)))
     = Raise OverflowError.
Proof.
  destruct (weekly_next_occurrence_closed_form zones 7
              (sample "b6" "UTC" 1000000 (Some (weekly 2 (Some 0))))
              (weekly 2 (Some 0)) (StaticTzInfo 0)) as (Hyes & _);
    [reflexivity | reflexivity | reflexivity | intros d Hd; inversion Hd; lia | lia |].
  destruct (weekly_next_occurrence_closed_form zones 7
              (sample "b7" "UTC" 1000000 (Some (weekly 500000 None)))
              (weekly 500000 None) (StaticTzInfo 0)) as (_ & Hno & _);
    [reflexivity | reflexivity | reflexivity | intros d Hd; discriminate Hd | lia |].
  split.
  - apply Hyes. vm_compute. repeat split; discriminate.
  - apply Hno. intros (_ & _ & Hmax & _). vm_compute in Hmax. apply Hmax. reflexivity.
Defined.

(** ** Tiers and features *)

Lemma tier_info_cases (p : UserProfile) :
  get_user_tier_info p = FREE_info \/ get_user_tier_info p = SILVER_info
  \/ get_user_tier_info p = GOLD_info \/ get_user_tier_info p = PLATINUM_info.
Proof.
  destruct (is_premium p) eqn:Hp; [|left; now apply tier_info_not_premium].
  destruct (known_tier (premium_tier p)) eqn:Hk;
    [|left; now apply tier_info_unknown_tier].
  unfold get_user_tier_info. rewrite Hp. unfold known_tier in Hk.
  repeat (apply orb_true_iff in Hk; destruct Hk as [Hk|Hk]);
    apply String.eqb_eq in Hk; rewrite Hk; cbn; auto.
Qed.

(** X23.  Whatever a profile holds, its limits are those of one of the four
    tiers: between 20 and 1000 active reminders and between 1 and 10 snoozes;
    the two basic features are always there, every feature a profile has is
    one PLATINUM has, and smart scheduling (the gate of the edit button and
    of smart create) is there exactly for a premium profile on GOLD or
    PLATINUM. *)
Theorem tier_limits_are_bounded (p : UserProfile) :
  20 <= max_active (get_user_tier_info p) <= 1000
  /\ 1 <= CreditPolicy.get_snooze_limit p <= 10
  /\ has_feature p "basic_reminders" = true
  /\ has_feature p "simple_recurring" = true
  /\ (forall f, has_feature p f = true -> f ∈ features PLATINUM_info)
  /\ (has_feature p "smart_scheduling" = true
      <-> is_premium p = true
          /\ (premium_tier p = "GOLD"%string \/ premium_tier p = "PLATINUM"%string)).
Proof.
  unfold CreditPolicy.get_snooze_limit, has_feature.
  split; [destruct (tier_info_cases p) as [-> | [-> | [-> | ->]]]; cbn; lia|].
  split; [destruct (tier_info_cases p) as [-> | [-> | [-> | ->]]]; cbn; lia|].
  split; [destruct (tier_info_cases p) as [-> | [-> | [-> | ->]]]; reflexivity|].
  split; [destruct (tier_info_cases p) as [-> | [-> | [-> | ->]]]; reflexivity|].
  split.
  - intros f Hf. apply bool_decide_eq_true in Hf.
    destruct (tier_info_cases p) as [H | [H | [H | H]]]; rewrite H in Hf;
      cbn [features FREE_info SILVER_info GOLD_info PLATINUM_info] in Hf;
      repeat (apply elem_of_cons in Hf; destruct Hf as [->|Hf]);
      try (apply elem_of_nil in Hf; contradiction);
      apply (bool_decide_unpack _); vm_compute; exact I.
  - split.
    + intros Hf.
      destruct (is_premium p) eqn:Hp.
      * split; [reflexivity|].
        destruct (known_tier (premium_tier p)) eqn:Hk.
        -- unfold known_tier in Hk.
           repeat (apply orb_true_iff in Hk; destruct Hk as [Hk|Hk]);
             apply String.eqb_eq in Hk; auto;
             unfold get_user_tier_info in Hf; rewrite Hp, Hk in Hf; discriminate Hf.
        -- rewrite (tier_info_unknown_tier p Hk) in Hf. discriminate Hf.
      * rewrite (tier_info_not_premium p Hp) in Hf. discriminate Hf.
    + intros [Hp [Ht | Ht]]; unfold get_user_tier_info; rewrite Hp, Ht; reflexivity.
Qed.

Lemma tier_limits_are_bounded_witness :
  has_feature gold_user "smart_scheduling" = true
  /\ has_feature free_user "basic_reminders" = true
  /\ "smart_scheduling"%string ∈ features PLATINUM_info.
Proof.
  destruct (tier_limits_are_bounded gold_user) as (_ & _ & _ & _ & Hall & Hsmart).
  destruct (tier_limits_are_bounded free_user) as (_ & _ & Hbasic & _).
  assert (Hgold : has_feature gold_user "smart_scheduling" = true)
    by (apply Hsmart; split; [reflexivity | left; reflexivity]).
  split; [exact Hgold|]. split; [exact Hbasic|]. apply Hall. exact Hgold.
Defined.

(** ** Admin grants and the zone setting *)

Section Admin.
Variable clock : nat -> Z.

(** X24.  [/grant]: a sender who is not an admin changes nothing.  For an
    admin, a credits grant adds the amount (of either sign) to the balance of
    the target, a premium grant makes the target premium on the tier it has,
    with its balance untouched, and any other usage is answered as invalid,
    after the profile of the target has been made if it did not exist.  No
    reminder and no timer is touched. *)
Theorem cmd_grant_effects
    (ADMIN_IDS : gset Z) (caller target : Z) (action : string) (amt : option Z) (w : World) :
  let profile := fst (UserStore.get_user clock target w) in
  let w0 := snd (UserStore.get_user clock target w) in
  let result := Commands.cmd_grant clock ADMIN_IDS caller target action amt w in
  (caller ∉ ADMIN_IDS -> result = (w, AdminsOnly))
  /\ (caller ∈ ADMIN_IDS ->
      (forall a, action = "credits"%string -> amt = Some a ->
         snd result = GrantedCredits a target
         /\ users_json (fst result) !! user_id profile
            = Some (set_credits (credits profile + a) profile))
      /\ (action = "premium"%string ->
          snd result = GrantedPremium target
          /\ exists p, users_json (fst result) !! user_id profile = Some p
               /\ is_premium p = true /\ premium_tier p = premium_tier profile
               /\ credits p = credits profile)
      /\ (action <> "premium"%string -> action <> "credits"%string \/ amt = None ->
          result = (w0, InvalidGrantUsage)
          /\ users_json w0 !! target = Some profile))
  /\ reminders_json (fst result) = reminders_json w
  /\ job_queue (fst result) = job_queue w.
Proof.
  intros profile w0 result.
  destruct (get_user_frame clock target w) as (Hrem & _ & Hq & _ & _).
  fold w0 in Hrem, Hq.
  pose proof (get_user_stored clock target w) as Hstored.
  rewrite (surjective_pairing (UserStore.get_user clock target w)) in Hstored.
  fold profile w0 in Hstored.
  assert (Hres : result
    = if negb (bool_decide (caller ∈ ADMIN_IDS)) then (w, AdminsOnly)
      else match String.eqb action "credits", amt with
           | true, Some a =>
               (UserStore.put_user (set_credits (credits profile + a) profile) w0,
                GrantedCredits a target)
           | _, _ =>
               if String.eqb action "premium" then
                 (UserStore.put_user (set_premium (premium_tier profile) profile) w0,
                  GrantedPremium target)
               else (w0, InvalidGrantUsage)
           end).
  { unfold result, Commands.cmd_grant. subst profile w0.
    now destruct (UserStore.get_user clock target w). }
  split; [|split; [|split]].
  - intros Hno. rewrite Hres, bool_decide_eq_false_2 by exact Hno. reflexivity.
  - intros Hyes. rewrite bool_decide_eq_true_2 in Hres by exact Hyes. cbn [negb] in Hres.
    split; [|split].
    + intros a -> ->. rewrite Hres. cbn [String.eqb Ascii.eqb Bool.eqb fst snd].
      split; [reflexivity | apply lookup_insert_eq].
    + intros ->. rewrite Hres.
      change (String.eqb "premium" "credits") with false.
      change (String.eqb "premium" "premium") with true.
      cbn iota. cbn [fst snd]. split; [reflexivity|].
      exists (set_premium (premium_tier profile) profile).
      split; [apply lookup_insert_eq | repeat split].
    + intros Hnp Hnc. apply String.eqb_neq in Hnp.
      split; [|exact Hstored].
      rewrite Hres, Hnp.
      destruct Hnc as [Hnc | ->].
      * apply String.eqb_neq in Hnc. rewrite Hnc. reflexivity.
      * now destruct (String.eqb action "credits").
  - rewrite Hres. destruct (negb (bool_decide (caller ∈ ADMIN_IDS))); [reflexivity|].
    destruct (String.eqb action "credits"), amt, (String.eqb action "premium");
      cbn; exact Hrem.
  - rewrite Hres. destruct (negb (bool_decide (caller ∈ ADMIN_IDS))); [reflexivity|].
    destruct (String.eqb action "credits"), amt, (String.eqb action "premium");
      cbn; exact Hq.
Qed.

(** X25.  The zone setting: a name that is not in [pytz.all_timezones] is
    refused and the profile stays as it is; a name that is in it becomes the
    zone of the profile and nothing else of the profile changes.  Either way
    the reminders that are stored keep the zone they were created in. *)
Theorem settings_timezone_effects
    (all_timezones : list string) (user : Z) (tz_name : string) (w : World) :
  let profile := fst (UserStore.get_user clock user w) in
  let w0 := snd (UserStore.get_user clock user w) in
  let result := Commands.settings_timezone clock all_timezones user tz_name w in
  (tz_name ∉ all_timezones ->
   result = (w0, InvalidTimezone) /\ users_json w0 !! user = Some profile)
  /\ (tz_name ∈ all_timezones ->
      snd result = TimezoneUpdated tz_name
      /\ exists p, users_json (fst result) !! user_id profile = Some p
           /\ timezone p = tz_name
           /\ is_premium p = is_premium profile
           /\ premium_tier p = premium_tier profile
           /\ credits p = credits profile
           /\ first_seen p = first_seen profile)
  /\ reminders_json (fst result) = reminders_json w
  /\ (forall k r, ReminderStore.get k w = Some r ->
        exists r', ReminderStore.get k (fst result) = Some r'
                   /\ r_timezone r' = r_timezone r).
Proof.
  intros profile w0 result.
  destruct (get_user_frame clock user w) as (Hrem & _).
  fold w0 in Hrem.
  pose proof (get_user_stored clock user w) as Hstored.
  rewrite (surjective_pairing (UserStore.get_user clock user w)) in Hstored.
  fold profile w0 in Hstored.
  assert (Hres : result
    = if negb (bool_decide (tz_name ∈ all_timezones)) then (w0, InvalidTimezone)
      else (UserStore.put_user
              (mk_UserProfile (user_id profile) tz_name (is_premium profile)
                 (premium_tier profile) (credits profile) (name profile)
                 (username profile) (first_seen profile) (last_seen profile)
                 (preferences profile) (usage_stats profile)) w0,
            TimezoneUpdated tz_name)).
  { unfold result, Commands.settings_timezone. subst profile w0.
    now destruct (UserStore.get_user clock user w). }
  assert (Hrems : reminders_json (fst result) = reminders_json w).
  { rewrite Hres. destruct (negb (bool_decide (tz_name ∈ all_timezones))); cbn;
      exact Hrem. }
  split; [|split; [|split]].
  - intros Hno. rewrite Hres, bool_decide_eq_false_2 by exact Hno. auto.
  - intros Hyes. rewrite Hres, bool_decide_eq_true_2 by exact Hyes. cbn [negb fst snd].
    split; [reflexivity|]. eexists. split; [apply lookup_insert_eq|]. repeat split.
  - exact Hrems.
  - intros k r Hk. exists r. unfold ReminderStore.get in *. now rewrite Hrems.
Qed.
End Admin.

Lemma cmd_grant_effects_witness :
  let w := world_of [] free_user [] in
  Commands.cmd_grant sample_clock {[ 1 ]} 7 7 "credits" (Some 1000) w = (w, AdminsOnly)
  /\ (users_json (fst (Commands.cmd_grant sample_clock {[ 1 ]} 1 7 "credits" (Some (-20)) w))
        !! 7 ≫= fun p => Some (credits p)) = Some (-5)
  /\ snd (Commands.cmd_grant sample_clock {[ 1 ]} 1 7 "premium" None w) = GrantedPremium 7
  /\ snd (Commands.cmd_grant sample_clock {[ 1 ]} 1 9 "credits" None w) = InvalidGrantUsage.
Proof.
  intros w.
  destruct (cmd_grant_effects sample_clock {[ 1 ]} 7 7 "credits" (Some 1000) w)
    as (Hno & _).
  destruct (cmd_grant_effects sample_clock {[ 1 ]} 1 7 "credits" (Some (-20)) w)
    as (_ & Hcred & _).
  destruct (cmd_grant_effects sample_clock {[ 1 ]} 1 7 "premium" None w)
    as (_ & Hprem & _).
  destruct (cmd_grant_effects sample_clock {[ 1 ]} 1 9 "credits" None w)
    as (_ & Hbad & _).
  assert (Hadmin : (1 : Z) ∈ ({[ 1 ]} : gset Z)) by (apply elem_of_singleton; reflexivity).
  assert (Hnot : (7 : Z) ∉ ({[ 1 ]} : gset Z))
    by (intros H; apply elem_of_singleton in H; discriminate H).
  split; [apply Hno; exact Hnot|].
  split.
  - destruct (Hcred Hadmin) as (Hc & _). destruct (Hc (-20) eq_refl eq_refl) as (_ & Hu).
    change (user_id (UserStore.get_user sample_clock 7 w).1) with 7 in Hu.
    rewrite Hu. reflexivity.
  - split.
    + destruct (Hprem Hadmin) as (_ & Hp & _). destruct (Hp eq_refl) as (Hp' & _).
      exact Hp'.
    + destruct (Hbad Hadmin) as (_ & _ & Hb).
      destruct Hb as (Hb & _); [discriminate | right; reflexivity|]. now rewrite Hb.
Defined.

Lemma settings_timezone_effects_witness :
  let w := world_of [r_once_UTC] free_user [] in
  let zone_names := ["UTC"; "Europe/Berlin"]%string in
  snd (Commands.settings_timezone sample_clock zone_names 7 "Mars/Olympus" w)
  = InvalidTimezone
  /\ (exists p,
        users_json (fst (Commands.settings_timezone sample_clock zone_names 7
                           "Europe/Berlin" w)) !! 7 = Some p
        /\ timezone p = "Europe/Berlin"%string /\ credits p = 15)
  /\ (exists r',
        ReminderStore.get "a4" (fst (Commands.settings_timezone sample_clock zone_names 7
                                       "Europe/Berlin" w)) = Some r'
        /\ r_timezone r' = "UTC"%string).
Proof.
  intros w zone_names.
  destruct (settings_timezone_effects sample_clock zone_names 7 "Mars/Olympus" w)
    as (Hbad & _).
  destruct (settings_timezone_effects sample_clock zone_names 7 "Europe/Berlin" w)
    as (_ & Hgood & _ & Hkeep).
  split.
  - destruct Hbad as (Hb & _); [|now rewrite Hb].
    intros H. repeat (apply elem_of_cons in H; destruct H as [H|H]; [discriminate H|]).
    now apply elem_of_nil in H.
  - split.
    + destruct Hgood as (_ & p & Hp & Htz & _ & _ & Hc & _).
      { apply elem_of_cons. right. apply elem_of_cons. left. reflexivity. }
      exists p. auto.
    + apply (Hkeep "a4"%string r_once_UTC). reflexivity.
Defined.

(** ** A deployment without a job queue *)

Section NoJobQueue.
Variable clock : nat -> Z.
Variable zones_db : string -> option tzinfo.

(** Without a job queue the start-up loop reads the clock and nothing else. *)
Lemma schedule_all_without_queue (rs : list Reminder) :
  forall w : World,
    job_queue w = None ->
    let w' := ReminderScheduler.schedule_all clock rs w in
    job_queue w' = None
    /\ reminders_json w' = reminders_json w
    /\ users_json w' = users_json w
    /\ codes_json w' = codes_json w
    /\ outbox w' = outbox w.
Proof.
  induction rs as [|r rs IH]; intros w Hq; cbn [ReminderScheduler.schedule_all].
  - auto.
  - assert (Hstep : let w1 := ReminderScheduler.schedule_on_startup clock r w in
                    job_queue w1 = None
                    /\ reminders_json w1 = reminders_json w
                    /\ users_json w1 = users_json w
                    /\ codes_json w1 = codes_json w
                    /\ outbox w1 = outbox w).
    { unfold ReminderScheduler.schedule_on_startup, ReminderScheduler.schedule_once,
        now_utc.
      destruct (done r); [auto|].
      cbn [ticks tick job_queue]. rewrite Hq.
      destruct (when_iso r <? clock (ticks w)); cbn; rewrite ?Hq; auto. }
    cbn zeta in Hstep. destruct Hstep as (Hq1 & Hr1 & Hu1 & Hc1 & Ho1).
    destruct (IH _ Hq1) as (Hq2 & Hr2 & Hu2 & Hc2 & Ho2).
    cbn zeta in *. repeat split; congruence.
Qed.

(** X26.  When the application has no job queue, [schedule_once] returns
    without doing anything: the start-up pass arms nothing and changes no
    store, there is no job to run, and a reminder that [create_text] accepts
    is stored as open, and paid for, with no timer behind it. *)
Theorem without_job_queue_nothing_is_armed (w : World) :
  job_queue w = None ->
  (forall when rid, ReminderScheduler.schedule_once when rid w = w)
  /\ (let w' := ReminderScheduler.schedule_all_on_startup clock w in
      job_queue w' = None
      /\ reminders_json w' = reminders_json w
      /\ users_json w' = users_json w
      /\ outbox w' = outbox w)
  /\ (forall send_ok fuel i,
        ReminderScheduler.fire clock zones_db send_ok fuel i w = None)
  /\ (forall user chat what temp_when_dt new_id,
        let result := Creation.create_text clock user chat what temp_when_dt new_id w in
        job_queue (fst result) = None
        /\ forall reminder cost,
             snd result = ReminderCreated reminder cost ->
             ReminderStore.get new_id (fst result) = Some reminder
             /\ done reminder = false
             /\ cost = CreditPolicy.consume_on_create
                         (fst (UserStore.get_user clock user w))).
Proof.
  intros Hq. split; [|split; [|split]].
  - intros when rid. unfold ReminderScheduler.schedule_once. now rewrite Hq.
  - destruct (schedule_all_without_queue (ReminderStore.all w) w Hq)
      as (H1 & H2 & H3 & _ & H5).
    unfold ReminderScheduler.schedule_all_on_startup. auto.
  - intros send_ok fuel i. unfold ReminderScheduler.fire. now rewrite Hq.
  - intros user chat what temp_when_dt new_id result.
    destruct (get_user_frame clock user w) as (_ & _ & Hq0 & _ & _).
    rewrite Hq in Hq0.
    pose proof (create_text_unfold clock user chat what temp_when_dt new_id w) as Hun.
    cbn zeta in Hun. fold result in Hun.
    set (profile := fst (UserStore.get_user clock user w)) in *.
    set (w0 := snd (UserStore.get_user clock user w)) in *.
    pose proof (admit_and_charge_cases user profile w0) as Hcases.
    cbn zeta in Hcases.
    destruct (Creation.admit_and_charge user profile w0) as [reason|[[p' cost'] w1]].
    + rewrite Hun. cbn [fst snd]. split; [exact Hq0 | intros ? ? [=]].
    + destruct Hcases as (_ & _ & _ & Hq1 & _ & _ & _ & Hcost).
      rewrite Hq0 in Hq1.
      set (when := default (clock (ticks w1)) temp_when_dt) in *.
      set (w2 := match temp_when_dt with Some _ => w1 | None => tick w1 end) in *.
      set (reminder0 := new_reminder new_id chat user what when (timezone p')
                          (clock (ticks w2)) None) in *.
      assert (Hq2 : job_queue (ReminderStore.put reminder0 (tick w2)) = None).
      { unfold ReminderStore.put. cbn. subst w2. destruct temp_when_dt; exact Hq1. }
      assert (Hsame : ReminderScheduler.schedule_once when new_id
                        (ReminderStore.put reminder0 (tick w2))
                      = ReminderStore.put reminder0 (tick w2)).
      { unfold ReminderScheduler.schedule_once. now rewrite Hq2. }
      rewrite Hsame in Hun. rewrite Hun. cbn [fst snd].
      split; [exact Hq2|].
      intros reminder cost [= <- <-].
      split; [|split].
      * unfold ReminderStore.get, ReminderStore.put. cbn. apply lookup_insert_eq.
      * reflexivity.
      * unfold CreditPolicy.consume_on_create.
        destruct (is_premium profile); now destruct Hcost as (-> & _).
Qed.
End NoJobQueue.

Lemma without_job_queue_nothing_is_armed_witness :
  let w := set_job_queue None (world_of [r_once_UTC] free_user []) in
  job_queue (ReminderScheduler.schedule_all_on_startup sample_clock w) = None
  /\ ReminderScheduler.fire sample_clock zones true 8%nat 0%nat w = None
  /\ job_queue (fst (Creation.create_text sample_clock 7 7 "tea" None "n1" w)) = None.
Proof.
  intros w.
  destruct (without_job_queue_nothing_is_armed sample_clock zones w eq_refl)
    as (_ & (Hstart & _) & Hfire & Hcreate).
  split; [exact Hstart|]. split; [apply Hfire|].
  destruct (Hcreate 7 7 "tea"%string None "n1"%string) as (Hq & _). exact Hq.
Defined.

(** ** Letter case of a redeem code *)

Lemma ascii_upper_char_idempotent (c : ascii) :
  ascii_upper_char (ascii_upper_char c) = ascii_upper_char c.
Proof.
  destruct c as [[] [] [] [] [] [] [] []]; vm_compute; reflexivity.
Qed.

Lemma ascii_upper_idempotent (s : string) : ascii_upper (ascii_upper s) = ascii_upper s.
Proof.
  induction s as [|c s IH]; [reflexivity|].
  cbn [ascii_upper]. now rewrite ascii_upper_char_idempotent, IH.
Qed.

Section RedeemCase.
Variable clock : nat -> Z.
(** [str.upper] *)
Variable upper : string -> string.
Abbreviation by_text := (Handlers.on_text_message clock upper).
Abbreviation by_command := (Commands.cmd_redeem clock upper).

(** [get_user] does not look at the codes. *)
Lemma get_user_set_codes (m : gmap string RedeemCode) (user : Z) (w : World) :
  UserStore.get_user clock user (set_codes m w)
  = (fst (UserStore.get_user clock user w),
     set_codes m (snd (UserStore.get_user clock user w))).
Proof.
  unfold UserStore.get_user. cbn [users_json set_codes].
  destruct (users_json w !! user); reflexivity.
Qed.

Lemma inc_used_other_key (k' k : string) (w : World) :
  k' <> k -> codes_json (CodesStore.inc_used k' w) !! k = codes_json w !! k.
Proof.
  intros Hne. unfold CodesStore.inc_used.
  destruct (codes_json w !! k'); [|reflexivity].
  cbn [codes_json set_codes]. now rewrite lookup_insert_ne.
Qed.

(** What a redeem handler answers, and what it leaves under a key other than
    the one it looks up, in a world whose codes are [m]. *)
Lemma redeem_reads_one_key (user : Z) (text k : string) (m : gmap string RedeemCode)
    (w : World) :
  let profile := fst (UserStore.get_user clock user w) in
  let w0 := snd (UserStore.get_user clock user w) in
  upper text <> k ->
  forall handler,
    handler = by_text \/ handler = by_command ->
    exists reply : option RedeemCode -> Reply,
      (forall m', m' !! upper text = m !! upper text ->
         snd (handler user text (set_codes m' w)) = reply (m !! upper text))
      /\ ((forall c', m !! upper text = Some c' -> code c' = upper text) ->
          codes_json (fst (handler user text (set_codes m w))) !! k = m !! k).
Proof.
  intros profile w0 Hne handler Hhandler.
  exists (fun found =>
            match found with
            | None => InvalidCode
            | Some c =>
                if match expires_at c with
                   | Some e => e <? clock (ticks w0)
                   | None => false
                   end then CodeExpired
                else if used c >=? max_uses c then FullyRedeemed
                else if String.eqb (kind c) "credits" then
                  CreditsAdded (amount c) (credits profile + amount c)
                else if String.eqb (kind c) "premium" then PremiumActivated
                else if String.eqb (kind c) "plan" then
                  PlanActivated (Handlers.plan_or_PREMIUM c)
                    (max_active (get_user_tier_info
                                   (set_premium (Handlers.plan_or_PREMIUM c) profile)))
                    (snooze_limit (get_user_tier_info
                                     (set_premium (Handlers.plan_or_PREMIUM c) profile)))
                else UnknownCodeType
            end).
  split.
  - intros m' Hsame.
    destruct Hhandler as [-> | ->];
      unfold Handlers.on_text_message, Commands.cmd_redeem;
      rewrite get_user_set_codes; fold profile w0;
      unfold CodesStore.get; cbn [codes_json set_codes]; rewrite Hsame;
      (destruct (m !! upper text) as [c|]; [|reflexivity]);
      (destruct (expires_at c) as [e|]; unfold now_utc; cbn [ticks set_codes];
       [destruct (e <? clock (ticks w0))|]; [reflexivity | |]);
      (destruct (used c >=? max_uses c); [reflexivity|]);
      (destruct (String.eqb (kind c) "credits"); [reflexivity|]);
      (destruct (String.eqb (kind c) "premium"); [reflexivity|]);
      (destruct (String.eqb (kind c) "plan"); reflexivity).
  - intros Hown.
    destruct Hhandler as [-> | ->];
      unfold Handlers.on_text_message, Commands.cmd_redeem;
      rewrite get_user_set_codes; fold profile w0;
      unfold CodesStore.get; cbn [codes_json set_codes];
      (destruct (m !! upper text) as [c|] eqn:Hfound; [|reflexivity]);
      specialize (Hown c eq_refl);
      (destruct (expires_at c) as [e|]; unfold now_utc; cbn [ticks set_codes];
       [destruct (e <? clock (ticks w0))|]; [reflexivity | |]);
      (destruct (used c >=? max_uses c); [reflexivity|]);
      (destruct (String.eqb (kind c) "credits");
       [cbn [fst]; rewrite inc_used_other_key by congruence; reflexivity|]);
      (destruct (String.eqb (kind c) "premium");
       [cbn [fst]; rewrite inc_used_other_key by congruence; reflexivity|]);
      (destruct (String.eqb (kind c) "plan");
       [cbn [fst]; rewrite inc_used_other_key by congruence; reflexivity
       | reflexivity]).
Qed.

(** X27.  Both redeem flows look the code up under [text.upper()].  Two
    texts with the same upper-case form are treated alike, and so are a text
    and its upper-case form when upper-casing it twice gives what once gives.
    The record filed under a key is reached only by the texts whose
    upper-case form is that key: for any other text the answer is the one
    given had the key been absent, and, in a store where the matched code is
    filed under its own name, the record under the key is left as it is.
    With [str.upper] idempotent, a key that is not its own upper-case form
    (one with a lower-case letter) is the upper-case form of no text, so the
    code filed under it is redeemed by no text. *)
Theorem redeem_ignores_letter_case
    (user : Z) (text text' k : string) (c : RedeemCode) (w : World) :
  let with_k := set_codes (<[k := c]> (codes_json w)) w in
  let without_k := set_codes (base.delete k (codes_json w)) w in
  (upper text = upper text' ->
   by_text user text w = by_text user text' w
   /\ by_command user text w = by_command user text' w)
  /\ (upper (upper text) = upper text ->
      by_text user (upper text) w = by_text user text w
      /\ by_command user (upper text) w = by_command user text w)
  /\ (upper text <> k ->
      snd (by_text user text with_k) = snd (by_text user text without_k)
      /\ snd (by_command user text with_k) = snd (by_command user text without_k)
      /\ ((forall c', codes_json with_k !! upper text = Some c' ->
             code c' = upper text) ->
          codes_json (fst (by_text user text with_k)) !! k = Some c
          /\ codes_json (fst (by_command user text with_k)) !! k = Some c))
  /\ ((forall s, upper (upper s) = upper s) -> upper k <> k -> upper text <> k).
Proof.
  intros with_k without_k.
  assert (Hsame : forall t t', upper t = upper t' ->
            by_text user t w = by_text user t' w
            /\ by_command user t w = by_command user t' w).
  { intros t t' Heq. unfold Handlers.on_text_message, Commands.cmd_redeem.
    now rewrite Heq. }
  split; [apply Hsame|]. split; [apply Hsame|]. split.
  - intros Hne.
    set (m := <[k := c]> (codes_json w)).
    assert (Hdel : base.delete k (codes_json w) !! upper text = m !! upper text).
    { unfold m. rewrite lookup_delete_ne, lookup_insert_ne by congruence.
      reflexivity. }
    destruct (redeem_reads_one_key user text k m w Hne by_text (or_introl eq_refl))
      as (reply1 & Hreply1 & Hkept1).
    destruct (redeem_reads_one_key user text k m w Hne by_command (or_intror eq_refl))
      as (reply2 & Hreply2 & Hkept2).
    split; [|split].
    + unfold with_k, without_k. fold m.
      now rewrite (Hreply1 m eq_refl), (Hreply1 _ Hdel).
    + unfold with_k, without_k. fold m.
      now rewrite (Hreply2 m eq_refl), (Hreply2 _ Hdel).
    + intros Hown. unfold with_k in *. fold m in Hown |- *.
      cbn [codes_json set_codes] in Hown.
      rewrite (Hkept1 Hown), (Hkept2 Hown). unfold m.
      rewrite lookup_insert_eq. auto.
  - intros Hidem Hk Heq. apply Hk. rewrite <- Heq. apply Hidem.
Qed.
End RedeemCase.

Lemma redeem_ignores_letter_case_witness :
  let w := world_with_codes in
  let lower := set_codes (<["cr-new"%string := credit_code]> (codes_json w)) w in
  Handlers.on_text_message sample_clock ascii_upper 7 "cr-0ld" w
  = Handlers.on_text_message sample_clock ascii_upper 7 "CR-0LD" w
  /\ snd (Handlers.on_text_message sample_clock ascii_upper 7 "cr-new" lower)
     = InvalidCode
  /\ snd (Commands.cmd_redeem sample_clock ascii_upper 7 "CR-NEW" lower) = InvalidCode
  /\ codes_json (fst (Handlers.on_text_message sample_clock ascii_upper 7 "cr-new" lower))
       !! "cr-new"%string = Some credit_code
  /\ ascii_upper "CR-NEW" <> "cr-new"%string.
Proof.
  intros w lower.
  destruct (redeem_ignores_letter_case sample_clock ascii_upper 7 "cr-0ld" "CR-0LD"
              "cr-new" credit_code w) as (Hsame & _).
  destruct (redeem_ignores_letter_case sample_clock ascii_upper 7 "cr-new" "cr-new"
              "cr-new" credit_code w) as (_ & _ & Hlower & _).
  destruct (redeem_ignores_letter_case sample_clock ascii_upper 7 "CR-NEW" "CR-NEW"
              "cr-new" credit_code w) as (_ & _ & Hupper & Hnever).
  destruct (Hsame eq_refl) as (Htext & _).
  destruct Hlower as (Hreply & _ & Hkept); [vm_compute; discriminate|].
  destruct Hupper as (_ & Hreply' & _); [vm_compute; discriminate|].
  destruct Hkept as (Hrecord & _).
  { intros c' Hc'. vm_compute in Hc'. discriminate Hc'. }
  split; [exact Htext|].
  split; [fold lower in Hreply; rewrite Hreply; vm_compute; reflexivity|].
  split; [fold lower in Hreply'; rewrite Hreply'; vm_compute; reflexivity|].
  split; [exact Hrecord|].
  apply (Hnever ascii_upper_idempotent). vm_compute. discriminate.
Defined.
